(** * jjui: event routing, overlay management and render cache

    A shallow embedding of three source files of the terminal front end:
    - the configuration record and its enumerated options ([config]),
    - the file-details operation of the revisions view ([details]),
    - the top-level router and its render wrapper ([ui]).

    Conventions.
    - Go [int] values are integers in [Z]; terminal sizes and coordinates
      stay far from the 64-bit bounds.  Go division truncates toward zero
      and is [Z.quot].
    - A [tea.Cmd] is a closure in the source.  Here it is a symbolic term
      that records which code built it: [tea.Quit] is the quit command,
      [tea.Returned c] is whatever the call [c] on a collaborator returned.
    - The router owns the toggle slots and a few flags; everything else
      lives in objects of other packages.  One step of the router takes the
      answers those objects give during the step ([ui.World]) and yields
      the new router state, the calls made on them, in order, and the
      command handed back.
    - A nil dereference is the outcome [Panic]. *)

From Stdlib Require Import ZArith List String Bool Lia.
Import ListNotations.
Set Warnings "-register-all".
Local Open Scope string_scope.
Local Open Scope list_scope.
Local Open Scope Z_scope.

(** ** Outcomes of Go code that can panic *)

Inductive result (A : Type) :=
| Ok (a : A)
| Panic (reason : string).

Arguments Ok {A} a.
Arguments Panic {A} reason.

Definition bind {A B : Type} (r : result A) (f : A -> result B) : result B :=
  match r with
  | Ok a => f a
  | Panic reason => Panic reason
  end.

Notation "x <- r ;; k" := (bind r (fun x => k))
  (at level 61, r at next level, right associativity).

(** ** bubbles/key

    Key bindings of the bubbles library: a binding lists key names and can
    be disabled; a key press matches when an enabled binding lists it. *)

Module key.

(** A key press as the bindings see it: the text of [msg.String()]. *)
Definition KeyMsg := string.

Record Binding := {
  keys : list string;
  disabled : bool
}.

Definition NewBinding (ks : list string) : Binding :=
  {| keys := ks; disabled := false |}.

Definition matches1 (k : KeyMsg) (b : Binding) : bool :=
  existsb (String.eqb k) (keys b) && negb (disabled b).

(** [key.Matches(msg, b...)]: some enabled binding lists the key. *)
Definition Matches (k : KeyMsg) (bs : list Binding) : bool :=
  existsb (matches1 k) bs.

End key.

(** ** package config *)

Module config.

Inductive PreviewPosition :=
| PreviewPositionAuto
| PreviewPositionBottom
| PreviewPositionRight.

Record PreviewConfig := {
  RevisionCommand : list string;
  OplogCommand : list string;
  FileCommand : list string;
  ShowAtStart : bool;
  Position : string
}.

Inductive ShowOption := ShowOptionDiff | ShowOptionInteractive.

Record DiffConfig := {
  Command : list string;
  Show : ShowOption
}.

Record UIConfig := {
  AutoRefreshInterval : Z
}.

Record Config := {
  UI : UIConfig;
  Preview : PreviewConfig;
  Diff : DiffConfig;
  Limit : Z
}.

(** The value built by [fmt.Errorf]: the format and its argument. *)
Inductive error :=
| Errorf (format : string) (arg : string).

Definition GetPreviewPosition (c : Config) : PreviewPosition * option error :=
  let value := Position (Preview c) in
  if String.eqb value "auto" then (PreviewPositionAuto, None)
  else if String.eqb value "bottom" then (PreviewPositionBottom, None)
  else if String.eqb value "right" then (PreviewPositionRight, None)
  else (PreviewPositionAuto,
        Some (Errorf "invalid value for 'preview.position': %q (expected one of: auto, bottom, right)" value)).

(** Modelled from the spec: the key map type [KeyMappings] is declared in a
    file of package config that is not part of the sources at hand.  The
    keymap provider is "a static mapping from logical action name to one or
    more key chords"; the fields below are the actions that the router and
    the details operation look up. *)
Record KeyMappings := {
  Up : key.Binding;
  Down : key.Binding;
  Cancel : key.Binding;
  Quit : key.Binding;
  Refresh : key.Binding;
  Revset : key.Binding;
  Undo : key.Binding;
  Redo : key.Binding;
  Help : key.Binding;
  CustomCommands : key.Binding;
  Leader : key.Binding;
  QuickSearch : key.Binding;
  Suspend : key.Binding;
  OpLog_Mode : key.Binding;
  Git_Mode : key.Binding;
  Bookmark_Mode : key.Binding;
  FileSearch_Toggle : key.Binding;
  Preview_Mode : key.Binding;
  Preview_ToggleBottom : key.Binding;
  Preview_Expand : key.Binding;
  Preview_Shrink : key.Binding;
  Details_Close : key.Binding;
  Details_Diff : key.Binding;
  Details_Split : key.Binding;
  Details_SplitParallel : key.Binding;
  Details_Squash : key.Binding;
  Details_Restore : key.Binding;
  Details_Absorb : key.Binding;
  Details_ToggleSelect : key.Binding;
  Details_RevisionsChangingFile : key.Binding
}.

(** *** Values handed to the TOML hooks

    The decoder passes an [any]: a string, a boolean, a table
    ([map[string]interface{}], looked up by key) or a value of some other
    dynamic type, known here by the name that [%T] prints. *)
Inductive Value :=
| VString (s : string)
| VBool (b : bool)
| VTable (entries : list (string * Value))
| VOther (typeName : string).

(** [v[key]] on a table: Go maps hold one value per key, so the first
    entry with the key is the entry. *)
Fixpoint lookup (k : string) (entries : list (string * Value)) : option Value :=
  match entries with
  | [] => None
  | (k', v) :: rest => if String.eqb k k' then Some v else lookup k rest
  end.

Definition typeName (v : Value) : string :=
  match v with
  | VString _ => "string"
  | VBool _ => "bool"
  | VTable _ => "map[string]interface {}"
  | VOther t => t
  end.

(** The type assertions [p.(string)] and [p.(bool)], which panic on a value
    of another type. *)
Definition assertString (p : Value) : result string :=
  match p with
  | VString s => Ok s
  | _ => Panic "interface conversion: interface {} is not string"
  end.

Definition assertBool (p : Value) : result bool :=
  match p with
  | VBool b => Ok b
  | _ => Panic "interface conversion: interface {} is not bool"
  end.

(** *** Colors *)

(** [ColorAttribute] is a [uint8]; the constants are [1 << iota]. *)
Definition ColorAttribute := Z.

Definition ColorAttributeBold : ColorAttribute := Z.shiftl 1 0.
Definition ColorAttributeItalic : ColorAttribute := Z.shiftl 1 1.
Definition ColorAttributeUnderline : ColorAttribute := Z.shiftl 1 2.
Definition ColorAttributeStrikethrough : ColorAttribute := Z.shiftl 1 3.
Definition ColorAttributeReverse : ColorAttribute := Z.shiftl 1 4.

Record Color := {
  Fg : string;
  Bg : string;
  Bold : bool;
  Italic : bool;
  Underline : bool;
  Strikethrough : bool;
  Reverse : bool;
  flags : ColorAttribute
}.

Definition IsSet (c : Color) (fl : ColorAttribute) : bool :=
  Z.land (flags c) fl =? fl.

Definition set_Fg (c : Color) (v : string) : Color :=
  {| Fg := v; Bg := Bg c; Bold := Bold c; Italic := Italic c; Underline := Underline c;
     Strikethrough := Strikethrough c; Reverse := Reverse c; flags := flags c |}.

Definition set_Bg (c : Color) (v : string) : Color :=
  {| Fg := Fg c; Bg := v; Bold := Bold c; Italic := Italic c; Underline := Underline c;
     Strikethrough := Strikethrough c; Reverse := Reverse c; flags := flags c |}.

Definition set_Bold (c : Color) (v : bool) : Color :=
  {| Fg := Fg c; Bg := Bg c; Bold := v; Italic := Italic c; Underline := Underline c;
     Strikethrough := Strikethrough c; Reverse := Reverse c;
     flags := Z.lor (flags c) ColorAttributeBold |}.

Definition set_Italic (c : Color) (v : bool) : Color :=
  {| Fg := Fg c; Bg := Bg c; Bold := Bold c; Italic := v; Underline := Underline c;
     Strikethrough := Strikethrough c; Reverse := Reverse c;
     flags := Z.lor (flags c) ColorAttributeItalic |}.

Definition set_Underline (c : Color) (v : bool) : Color :=
  {| Fg := Fg c; Bg := Bg c; Bold := Bold c; Italic := Italic c; Underline := v;
     Strikethrough := Strikethrough c; Reverse := Reverse c;
     flags := Z.lor (flags c) ColorAttributeUnderline |}.

Definition set_Strikethrough (c : Color) (v : bool) : Color :=
  {| Fg := Fg c; Bg := Bg c; Bold := Bold c; Italic := Italic c; Underline := Underline c;
     Strikethrough := v; Reverse := Reverse c;
     flags := Z.lor (flags c) ColorAttributeStrikethrough |}.

Definition set_Reverse (c : Color) (v : bool) : Color :=
  {| Fg := Fg c; Bg := Bg c; Bold := Bold c; Italic := Italic c; Underline := Underline c;
     Strikethrough := Strikethrough c; Reverse := v;
     flags := Z.lor (flags c) ColorAttributeReverse |}.

(** One [if p, ok := v[key]; ok { ... p.(T) ... }] step of the hook. *)
Definition onKey {T : Type} (v : list (string * Value)) (k : string)
  (assert : Value -> result T) (set : Color -> T -> Color) (c : Color) : result Color :=
  match lookup k v with
  | Some p => x <- assert p ;; Ok (set c x)
  | None => Ok c
  end.

(** [Color.UnmarshalTOML]; the error it returns is always nil. *)
Definition Color_UnmarshalTOML (c : Color) (text : Value) : result (Color * option error) :=
  match text with
  | VString v => Ok (set_Fg c v, None)
  | VTable v =>
      c <- onKey v "fg" assertString set_Fg c ;;
      c <- onKey v "bg" assertString set_Bg c ;;
      c <- onKey v "bold" assertBool set_Bold c ;;
      c <- onKey v "italic" assertBool set_Italic c ;;
      c <- onKey v "underline" assertBool set_Underline c ;;
      c <- onKey v "strikethrough" assertBool set_Strikethrough c ;;
      c <- onKey v "reverse" assertBool set_Reverse c ;;
      Ok (c, None)
  | _ => Ok (c, None)
  end.

(** *** Themes *)

Record ThemeConfig := {
  Dark : string;
  Light : string
}.

Definition ThemeConfig_UnmarshalTOML (t : ThemeConfig) (data : Value)
  : ThemeConfig * option error :=
  match data with
  | VString v => ({| Dark := v; Light := v |}, None)
  | VTable v =>
      let step1 :=
        match lookup "dark" v with
        | Some (VString darkStr) => ({| Dark := darkStr; Light := Light t |}, None)
        | Some dark =>
            (t, Some (Errorf "invalid type for 'dark' in theme configuration: expected string, got %T"
                        (typeName dark)))
        | None => (t, None)
        end in
      match step1 with
      | (t1, Some e) => (t1, Some e)
      | (t1, None) =>
          match lookup "light" v with
          | Some (VString lightStr) => ({| Dark := Dark t1; Light := lightStr |}, None)
          | Some light =>
              (t1, Some (Errorf "invalid type for 'light' in theme configuration: expected string, got %T"
                           (typeName light)))
          | None => (t1, None)
          end
      end
  | _ => (t, None)
  end.

(** *** The show option of the diff command

    [ShowOption] is a string type in the source; [ShowOption_UnmarshalText]
    works on the receiver as the string it is. *)
Definition ShowOption_string (o : ShowOption) : string :=
  match o with
  | ShowOptionDiff => "diff"
  | ShowOptionInteractive => "interactive"
  end.

Definition ShowOption_UnmarshalText (s : string) (text : string) : string * option error :=
  let val := text in
  if String.eqb val (ShowOption_string ShowOptionDiff)
     || String.eqb val (ShowOption_string ShowOptionInteractive)
  then (val, None)
  else (s, Some (Errorf "invalid value for 'show': %q. Allowed: none, interactive and diff" val)).

(** *** The suggest mode *)

Inductive SuggestMode := SuggestModeOff | SuggestModeFuzzy | SuggestModeRegex.

Record SuggestExecConfig := {
  Mode : string
}.

Record SuggestConfig := {
  Exec : SuggestExecConfig
}.

(** [GetSuggestExecMode] reads [c.Suggest] only; it is given that part of
    the configuration. *)
Definition GetSuggestExecMode (suggest : SuggestConfig) : SuggestMode * option error :=
  let value := Mode (Exec suggest) in
  if String.eqb value "off" then (SuggestModeOff, None)
  else if String.eqb value "fuzzy" then (SuggestModeFuzzy, None)
  else if String.eqb value "regex" then (SuggestModeRegex, None)
  else (SuggestModeOff,
        Some (Errorf "invalid value for 'suggest.exec.mode': %q (expected one of: off, fuzzy, regex)" value)).

(** *** The default editor

    What the operating system answers: environment variables, and for a
    program name the path found and the error of the lookup, if any. *)
Record OS := {
  Getenv : string -> string;
  LookPath : string -> string * option string
}.

Definition editor_candidates : list string := ["nano"; "vim"; "vi"; "notepad.exe"].

(** The loop over the candidates: the path of the first one found. *)
Fixpoint firstOnPath (os : OS) (editor : string) (candidates : list string) : string :=
  match candidates with
  | [] => editor
  | candidate :: rest =>
      match LookPath os candidate with
      | (p, None) => p
      | (_, Some _) => firstOnPath os editor rest
      end
  end.

Definition GetDefaultEditor (os : OS) : string :=
  let editor := Getenv os "EDITOR" in
  let editor := if String.eqb editor EmptyString then Getenv os "VISUAL" else editor in
  if String.eqb editor EmptyString then firstOnPath os editor editor_candidates
  else editor.

End config.

(** ** bubbletea messages and commands *)

Module tea.

Inductive MouseAction := MouseActionPress | MouseActionRelease | MouseActionMotion.

Inductive MouseButton :=
| MouseButtonNone
| MouseButtonLeft
| MouseButtonMiddle
| MouseButtonRight
| MouseButtonWheelUp
| MouseButtonWheelDown.

(** A closure built by a collaborating package (a custom command, a script,
    a deferred update).  Only its identity is known to the router. *)
Definition Closure := nat.

(** The message types that the router and the details operation switch on.
    [OtherMsg] stands for any message type that has no case of its own. *)
Inductive Msg :=
| KeyMsg (k : key.KeyMsg)
| MouseMsg (X Y : Z) (Action : MouseAction) (Button : MouseButton)
| FocusMsg
| WindowSizeMsg (Width Height : Z)
| CloseViewMsg
| DeferredUpdateMsg (Fn : option Closure)
| ExecMsg (line : string)
| ExecProcessCompletedMsg
| ToggleHelpMsg
| ShowDiffMsg (text : string)
| UpdateRevisionsSuccessMsg
| SequenceTimeoutMsg
| triggerAutoRefreshMsg
| AutoRefreshMsg
| UpdateRevSetMsg (revset : string)
| RunLuaScriptMsg (Script : string)
| ShowChooseMsg (Options : list string) (Title : string)
| ChooseSelectedMsg
| ChooseCancelledMsg
| ShowInputMsg (Title Prompt : string)
| InputSelectedMsg
| InputCancelledMsg
| ShowPreview (visible : bool)
| TogglePasswordMsg (Password : option nat) (Prompt : string)
| CommandCompletedMsg (Output : string) (Err : option string)
| IntentEdit (Clear : bool)
| frameTickMsg
| OtherMsg (tag : string).

(** The sub-models a message can be handed to. *)
Inductive Surface :=
| SLeader | SPassword | SDiff | SRevset | SStatus | SRevisions
| SStacked | SOplog | SPreview | SFlash | SConfirmation.

Record Commit := {
  GetChangeId : string;
  CommitId : string
}.

(** Argument lists built by package jj. *)
Inductive JJArgs :=
| Split (changeId : string) (files : list string) (parallel : bool)
| Restore (changeId : string) (files : list string)
| RestoreInteractive (changeId : string) (file : string)
| Absorb (changeId : string) (files : list string)
| FilesInRevision (rev : Commit)
| TemplatedArgs (template : list string) (changeId commitId file : string) (width : Z).

(** A call that the router or an operation makes on a collaborating object.
    The object changes behind its own interface; the call is what the
    caller contributes. *)
Inductive Call :=
| CUpdate (s : Surface) (msg : Msg)
| CInit (s : Surface)
| CDragStart (s : Surface) (x y : Z)
| CDragMove (s : Surface) (x y : Z)
| CDragEnd (s : Surface) (x y : Z)
| CHandleKey (k : key.KeyMsg)
| CHandleTimeout
| CRunScript (script : string)
| CHandleMsg (msg : Msg)
| CFn (f : Closure)
| CDeleteOldest
| CSetWidth (w : Z)
| CSetHeight (h : Z)
| CExpand
| CShrink
| CAddToHistory (revset : string)
| CRunCommandImmediate (args : JJArgs).

(** A [tea.Cmd].  [Returned c] is the command that the call [c] returned;
    [Foreign f] is a closure built by another package. *)
Inductive Cmd :=
| Nil
| Quit
| Suspend
| EnableMouseCellMotion
| SetWindowTitle (title : string)
| Batch (cmds : list Cmd)
| Tick (nanoseconds : Z) (msg : Msg)
| Emit (msg : Msg)
| Close
| Refresh
| RefreshAndKeepSelections
| SelectionChanged
| ToggleHelp
| FileSearch (revset : string) (preview : bool) (rev : Commit) (listing : JJArgs)
| UpdateRevSetFiles (fileName : string)
| RunCommand (args : JJArgs) (continuations : list Cmd)
| RunInteractiveCommand (args : JJArgs) (continuation : Cmd)
| ShowDiffOf (args : JJArgs)
| ExecLine (line : string)
| LeaderInitCmd
| ConfirmationClose
| InvokeStartSquash (selected : Commit) (files : list string)
| Prepare (command : string)
| Returned (c : Call)
| Foreign (f : Closure).

Definition isNil (c : Cmd) : bool :=
  match c with Nil => true | _ => false end.

(** Does the command, or a command batched or chained inside it, name
    [tea.Quit]? *)
Fixpoint emits_quit (c : Cmd) : bool :=
  match c with
  | Quit => true
  | Batch cmds => existsb emits_quit cmds
  | RunCommand _ continuations => existsb emits_quit continuations
  | RunInteractiveCommand _ continuation => emits_quit continuation
  | _ => false
  end.

Definition Millisecond : Z := 1000000.
Definition Second : Z := 1000000000.

End tea.

(** ** package context *)

Module context.

(** What the user has under the cursor or has checked. *)
Inductive Item :=
| SelectedRevision (ChangeId CommitId : string)
| SelectedFile (ChangeId CommitId File : string)
| SelectedOperation (OperationId : string)
| NoItem.

Definition Item_eqb (a b : Item) : bool :=
  match a, b with
  | SelectedRevision c1 k1, SelectedRevision c2 k2 => String.eqb c1 c2 && String.eqb k1 k2
  | SelectedFile c1 k1 f1, SelectedFile c2 k2 f2 =>
      String.eqb c1 c2 && String.eqb k1 k2 && String.eqb f1 f2
  | SelectedOperation o1, SelectedOperation o2 => String.eqb o1 o2
  | NoItem, NoItem => true
  | _, _ => false
  end.

(** A custom command as the router uses it: its chord sequence, its single
    key binding and its applicability predicate. *)
Record CustomCommand := {
  Name : string;
  Sequence : list key.Binding;
  Binding : key.Binding;
  IsApplicableTo : Item -> bool
}.

(** The shared context.  [CustomCommands] is the registry in the order in
    which [SortedCustomCommands] lists it. *)
Record MainContext := {
  Location : string;
  SelectedItem : Item;
  CheckedItems : list Item;
  CurrentRevset : string;
  DefaultRevset : string;
  ScreenWidth : Z;
  CustomCommands : list CustomCommand
}.

Definition with_CheckedItems (c : MainContext) (v : list Item) : MainContext :=
  {| Location := Location c; SelectedItem := SelectedItem c; CheckedItems := v;
     CurrentRevset := CurrentRevset c; DefaultRevset := DefaultRevset c;
     ScreenWidth := ScreenWidth c; CustomCommands := CustomCommands c |}.

Definition with_CurrentRevset (c : MainContext) (v : string) : MainContext :=
  {| Location := Location c; SelectedItem := SelectedItem c; CheckedItems := CheckedItems c;
     CurrentRevset := v; DefaultRevset := DefaultRevset c;
     ScreenWidth := ScreenWidth c; CustomCommands := CustomCommands c |}.

Definition with_ScreenWidth (c : MainContext) (v : Z) : MainContext :=
  {| Location := Location c; SelectedItem := SelectedItem c; CheckedItems := CheckedItems c;
     CurrentRevset := CurrentRevset c; DefaultRevset := DefaultRevset c;
     ScreenWidth := v; CustomCommands := CustomCommands c |}.

(** Modelled from the spec: the checked-item registry is kept by a file of
    package context that is not part of the sources at hand; adding appends
    the item and removing drops every equal item. *)
Definition AddCheckedItem (c : MainContext) (it : Item) : MainContext :=
  with_CheckedItems c (CheckedItems c ++ [it]).

Definition RemoveCheckedItem (c : MainContext) (it : Item) : MainContext :=
  with_CheckedItems c (filter (fun x => negb (Item_eqb x it)) (CheckedItems c)).

End context.

(** ** package confirmation *)

Module confirmation.

Record Option_ := {
  label : string;
  cmd : tea.Cmd;
  binding : key.Binding
}.

Record Model := {
  messages : list string;
  stylePrefix : string;
  options : list Option_
}.

Definition New (msgs : list string) (prefix : string) (opts : list Option_) : Model :=
  {| messages := msgs; stylePrefix := prefix; options := opts |}.

Definition WithOption (l : string) (c : tea.Cmd) (b : key.Binding) : Option_ :=
  {| label := l; cmd := c; binding := b |}.

End confirmation.

(** ** package details: the file list of one revision *)

Module details.

Inductive status := Added | Deleted | Modified | Renamed | Copied.

Record item := {
  status_ : status;
  name : string;
  fileName : string;
  selected : bool;
  conflict : bool
}.

Definition with_selected (it : item) (v : bool) : item :=
  {| status_ := status_ it; name := name it; fileName := fileName it;
     selected := v; conflict := conflict it |}.

(** Modelled from the spec: the list widget [DetailsList] (its fields, the
    cursor accessor [current] and the cursor moves) lives in a file of
    package details that is not part of the sources at hand.  The callers
    test [current()] against nil, so it is the item under the cursor when
    there is one and nil otherwise; the cursor moves stay inside the list. *)
Record DetailsList := {
  files : list item;
  cursor : Z;
  selectedHint : string;
  unselectedHint : string
}.

Definition current (l : DetailsList) : option item :=
  if cursor l <? 0 then None else nth_error (files l) (Z.to_nat (cursor l)).

Definition with_cursor (l : DetailsList) (v : Z) : DetailsList :=
  {| files := files l; cursor := v;
     selectedHint := selectedHint l; unselectedHint := unselectedHint l |}.

Definition with_files (l : DetailsList) (v : list item) : DetailsList :=
  {| files := v; cursor := cursor l;
     selectedHint := selectedHint l; unselectedHint := unselectedHint l |}.

Definition with_hints (l : DetailsList) (sel unsel : string) : DetailsList :=
  {| files := files l; cursor := cursor l;
     selectedHint := sel; unselectedHint := unsel |}.

Definition cursorUp (l : DetailsList) : DetailsList :=
  if 0 <? cursor l then with_cursor l (cursor l - 1) else l.

Definition cursorDown (l : DetailsList) : DetailsList :=
  if cursor l <? Z.of_nat (List.length (files l)) - 1 then with_cursor l (cursor l + 1) else l.

(** Writing through the pointer that [current()] returned. *)
Fixpoint set_selected_at (fs : list item) (n : nat) (v : bool) : list item :=
  match fs, n with
  | [], _ => []
  | f :: rest, O => with_selected f v :: rest
  | f :: rest, S n' => f :: set_selected_at rest n' v
  end.

Record Operation := {
  list_ : DetailsList;
  context : context.MainContext;
  Current : option tea.Commit;
  revision : tea.Commit;
  confirmation : option confirmation.Model;
  keyMap : config.KeyMappings
}.

Definition with_list (s : Operation) (v : DetailsList) : Operation :=
  {| list_ := v; context := context s; Current := Current s; revision := revision s;
     confirmation := confirmation s; keyMap := keyMap s |}.

Definition with_context (s : Operation) (v : context.MainContext) : Operation :=
  {| list_ := list_ s; context := v; Current := Current s; revision := revision s;
     confirmation := confirmation s; keyMap := keyMap s |}.

Definition with_confirmation (s : Operation) (v : option confirmation.Model) : Operation :=
  {| list_ := list_ s; context := context s; Current := Current s; revision := revision s;
     confirmation := v; keyMap := keyMap s |}.

Definition Name (s : Operation) : string := "details".

(** The loop of [getSelectedFiles]: append the name of each selected file. *)
Definition collectSelected (fs : list item) : list string :=
  fold_left (fun acc f => if selected f then acc ++ [fileName f] else acc) fs [].

Definition getSelectedFiles (s : Operation) (allowVirtualSelection : bool)
  : result (list string) :=
  if (List.length (files (list_ s)) =? 0)%nat then Ok []
  else
    let selectedFiles := collectSelected (files (list_ s)) in
    if (List.length selectedFiles =? 0)%nat && allowVirtualSelection then
      match current (list_ s) with
      | Some it => Ok (selectedFiles ++ [fileName it])
      | None => Panic "nil pointer dereference"
      end
    else Ok selectedFiles.

Definition yes_binding := key.NewBinding ["y"].
Definition no_binding := key.NewBinding ["n"; "esc"].
Definition interactive_binding := key.NewBinding ["i"].

Definition checkedFile (s : Operation) (it : item) : context.Item :=
  context.SelectedFile (tea.GetChangeId (revision s)) (tea.CommitId (revision s)) (fileName it).

(** [Operation.internalUpdate].  [Current] is the global [config.Current]. *)
Definition internalUpdate (Current : config.Config) (s : Operation) (msg : tea.Msg)
  : result (Operation * tea.Cmd) :=
  match msg with
  | tea.KeyMsg k =>
    match confirmation s with
    | Some _ => Ok (s, tea.Returned (tea.CUpdate tea.SConfirmation msg))
    | None =>
      let km := keyMap s in
      let changeId := tea.GetChangeId (revision s) in
      if key.Matches k [config.Up km] then
        Ok (with_list s (cursorUp (list_ s)), tea.Nil)
      else if key.Matches k [config.Down km] then
        Ok (with_list s (cursorDown (list_ s)), tea.Nil)
      else if key.Matches k [config.Cancel km] || key.Matches k [config.Details_Close km] then
        Ok (s, tea.Close)
      else if key.Matches k [config.Quit km] then
        Ok (s, tea.Quit)
      else if key.Matches k [config.Refresh km] then
        Ok (s, tea.Refresh)
      else if key.Matches k [config.Details_Diff km] then
        match current (list_ s) with
        | None => Ok (s, tea.Nil)
        | Some sel =>
          let args := tea.TemplatedArgs (config.Command (config.Diff Current))
                        changeId (tea.CommitId (revision s)) (fileName sel)
                        (context.ScreenWidth (context s)) in
          match config.Show (config.Diff Current) with
          | config.ShowOptionInteractive => Ok (s, tea.RunInteractiveCommand args tea.Refresh)
          | config.ShowOptionDiff => Ok (s, tea.ShowDiffOf args)
          end
        end
      else if key.Matches k [config.Details_Split km; config.Details_SplitParallel km] then
        let isParallel := key.Matches k [config.Details_SplitParallel km] in
        selectedFiles <- getSelectedFiles s true ;;
        let s1 := with_list s (with_hints (list_ s) "stays as is" "moves to the new revision") in
        let model := confirmation.New
          ["Are you sure you want to split the selected files?"] "revisions"
          [confirmation.WithOption "Yes"
             (tea.Batch [tea.RunInteractiveCommand (tea.Split changeId selectedFiles isParallel) tea.Refresh;
                         tea.Close])
             yes_binding;
           confirmation.WithOption "No" tea.ConfirmationClose no_binding] in
        Ok (with_confirmation s1 (Some model), tea.Returned (tea.CInit tea.SConfirmation))
      else if key.Matches k [config.Details_Squash km] then
        selectedFiles <- getSelectedFiles s true ;;
        Ok (s, tea.InvokeStartSquash (revision s) selectedFiles)
      else if key.Matches k [config.Details_Restore km] then
        selectedFiles <- getSelectedFiles s true ;;
        let s1 := with_list s (with_hints (list_ s) "gets restored" "stays as is") in
        match current (list_ s) with
        | None => Panic "nil pointer dereference"
        | Some sel =>
          let model := confirmation.New
            ["Are you sure you want to restore the selected files?"] "revisions"
            [confirmation.WithOption "Yes"
               (tea.RunCommand (tea.Restore changeId selectedFiles)
                  [tea.Refresh; tea.ConfirmationClose])
               yes_binding;
             confirmation.WithOption "Interactive"
               (tea.Batch [tea.RunInteractiveCommand
                             (tea.RestoreInteractive changeId (fileName sel)) tea.Refresh;
                           tea.Close])
               interactive_binding;
             confirmation.WithOption "No" tea.ConfirmationClose no_binding] in
          Ok (with_confirmation s1 (Some model), tea.Returned (tea.CInit tea.SConfirmation))
        end
      else if key.Matches k [config.Details_Absorb km] then
        selectedFiles <- getSelectedFiles s true ;;
        let s1 := with_list s (with_hints (list_ s) "might get absorbed into parents" "stays as is") in
        let model := confirmation.New
          ["Are you sure you want to absorb changes from the selected files?"] "revisions"
          [confirmation.WithOption "Yes"
             (tea.RunCommand (tea.Absorb changeId selectedFiles)
                [tea.Refresh; tea.ConfirmationClose])
             yes_binding;
           confirmation.WithOption "No" tea.ConfirmationClose no_binding] in
        Ok (with_confirmation s1 (Some model), tea.Returned (tea.CInit tea.SConfirmation))
      else if key.Matches k [config.Details_ToggleSelect km] then
        match current (list_ s) with
        | None => Ok (s, tea.Nil)
        | Some cur =>
          let isChecked := negb (selected cur) in
          let l1 := with_files (list_ s)
                      (set_selected_at (files (list_ s)) (Z.to_nat (cursor (list_ s))) isChecked) in
          let ctx1 := if isChecked
                      then context.AddCheckedItem (context s) (checkedFile s cur)
                      else context.RemoveCheckedItem (context s) (checkedFile s cur) in
          Ok (with_list (with_context s ctx1) (cursorDown l1), tea.Nil)
        end
      else if key.Matches k [config.Details_RevisionsChangingFile km] then
        match current (list_ s) with
        | None => Ok (s, tea.Nil)
        | Some cur => Ok (s, tea.Batch [tea.Close; tea.UpdateRevSetFiles (fileName cur)])
        end
      else Ok (s, tea.Nil)
    end
  | _ => Ok (s, tea.Nil)
  end.

End details.

(** ** package ui: the router *)

Module ui.

(** *** Rectangles ([image.Rectangle], built by [cellbuf.Rect]) *)

Record Rectangle := {
  MinX : Z;
  MinY : Z;
  MaxX : Z;
  MaxY : Z
}.

Definition image_Rect (x0 y0 x1 y1 : Z) : Rectangle :=
  {| MinX := Z.min x0 x1; MinY := Z.min y0 y1;
     MaxX := Z.max x0 x1; MaxY := Z.max y0 y1 |}.

Definition Rect (x y w h : Z) : Rectangle := image_Rect x y (x + w) (y + h).

Definition Dx (r : Rectangle) : Z := MaxX r - MinX r.
Definition Dy (r : Rectangle) : Z := MaxY r - MinY r.

(** [cellbuf.Pos(x, y).In(r)] *)
Definition In_ (x y : Z) (r : Rectangle) : bool :=
  (MinX r <=? x) && (x <? MaxX r) && (MinY r <=? y) && (y <? MaxY r).

(** *** The sub-models held in the toggle slots *)

Inductive State := Loading | Ready | Error.

Definition State_eqb (a b : State) : bool :=
  match a, b with
  | Loading, Loading | Ready, Ready | Error, Error => true
  | _, _ => false
  end.

Inductive Leader := leader_New.
Inductive Oplog := oplog_New.
Inductive Diff := diff_New (text : string).
Inductive Password := password_New (Password : nat) (Prompt : string).
Inductive SequenceOverlay := NewSequenceOverlay.
Inductive Runner := RunnerOf (script : string).

(** The models that can occupy the single stacked-modal slot. *)
Inductive Stacked :=
| GitModel (revisions : list tea.Commit)
| UndoModel
| RedoModel
| BookmarksModel (current : option tea.Commit) (changeIds : list string)
| CustomCommandsModel
| HelpPage
| ChooseModel (Options : list string) (Title : string)
| InputModel (Title Prompt : string).

(** Modelled from the spec: the interface [operations.Operation] and the
    operations other than details are not part of the sources at hand.
    The primary view is either "in its default/normal mode" or
    "mid-operation"; an operation is known to the router by its [Name()],
    and the router spells the default one normal. *)
Inductive Operation :=
| DetailsOperation (op : details.Operation)
| OtherOperation (name : string).

Definition Operation_Name (o : Operation) : string :=
  match o with
  | DetailsOperation op => details.Name op
  | OtherOperation name => name
  end.

(** Modelled from the spec: the preview pane is a package that is not part
    of the sources at hand.  The body is split "vertical or horizontal,
    chosen by an auto-position heuristic ..., unless pinned by the user":
    the pane keeps whether it is visible, whether its position is automatic
    and whether it sits at the bottom; [SetPosition] stores the last two. *)
Record Preview := {
  Visible : bool;
  AutoPosition : bool;
  AtBottom : bool
}.

Definition SetPosition (p : Preview) (autoPos atBottom : bool) : Preview :=
  {| Visible := Visible p; AutoPosition := autoPos; AtBottom := atBottom |}.

Definition SetVisible (p : Preview) (v : bool) : Preview :=
  {| Visible := v; AutoPosition := AutoPosition p; AtBottom := AtBottom p |}.

Definition ToggleVisible (p : Preview) : Preview := SetVisible p (negb (Visible p)).

(** *** What the collaborators answer during one step

    The sub-models, the chord matcher and the script runner are objects of
    other packages.  A step of the router asks them questions; their
    answers during that step are collected here.  The global
    [config.Current] is part of it. *)

(** What [SequenceOverlay.HandleKey] and [HandleTimeout] report: the
    command to run, if any, and whether the matcher goes on collecting. *)
Record SequenceResult := {
  Cmd : option tea.Closure;
  Active : bool
}.

(** What [scripting.RunScript] returns, with what the new runner answers
    to [Done()] right away. *)
Record RunScriptResult := {
  runner : option Runner;
  cmd : option tea.Closure;
  err : option string;
  Done : bool
}.

Record World := {
  (* the global config.Current *)
  config_Current : config.Config;
  (* m.revsetModel.Editing and m.status.IsFocused() *)
  revset_Editing : bool;
  status_IsFocused : bool;
  (* the revisions view *)
  revisions_IsEditing : bool;
  revisions_InNormalMode : bool;
  revisions_CurrentOperation : Operation;
  revisions_SelectedRevision : option tea.Commit;
  revisions_SelectedRevisions : list tea.Commit;
  revisions_GetCommitIds : list string;
  (* m.flash.Any() *)
  flash_Any : bool;
  (* the Frame of each view *)
  Frame_of : tea.Surface -> Rectangle;
  (* None when the view's type is no common.Draggable, else what its
     DragStart(x, y) reports *)
  DragStart_of : tea.Surface -> option (Z -> Z -> bool);
  (* m.dragTarget.IsDragging(), read when there is a drag target *)
  dragTarget_IsDragging : bool;
  (* what the chord matcher in the slot, or the one just put there,
     reports for a key and for a timeout *)
  overlay_HandleKey : key.KeyMsg -> SequenceResult;
  overlay_HandleTimeout : SequenceResult;
  (* scripting.RunScript(m.context, script) *)
  scripting_RunScript : string -> RunScriptResult;
  (* m.scriptRunner.HandleMsg(msg), nil or a command, and Done() after it *)
  runner_HandleMsg : tea.Msg -> option tea.Closure;
  runner_Done : tea.Msg -> bool
}.

(** *** The router's own state

    The fields that the router assigns.  The sub-models that are never
    replaced (revisions, revset editor, status bar, flash queue) are always
    present; what the router reads from them is in [World]. *)

Record Model := {
  Frame : Rectangle;
  Width : Z;
  Height : Z;
  oplog : option Oplog;
  previewModel : Preview;
  diff : option Diff;
  leader : option Leader;
  state : State;
  password : option Password;
  context : context.MainContext;
  scriptRunner : option Runner;
  keyMap : config.KeyMappings;
  stacked : option Stacked;
  dragTarget : option tea.Surface;
  sequenceOverlay : option SequenceOverlay
}.

Definition with_oplog (m : Model) (v : option Oplog) : Model :=
  {| Frame := Frame m; Width := Width m; Height := Height m; oplog := v;
     previewModel := previewModel m; diff := diff m; leader := leader m;
     state := state m; password := password m; context := context m;
     scriptRunner := scriptRunner m; keyMap := keyMap m; stacked := stacked m;
     dragTarget := dragTarget m; sequenceOverlay := sequenceOverlay m |}.

Definition with_previewModel (m : Model) (v : Preview) : Model :=
  {| Frame := Frame m; Width := Width m; Height := Height m; oplog := oplog m;
     previewModel := v; diff := diff m; leader := leader m; state := state m;
     password := password m; context := context m; scriptRunner := scriptRunner m;
     keyMap := keyMap m; stacked := stacked m; dragTarget := dragTarget m;
     sequenceOverlay := sequenceOverlay m |}.

Definition with_diff (m : Model) (v : option Diff) : Model :=
  {| Frame := Frame m; Width := Width m; Height := Height m; oplog := oplog m;
     previewModel := previewModel m; diff := v; leader := leader m; state := state m;
     password := password m; context := context m; scriptRunner := scriptRunner m;
     keyMap := keyMap m; stacked := stacked m; dragTarget := dragTarget m;
     sequenceOverlay := sequenceOverlay m |}.

Definition with_leader (m : Model) (v : option Leader) : Model :=
  {| Frame := Frame m; Width := Width m; Height := Height m; oplog := oplog m;
     previewModel := previewModel m; diff := diff m; leader := v; state := state m;
     password := password m; context := context m; scriptRunner := scriptRunner m;
     keyMap := keyMap m; stacked := stacked m; dragTarget := dragTarget m;
     sequenceOverlay := sequenceOverlay m |}.

Definition with_state (m : Model) (v : State) : Model :=
  {| Frame := Frame m; Width := Width m; Height := Height m; oplog := oplog m;
     previewModel := previewModel m; diff := diff m; leader := leader m; state := v;
     password := password m; context := context m; scriptRunner := scriptRunner m;
     keyMap := keyMap m; stacked := stacked m; dragTarget := dragTarget m;
     sequenceOverlay := sequenceOverlay m |}.

Definition with_password (m : Model) (v : option Password) : Model :=
  {| Frame := Frame m; Width := Width m; Height := Height m; oplog := oplog m;
     previewModel := previewModel m; diff := diff m; leader := leader m;
     state := state m; password := v; context := context m;
     scriptRunner := scriptRunner m; keyMap := keyMap m; stacked := stacked m;
     dragTarget := dragTarget m; sequenceOverlay := sequenceOverlay m |}.

Definition with_context (m : Model) (v : context.MainContext) : Model :=
  {| Frame := Frame m; Width := Width m; Height := Height m; oplog := oplog m;
     previewModel := previewModel m; diff := diff m; leader := leader m;
     state := state m; password := password m; context := v;
     scriptRunner := scriptRunner m; keyMap := keyMap m; stacked := stacked m;
     dragTarget := dragTarget m; sequenceOverlay := sequenceOverlay m |}.

Definition with_scriptRunner (m : Model) (v : option Runner) : Model :=
  {| Frame := Frame m; Width := Width m; Height := Height m; oplog := oplog m;
     previewModel := previewModel m; diff := diff m; leader := leader m;
     state := state m; password := password m; context := context m;
     scriptRunner := v; keyMap := keyMap m; stacked := stacked m;
     dragTarget := dragTarget m; sequenceOverlay := sequenceOverlay m |}.

Definition with_stacked (m : Model) (v : option Stacked) : Model :=
  {| Frame := Frame m; Width := Width m; Height := Height m; oplog := oplog m;
     previewModel := previewModel m; diff := diff m; leader := leader m;
     state := state m; password := password m; context := context m;
     scriptRunner := scriptRunner m; keyMap := keyMap m; stacked := v;
     dragTarget := dragTarget m; sequenceOverlay := sequenceOverlay m |}.

Definition with_dragTarget (m : Model) (v : option tea.Surface) : Model :=
  {| Frame := Frame m; Width := Width m; Height := Height m; oplog := oplog m;
     previewModel := previewModel m; diff := diff m; leader := leader m;
     state := state m; password := password m; context := context m;
     scriptRunner := scriptRunner m; keyMap := keyMap m; stacked := stacked m;
     dragTarget := v; sequenceOverlay := sequenceOverlay m |}.

Definition with_sequenceOverlay (m : Model) (v : option SequenceOverlay) : Model :=
  {| Frame := Frame m; Width := Width m; Height := Height m; oplog := oplog m;
     previewModel := previewModel m; diff := diff m; leader := leader m;
     state := state m; password := password m; context := context m;
     scriptRunner := scriptRunner m; keyMap := keyMap m; stacked := stacked m;
     dragTarget := dragTarget m; sequenceOverlay := v |}.

Definition isSome {A : Type} (o : option A) : bool :=
  match o with Some _ => true | None => false end.

(** Modelled from the spec: [ViewNode.SetFrame] is in package common, not
    part of the sources at hand; it stores the rectangle and the width and
    height that the router reads back as [m.Width] and [m.Height]. *)
Definition SetFrame (m : Model) (r : Rectangle) : Model :=
  {| Frame := r; Width := Dx r; Height := Dy r; oplog := oplog m;
     previewModel := previewModel m; diff := diff m; leader := leader m;
     state := state m; password := password m; context := context m;
     scriptRunner := scriptRunner m; keyMap := keyMap m; stacked := stacked m;
     dragTarget := dragTarget m; sequenceOverlay := sequenceOverlay m |}.

(** One step: the new state, the calls made on collaborators in order, and
    the command handed back. *)
Definition Step := (Model * list tea.Call * tea.Cmd)%type.

Definition deliver (m : Model) (s : tea.Surface) (msg : tea.Msg) : Step :=
  (m, [tea.CUpdate s msg], tea.Returned (tea.CUpdate s msg)).

Definition handleFocusInputMessage (w : World) (m : Model) (msg : tea.Msg) : Step * bool :=
  match msg with
  | tea.CloseViewMsg =>
      if isSome (leader m) then ((with_leader m None, [], tea.Nil), true)
      else if isSome (diff m) then ((with_diff m None, [], tea.Nil), true)
      else if isSome (stacked m) then ((with_stacked m None, [], tea.Nil), true)
      else if isSome (oplog m) then ((with_oplog m None, [], tea.SelectionChanged), true)
      else ((m, [], tea.Nil), false)
  | _ =>
      if isSome (leader m) then (deliver m tea.SLeader msg, true)
      else
        match msg with
        | tea.KeyMsg _ =>
            if isSome (password m) then (deliver m tea.SPassword msg, true)
            else if isSome (diff m) then (deliver m tea.SDiff msg, true)
            else if revset_Editing w then
              (deliver (with_state m Loading) tea.SRevset msg, true)
            else if status_IsFocused w then (deliver m tea.SStatus msg, true)
            else if revisions_IsEditing w then (deliver m tea.SRevisions msg, true)
            else if isSome (stacked m) then (deliver m tea.SStacked msg, true)
            else ((m, [], tea.Nil), false)
        | _ => ((m, [], tea.Nil), false)
        end
  end.

Fixpoint shouldStart_loop (item : context.Item) (k : key.KeyMsg)
  (commands : list context.CustomCommand) : bool :=
  match commands with
  | [] => false
  | command :: rest =>
      match context.Sequence command with
      | [] => shouldStart_loop item k rest
      | first :: _ =>
          if negb (context.IsApplicableTo command item) then shouldStart_loop item k rest
          else if key.Matches k [first] then true
          else shouldStart_loop item k rest
      end
  end.

Definition shouldStartSequenceOverlay (m : Model) (k : key.KeyMsg) : bool :=
  shouldStart_loop (context.SelectedItem (context m)) k
    (context.CustomCommands (context m)).

Definition ensureSequenceOverlay (m : Model) (k : key.KeyMsg) : Model * bool :=
  if isSome (sequenceOverlay m) then (m, true)
  else if negb (shouldStartSequenceOverlay m k) then (m, false)
  else (with_sequenceOverlay m (Some NewSequenceOverlay), true).

Definition foreign (c : option tea.Closure) : tea.Cmd :=
  match c with
  | Some f => tea.Foreign f
  | None => tea.Nil
  end.

Definition handleCustomCommandSequence (w : World) (m : Model) (k : key.KeyMsg) : Step :=
  let '(m1, ok) := ensureSequenceOverlay m k in
  if negb ok then (m1, [], tea.Nil)
  else
    let res := overlay_HandleKey w k in
    let m2 := if negb (Active res) then with_sequenceOverlay m1 None else m1 in
    (m2, [tea.CHandleKey k], foreign (Cmd res)).

Definition isSafeToQuit (w : World) (m : Model) : bool :=
  if isSome (stacked m) then false
  else if isSome (oplog m) then false
  else if String.eqb (Operation_Name (revisions_CurrentOperation w)) "normal" then true
  else false.

Definition findViewAt (w : World) (m : Model) (x y : Z) : option tea.Surface :=
  if isSome (diff m) && In_ x y (Frame_of w tea.SDiff) then Some tea.SDiff
  else if isSome (oplog m) && In_ x y (Frame_of w tea.SOplog) then Some tea.SOplog
  else if negb (isSome (oplog m)) && In_ x y (Frame_of w tea.SRevisions) then Some tea.SRevisions
  else if Visible (previewModel m) && In_ x y (Frame_of w tea.SPreview) then Some tea.SPreview
  else None.

Definition UpdatePreviewPosition (m : Model) : Model :=
  if AutoPosition (previewModel m) then
    let atBottom := Height m >=? Z.quot (Width m) 2 in
    with_previewModel m (SetPosition (previewModel m) true atBottom)
  else m.

Definition scheduleAutoRefresh (w : World) : tea.Cmd :=
  let interval := config.AutoRefreshInterval (config.UI (config_Current w)) in
  if 0 <? interval then tea.Tick (interval * tea.Second) tea.triggerAutoRefreshMsg
  else tea.Nil.

Definition Init (w : World) (m : Model) : tea.Cmd :=
  tea.Batch [tea.SetWindowTitle ("jjui - " ++ context.Location (context m))%string;
             tea.Returned (tea.CInit tea.SRevisions);
             scheduleAutoRefresh w].

(** *** [Model.Update] *)

(** Where a case of the message switch leaves control: it returns, or it
    falls out of the switch with the commands gathered so far. *)
Inductive Flow :=
| Return (s : Step)
| Continue (m : Model) (log : list tea.Call) (cmds : list tea.Cmd).

(** The hit-testing half of the mouse case. *)
Definition Update_hit (w : World) (m : Model) (msg : tea.Msg)
  (X Y : Z) (Action : tea.MouseAction) (Button : tea.MouseButton) : Step :=
  match findViewAt w m X Y with
  | Some model =>
      match DragStart_of w model, Action, Button with
      | Some DragStart, tea.MouseActionPress, tea.MouseButtonLeft =>
          if DragStart X Y then
            (with_dragTarget m (Some model), [tea.CDragStart model X Y], tea.Nil)
          else
            (m, [tea.CDragStart model X Y; tea.CUpdate model msg],
             tea.Returned (tea.CUpdate model msg))
      | _, _, _ => deliver m model msg
      end
  | None => (m, [], tea.Nil)
  end.

(** The mouse case. *)
Definition Update_mouse (w : World) (m : Model) (msg : tea.Msg)
  (X Y : Z) (Action : tea.MouseAction) (Button : tea.MouseButton) : Step :=
  if isSome (stacked m) then (m, [], tea.Nil)
  else
    match dragTarget m with
    | Some target =>
        if dragTarget_IsDragging w then
          match Action with
          | tea.MouseActionRelease =>
              (with_dragTarget m None, [tea.CDragEnd target X Y],
               tea.Returned (tea.CDragEnd target X Y))
          | tea.MouseActionMotion =>
              (m, [tea.CDragMove target X Y], tea.Returned (tea.CDragMove target X Y))
          | tea.MouseActionPress => Update_hit w m msg X Y Action Button
          end
        else Update_hit w (with_dragTarget m None) msg X Y Action Button
    | None => Update_hit w m msg X Y Action Button
    end.

(** The default case of the key switch: the first applicable custom command
    whose binding matches. *)
Fixpoint customCommand_loop (item : context.Item) (k : key.KeyMsg)
  (commands : list context.CustomCommand) : option tea.Cmd :=
  match commands with
  | [] => None
  | command :: rest =>
      if negb (context.IsApplicableTo command item) then customCommand_loop item k rest
      else if key.Matches k [context.Binding command]
           then Some (tea.Prepare (context.Name command))
           else customCommand_loop item k rest
  end.

(** The router's own key-binding table (the inner switch of the key case). *)
Definition Update_bindings (w : World) (m : Model) (log : list tea.Call) (k : key.KeyMsg) : Flow :=
  let km := keyMap m in
  let init := tea.Returned (tea.CInit tea.SStacked) in
  if key.Matches k [config.Cancel km] && State_eqb (state m) Error then
    Return (with_state m Ready, log, tea.Batch [])
  else if key.Matches k [config.Cancel km] && isSome (stacked m) then
    Return (with_stacked m None, log, tea.Batch [])
  else if key.Matches k [config.Cancel km] && flash_Any w then
    Return (m, log ++ [tea.CDeleteOldest], tea.Batch [])
  else if key.Matches k [config.Quit km] && isSafeToQuit w m then
    Return (m, log, tea.Quit)
  else if key.Matches k [config.OpLog_Mode km] then
    Return (with_oplog m (Some oplog_New), log ++ [tea.CInit tea.SOplog],
            tea.Returned (tea.CInit tea.SOplog))
  else if key.Matches k [config.Revset km] && revisions_InNormalMode w then
    let edit := tea.IntentEdit (negb (State_eqb (state m) Error)) in
    Return (m, log ++ [tea.CUpdate tea.SRevset edit], tea.Returned (tea.CUpdate tea.SRevset edit))
  else if key.Matches k [config.Git_Mode km] && revisions_InNormalMode w then
    Return (with_stacked m (Some (GitModel (revisions_SelectedRevisions w))),
            log ++ [tea.CInit tea.SStacked], init)
  else if key.Matches k [config.Undo km] && revisions_InNormalMode w then
    Return (with_stacked m (Some UndoModel), log ++ [tea.CInit tea.SStacked], tea.Batch [init])
  else if key.Matches k [config.Redo km] && revisions_InNormalMode w then
    Return (with_stacked m (Some RedoModel), log ++ [tea.CInit tea.SStacked], tea.Batch [init])
  else if key.Matches k [config.Bookmark_Mode km] && revisions_InNormalMode w then
    Return (with_stacked m
              (Some (BookmarksModel (revisions_SelectedRevision w) (revisions_GetCommitIds w))),
            log ++ [tea.CInit tea.SStacked], tea.Batch [init])
  else if key.Matches k [config.Help km] then
    Return (m, log, tea.Batch [tea.ToggleHelp])
  else if key.Matches k [config.Preview_Mode km; config.Preview_ToggleBottom km] then
    if key.Matches k [config.Preview_ToggleBottom km] then
      let previewPos := AtBottom (previewModel m) in
      let p1 := SetPosition (previewModel m) false (negb previewPos) in
      if Visible p1 then Return (with_previewModel m p1, log, tea.Batch [])
      else Return (with_previewModel m (ToggleVisible p1), log, tea.Batch [tea.SelectionChanged])
    else
      Return (with_previewModel m (ToggleVisible (previewModel m)), log,
              tea.Batch [tea.SelectionChanged])
  else if key.Matches k [config.Preview_Expand km] && Visible (previewModel m) then
    Return (m, log ++ [tea.CExpand], tea.Batch [])
  else if key.Matches k [config.Preview_Shrink km] && Visible (previewModel m) then
    Return (m, log ++ [tea.CShrink], tea.Batch [])
  else if key.Matches k [config.CustomCommands km] then
    Return (with_stacked m (Some CustomCommandsModel), log ++ [tea.CInit tea.SStacked],
            tea.Batch [init])
  else if key.Matches k [config.Leader km] then
    Return (with_leader m (Some leader_New), log, tea.Batch [tea.LeaderInitCmd])
  else if key.Matches k [config.FileSearch_Toggle km] then
    match revisions_SelectedRevision w with
    | None => Return (m, log, tea.Nil)
    | Some rev =>
        Return (m, log ++ [tea.CRunCommandImmediate (tea.FilesInRevision rev)],
                tea.FileSearch (context.CurrentRevset (context m)) (Visible (previewModel m))
                  rev (tea.FilesInRevision rev))
    end
  else if key.Matches k [config.QuickSearch km] && isSome (oplog m) then
    Return (m, log, tea.Nil)
  else if key.Matches k [config.Suspend km] then
    Return (m, log, tea.Suspend)
  else
    match customCommand_loop (context.SelectedItem (context m)) k
            (context.CustomCommands (context m)) with
    | Some c => Return (m, log, c)
    | None => Continue m log []
    end.

(** The key case: the chord matcher first, then the binding table. *)
Definition Update_key (w : World) (m : Model) (k : key.KeyMsg) : Flow :=
  let wasPartialSequenceMatch := isSome (sequenceOverlay m) in
  let '(m1, log, c) := handleCustomCommandSequence w m k in
  if negb (tea.isNil c) || isSome (sequenceOverlay m1) then Return (m1, log, c)
  else if wasPartialSequenceMatch then Return (m1, log, tea.Nil)
  else Update_bindings w m1 log k.

(** The tail of [Update]: every always-listening sub-model gets the message. *)
Definition Update_broadcast (w : World) (m : Model) (log : list tea.Call)
  (cmds : list tea.Cmd) (msg : tea.Msg) : Step :=
  let upd s := tea.Returned (tea.CUpdate s msg) in
  let cmds := cmds ++ [upd tea.SRevset; upd tea.SStatus; upd tea.SFlash] in
  let log := log ++ [tea.CUpdate tea.SRevset msg; tea.CUpdate tea.SStatus msg;
                     tea.CUpdate tea.SFlash msg] in
  let '(log, cmds) :=
    if isSome (stacked m)
    then (log ++ [tea.CUpdate tea.SStacked msg], cmds ++ [upd tea.SStacked])
    else (log, cmds) in
  let '(m, log, cmds) :=
    if isSome (scriptRunner m) then
      let cmds := match runner_HandleMsg w msg with
                  | Some f => cmds ++ [tea.Foreign f]
                  | None => cmds
                  end in
      ((if runner_Done w msg then with_scriptRunner m None else m),
       log ++ [tea.CHandleMsg msg], cmds)
    else (m, log, cmds) in
  let '(log, cmds) :=
    if isSome (oplog m)
    then (log ++ [tea.CUpdate tea.SOplog msg], cmds ++ [upd tea.SOplog])
    else (log ++ [tea.CUpdate tea.SRevisions msg], cmds ++ [upd tea.SRevisions]) in
  let '(log, cmds) :=
    if Visible (previewModel m)
    then (log ++ [tea.CUpdate tea.SPreview msg], cmds ++ [upd tea.SPreview])
    else (log, cmds) in
  (m, log, tea.Batch cmds).

(** The cases of the outer message switch. *)
Definition Update_switch (w : World) (m : Model) (msg : tea.Msg) : Flow :=
  match msg with
  | tea.DeferredUpdateMsg Fn =>
      match Fn with
      | Some f => Return (m, [tea.CFn f], tea.Returned (tea.CFn f))
      | None => Return (m, [], tea.Nil)
      end
  | tea.FocusMsg =>
      Return (m, [], tea.Batch [tea.RefreshAndKeepSelections; tea.EnableMouseCellMotion])
  | tea.MouseMsg X Y Action Button => Return (Update_mouse w m msg X Y Action Button)
  | tea.KeyMsg k => Update_key w m k
  | tea.ExecMsg line => Return (m, [], tea.ExecLine line)
  | tea.ExecProcessCompletedMsg => Continue m [] [tea.Refresh]
  | tea.ToggleHelpMsg =>
      if isSome (stacked m) then Return (with_stacked m None, [], tea.Nil)
      else Return (with_stacked m (Some HelpPage), [], tea.Nil)
  | tea.ShowDiffMsg text =>
      Return (with_diff m (Some (diff_New text)), [tea.CInit tea.SDiff],
              tea.Returned (tea.CInit tea.SDiff))
  | tea.UpdateRevisionsSuccessMsg => Continue (with_state m Ready) [] []
  | tea.SequenceTimeoutMsg =>
      if isSome (sequenceOverlay m) then
        let res := overlay_HandleTimeout w in
        let m1 := if negb (Active res) then with_sequenceOverlay m None else m in
        Return (m1, [tea.CHandleTimeout], foreign (Cmd res))
      else Return (m, [], tea.Nil)
  | tea.triggerAutoRefreshMsg =>
      Return (m, [], tea.Batch [scheduleAutoRefresh w; tea.Emit tea.AutoRefreshMsg])
  | tea.UpdateRevSetMsg revset =>
      let current := if String.eqb revset EmptyString then context.DefaultRevset (context m) else revset in
      Return (with_context m (context.with_CurrentRevset (context m) current),
              [tea.CAddToHistory current], tea.Refresh)
  | tea.RunLuaScriptMsg script =>
      let r := scripting_RunScript w script in
      match err r with
      | Some e =>
          Return (m, [tea.CRunScript script], tea.Emit (tea.CommandCompletedMsg EmptyString (Some e)))
      | None =>
          let keep :=
            match cmd r, runner r with
            | Some _, _ => runner r
            | None, None => None
            | None, Some _ => if Done r then None else runner r
            end in
          Return (with_scriptRunner m keep, [tea.CRunScript script], foreign (cmd r))
      end
  | tea.ShowChooseMsg Options Title =>
      Return (with_stacked m (Some (ChooseModel Options Title)), [tea.CInit tea.SStacked],
              tea.Returned (tea.CInit tea.SStacked))
  | tea.ChooseSelectedMsg | tea.ChooseCancelledMsg => Continue (with_stacked m None) [] []
  | tea.ShowInputMsg Title Prompt =>
      Return (with_stacked m (Some (InputModel Title Prompt)), [tea.CInit tea.SStacked],
              tea.Returned (tea.CInit tea.SStacked))
  | tea.InputSelectedMsg | tea.InputCancelledMsg => Continue (with_stacked m None) [] []
  | tea.ShowPreview visible =>
      Return (with_previewModel m (SetVisible (previewModel m) visible), [],
              tea.Batch [tea.SelectionChanged])
  | tea.TogglePasswordMsg Password Prompt =>
      let log := if isSome (password m) then [tea.CUpdate tea.SPassword msg] else [] in
      match Password with
      | None => Continue (with_password m None) log []
      | Some ch => Continue (with_password m (Some (password_New ch Prompt))) log []
      end
  | tea.WindowSizeMsg Width_ Height_ =>
      let m1 := SetFrame m (Rect 0 0 Width_ Height_) in
      let m2 := with_context m1 (context.with_ScreenWidth (context m1) Width_) in
      Continue m2 [tea.CSetWidth (Width m1); tea.CSetHeight (Height m1)] []
  | _ => Continue m [] []
  end.

(** What [Update] does once a case of the switch is done. *)
Definition Update_finish (w : World) (msg : tea.Msg) (log0 : list tea.Call) (f : Flow) : Step :=
  match f with
  | Return (m1, log1, c) => (m1, log0 ++ log1, c)
  | Continue m1 log1 cmds => Update_broadcast w m1 (log0 ++ log1) cmds msg
  end.

Definition Update (w : World) (m : Model) (msg : tea.Msg) : Step :=
  let '(focus, handled) := handleFocusInputMessage w m msg in
  if handled then focus
  else
    let '(m0, log0, _) := focus in
    Update_finish w msg log0 (Update_switch w m0 msg).

(** *** The render wrapper *)

Record wrapper := {
  ui : Model;
  scheduledNextFrame : bool;
  render : bool;
  cachedFrame : string
}.

Definition wrapper_Update (w : World) (wr : wrapper) (msg : tea.Msg)
  : wrapper * list tea.Call * tea.Cmd :=
  match msg with
  | tea.frameTickMsg =>
      ({| ui := ui wr; scheduledNextFrame := false; render := true;
          cachedFrame := cachedFrame wr |}, [], tea.Nil)
  | _ =>
      let '(ui1, log, c) := Update w (ui wr) msg in
      if negb (scheduledNextFrame wr) then
        ({| ui := ui1; scheduledNextFrame := true; render := render wr;
            cachedFrame := cachedFrame wr |}, log,
         tea.Batch [c; tea.Tick (tea.Millisecond * 8) tea.frameTickMsg])
      else
        ({| ui := ui1; scheduledNextFrame := scheduledNextFrame wr; render := render wr;
            cachedFrame := cachedFrame wr |}, log, c)
  end.

Definition wrapper_Init (w : World) (wr : wrapper) : tea.Cmd := Init w (ui wr).

(** [wrapper.View].  [Model_View] is [Model.View]: it lays the sub-views
    out, may move their frames, and composes the frame text with the
    rendering libraries; the wrapper only decides when it runs. *)
Definition wrapper_View (Model_View : Model -> Model * string) (wr : wrapper)
  : wrapper * string :=
  if render wr then
    let '(ui1, frame) := Model_View (ui wr) in
    ({| ui := ui1; scheduledNextFrame := scheduledNextFrame wr; render := false;
        cachedFrame := frame |}, frame)
  else (wr, cachedFrame wr).

(** *** Construction *)

(** [NewUI].  [km] is [config.Current.GetKeyMap()] and [p] the pane that
    [preview.New] builds; the view node made by [NewViewNode(0, 0)] has
    width and height 0. *)
Definition NewUI (c : context.MainContext) (km : config.KeyMappings) (p : Preview) : Model :=
  {| Frame := Rect 0 0 0 0; Width := 0; Height := 0; oplog := None;
     previewModel := p; diff := None; leader := None; state := Loading;
     password := None; context := c; scriptRunner := None; keyMap := km;
     stacked := None; dragTarget := None; sequenceOverlay := None |}.

(** [New]: the wrapper around a fresh router, its other fields zero. *)
Definition New (c : context.MainContext) (km : config.KeyMappings) (p : Preview) : wrapper :=
  {| ui := NewUI c km p; scheduledNextFrame := false; render := false;
     cachedFrame := EmptyString |}.

End ui.

(** ** Vocabulary of the specification *)

Module spec.

Definition valid_preview_position (s : string) : Prop :=
  s = "auto" \/ s = "bottom" \/ s = "right".

(** The four overlays that a close event can dismiss. *)
Definition active_overlays (m : ui.Model) : nat :=
  ((if ui.isSome (ui.leader m) then 1 else 0) +
   (if ui.isSome (ui.diff m) then 1 else 0) +
   (if ui.isSome (ui.stacked m) then 1 else 0) +
   (if ui.isSome (ui.oplog m) then 1 else 0))%nat.

(** Is surface [s] in a position to capture key presses? *)
Definition captures_keys (w : ui.World) (m : ui.Model) (s : tea.Surface) : bool :=
  match s with
  | tea.SPassword => ui.isSome (ui.password m)
  | tea.SDiff => ui.isSome (ui.diff m)
  | tea.SRevset => ui.revset_Editing w
  | tea.SStatus => ui.status_IsFocused w
  | tea.SRevisions => ui.revisions_IsEditing w
  | tea.SStacked => ui.isSome (ui.stacked m)
  | _ => false
  end.

(** The key routing order as the specification words it. *)
Definition stated_key_order : list tea.Surface :=
  [tea.SPassword; tea.SDiff; tea.SRevset; tea.SStatus; tea.SStacked].

(** The key routing order of the router: inline editing in the revisions
    view comes before the stacked modal. *)
Definition key_order : list tea.Surface :=
  [tea.SPassword; tea.SDiff; tea.SRevset; tea.SStatus; tea.SRevisions; tea.SStacked].

(** Is surface [s] on screen as a mouse target whose frame holds the point? *)
Definition hit (w : ui.World) (m : ui.Model) (x y : Z) (s : tea.Surface) : bool :=
  ui.In_ x y (ui.Frame_of w s) &&
  match s with
  | tea.SStacked => ui.isSome (ui.stacked m)
  | tea.SDiff => ui.isSome (ui.diff m)
  | tea.SOplog => ui.isSome (ui.oplog m)
  | tea.SRevisions => negb (ui.isSome (ui.oplog m))
  | tea.SPreview => ui.Visible (ui.previewModel m)
  | _ => false
  end.

(** The z-order as the specification words it, topmost modal first. *)
Definition stated_z_order : list tea.Surface :=
  [tea.SStacked; tea.SDiff; tea.SOplog; tea.SRevisions; tea.SPreview].

(** The z-order of the router's hit test. *)
Definition z_order : list tea.Surface :=
  [tea.SDiff; tea.SOplog; tea.SRevisions; tea.SPreview].

(** A drag is in progress. *)
Definition dragging (w : ui.World) (m : ui.Model) : bool :=
  ui.isSome (ui.dragTarget m) && ui.dragTarget_IsDragging w.

(** How many frame ticks a command schedules. *)
Fixpoint frame_ticks (c : tea.Cmd) : nat :=
  match c with
  | tea.Tick _ tea.frameTickMsg => 1
  | tea.Batch cmds => fold_right (fun c n => (frame_ticks c + n)%nat) 0%nat cmds
  | _ => 0
  end.

Definition is_frame_tick (msg : tea.Msg) : bool :=
  match msg with tea.frameTickMsg => true | _ => false end.

(** Feeding a burst of events to the wrapper, each with the answers the
    collaborators give at that moment. *)
Fixpoint wrapper_run (wr : ui.wrapper) (events : list (ui.World * tea.Msg)) : ui.wrapper :=
  match events with
  | [] => wr
  | (w, msg) :: rest => wrapper_run (fst (fst (ui.wrapper_Update w wr msg))) rest
  end.

(** Everything in the router's state apart from the four dismissable
    overlays is the same in [m] and [m']. *)
Definition same_but_overlays (m m' : ui.Model) : Prop :=
  ui.Frame m' = ui.Frame m /\ ui.Width m' = ui.Width m /\ ui.Height m' = ui.Height m /\
  ui.previewModel m' = ui.previewModel m /\ ui.state m' = ui.state m /\
  ui.password m' = ui.password m /\ ui.context m' = ui.context m /\
  ui.scriptRunner m' = ui.scriptRunner m /\ ui.keyMap m' = ui.keyMap m /\
  ui.dragTarget m' = ui.dragTarget m /\ ui.sequenceOverlay m' = ui.sequenceOverlay m.

(** No file of the list is selected. *)
Definition none_selected (fs : list details.item) : Prop :=
  forall f, In f fs -> details.selected f = false.

(** Key [k] gets past the bindings that [internalUpdate] tries before the
    quit binding. *)
Definition reaches_quit_case (km : config.KeyMappings) (k : key.KeyMsg) : Prop :=
  key.Matches k [config.Up km] = false /\
  key.Matches k [config.Down km] = false /\
  key.Matches k [config.Cancel km] = false /\
  key.Matches k [config.Details_Close km] = false.

(** Key [k] gets past the bindings that [internalUpdate] tries before the
    split binding. *)
Definition reaches_split_case (km : config.KeyMappings) (k : key.KeyMsg) : Prop :=
  reaches_quit_case km k /\
  key.Matches k [config.Quit km] = false /\
  key.Matches k [config.Refresh km] = false /\
  key.Matches k [config.Details_Diff km] = false.

(** Key [k] gets past the bindings that [internalUpdate] tries before the
    restore binding. *)
Definition reaches_restore_case (km : config.KeyMappings) (k : key.KeyMsg) : Prop :=
  reaches_split_case km k /\
  key.Matches k [config.Details_Split km; config.Details_SplitParallel km] = false /\
  key.Matches k [config.Details_Squash km] = false.

(** Key [k] gets past the bindings that [internalUpdate] tries before the
    absorb binding. *)
Definition reaches_absorb_case (km : config.KeyMappings) (k : key.KeyMsg) : Prop :=
  reaches_restore_case km k /\
  key.Matches k [config.Details_Restore km] = false.

(** The command behind the confirmation's Yes option, once the operation
    has opened one. *)
Definition yes_command (r : result (details.Operation * tea.Cmd)) : option tea.Cmd :=
  match r with
  | Ok (s, _) =>
      match details.confirmation s with
      | Some model =>
          match find (fun o => String.eqb (confirmation.label o) "Yes")
                     (confirmation.options model) with
          | Some o => Some (confirmation.cmd o)
          | None => None
          end
      | None => None
      end
  | Panic _ => None
  end.

(** Frame ticks in flight after a run of events, given [n] in flight
    before it: a delivered tick is no longer in flight, a scheduled one
    is. *)
Fixpoint pending_ticks (wr : ui.wrapper) (n : nat) (events : list (ui.World * tea.Msg)) : nat :=
  match events with
  | [] => n
  | (w, msg) :: rest =>
      let '(wr1, _, c) := ui.wrapper_Update w wr msg in
      pending_ticks wr1 ((if is_frame_tick msg then Nat.pred n else n) + frame_ticks c)%nat rest
  end.

(** A command that neither names quit nor schedules a frame tick. *)
Definition plain (c : tea.Cmd) : Prop :=
  tea.emits_quit c = false /\ frame_ticks c = 0%nat.

(** The command of a router step on [msg] from state [m]: plain, or the
    quit command in answer to the quit key with the quit guard open. *)
Definition step_ok (w : ui.World) (m : ui.Model) (msg : tea.Msg) (c : tea.Cmd) : Prop :=
  plain c \/
  (c = tea.Quit /\
   exists k, msg = tea.KeyMsg k /\
             key.Matches k [config.Quit (ui.keyMap m)] = true /\
             ui.isSafeToQuit w m = true).

Definition flow_ok (w : ui.World) (m : ui.Model) (msg : tea.Msg) (f : ui.Flow) : Prop :=
  match f with
  | ui.Return (_, _, c) => step_ok w m msg c
  | ui.Continue _ _ cmds => Forall plain cmds
  end.

(** The views that take mouse input. *)
Definition is_view (s : tea.Surface) : Prop :=
  s = tea.SDiff \/ s = tea.SOplog \/ s = tea.SRevisions \/ s = tea.SPreview.

(** What the router's own writes in a step leave alone, from [m] to [m']:
    the key map and every field of the context but the current revset and
    the screen width; the step does not enter the error state; and the drag
    target stays, is dropped, or becomes a view that takes mouse input. *)
Definition settled (m m' : ui.Model) : Prop :=
  ui.keyMap m' = ui.keyMap m /\
  context.Location (ui.context m') = context.Location (ui.context m) /\
  context.SelectedItem (ui.context m') = context.SelectedItem (ui.context m) /\
  context.CheckedItems (ui.context m') = context.CheckedItems (ui.context m) /\
  context.DefaultRevset (ui.context m') = context.DefaultRevset (ui.context m) /\
  context.CustomCommands (ui.context m') = context.CustomCommands (ui.context m) /\
  (ui.state m' = ui.Error -> ui.state m = ui.Error) /\
  (ui.dragTarget m' = ui.dragTarget m \/ ui.dragTarget m' = None \/
   exists v, ui.dragTarget m' = Some v /\ is_view v).

Definition flow_settled (m : ui.Model) (f : ui.Flow) : Prop :=
  match f with
  | ui.Return (m', _, _) => settled m m'
  | ui.Continue m' _ _ => settled m m'
  end.

(** The router states that can come about: a fresh router, whatever a step
    makes of one of them, whatever the collaborators answer, and whatever
    the other holders of the shared context write into it in between. *)
Inductive reachable (c : context.MainContext) (km : config.KeyMappings) (p : ui.Preview)
  : ui.Model -> Prop :=
| reach_new : reachable c km p (ui.NewUI c km p)
| reach_step (w : ui.World) (m : ui.Model) (msg : tea.Msg) :
    reachable c km p m -> reachable c km p (fst (fst (ui.Update w m msg)))
| reach_shared (m : ui.Model) (shared : context.MainContext) :
    reachable c km p m -> reachable c km p (ui.with_context m shared).

(** The calls of a broadcast of [msg] from state [m]. *)
Definition broadcast_calls (m : ui.Model) (msg : tea.Msg) : list tea.Call :=
  [tea.CUpdate tea.SRevset msg; tea.CUpdate tea.SStatus msg; tea.CUpdate tea.SFlash msg]
  ++ (if ui.isSome (ui.stacked m) then [tea.CUpdate tea.SStacked msg] else [])
  ++ (if ui.isSome (ui.scriptRunner m) then [tea.CHandleMsg msg] else [])
  ++ [tea.CUpdate (if ui.isSome (ui.oplog m) then tea.SOplog else tea.SRevisions) msg]
  ++ (if ui.Visible (ui.previewModel m) then [tea.CUpdate tea.SPreview msg] else []).

(** Key [k] gets past the bindings that the router tries before the preview
    bindings. *)
Definition reaches_preview_case (w : ui.World) (m : ui.Model) (k : key.KeyMsg) : Prop :=
  let km := ui.keyMap m in
  key.Matches k [config.Cancel km] = false /\
  key.Matches k [config.Quit km] = false /\
  key.Matches k [config.OpLog_Mode km] = false /\
  key.Matches k [config.Revset km] = false /\
  key.Matches k [config.Git_Mode km] = false /\
  key.Matches k [config.Undo km] = false /\
  key.Matches k [config.Redo km] = false /\
  key.Matches k [config.Bookmark_Mode km] = false /\
  key.Matches k [config.Help km] = false.

(** A command opens a chord with key [k] for the selected item. *)
Definition opens_chord (item : context.Item) (k : key.KeyMsg) (command : context.CustomCommand)
  : Prop :=
  exists first rest,
    context.Sequence command = first :: rest /\
    context.IsApplicableTo command item = true /\
    key.Matches k [first] = true.

(** A command is bound to the single key [k] for the selected item. *)
Definition bound_to (item : context.Item) (k : key.KeyMsg) (command : context.CustomCommand)
  : Prop :=
  context.IsApplicableTo command item = true /\
  key.Matches k [context.Binding command] = true.

(** No surface captures keys: leader mode is off and nothing of the key
    order is active. *)
Definition keys_free (w : ui.World) (m : ui.Model) : Prop :=
  ui.leader m = None /\ find (captures_keys w m) key_order = None.

(** The five attribute keys of a color table, the flag each one raises and
    the field it fills. *)
Definition color_attributes : list (string * config.ColorAttribute * (config.Color -> bool)) :=
  [("bold", config.ColorAttributeBold, config.Bold);
   ("italic", config.ColorAttributeItalic, config.Italic);
   ("underline", config.ColorAttributeUnderline, config.Underline);
   ("strikethrough", config.ColorAttributeStrikethrough, config.Strikethrough);
   ("reverse", config.ColorAttributeReverse, config.Reverse)].

(** The boolean under key [k] when there is one, else [default]. *)
Definition bool_at (v : list (string * config.Value)) (k : string) (default : bool) : bool :=
  match config.lookup k v with
  | Some (config.VBool b) => b
  | _ => default
  end.

Definition string_at (v : list (string * config.Value)) (k : string) (default : string)
  : string :=
  match config.lookup k v with
  | Some (config.VString x) => x
  | _ => default
  end.

(** The flag [fl] when key [k] is present, else no flag. *)
Definition flag_at (v : list (string * config.Value)) (k : string) (fl : Z) : Z :=
  match config.lookup k v with
  | Some _ => fl
  | None => 0
  end.

Definition is_string (p : config.Value) : bool :=
  match p with config.VString _ => true | _ => false end.

Definition is_bool (p : config.Value) : bool :=
  match p with config.VBool _ => true | _ => false end.

(** Key [k] is absent from the table or holds a value that passes [ok]. *)
Definition absent_or (ok : config.Value -> bool) (v : list (string * config.Value)) (k : string)
  : bool :=
  match config.lookup k v with
  | Some p => ok p
  | None => true
  end.

(** Every key of a color table that is present has the type the hook
    asserts. *)
Definition well_typed_color (v : list (string * config.Value)) : bool :=
  absent_or is_string v "fg" && absent_or is_string v "bg" &&
  absent_or is_bool v "bold" && absent_or is_bool v "italic" &&
  absent_or is_bool v "underline" && absent_or is_bool v "strikethrough" &&
  absent_or is_bool v "reverse".


(** The commands gathered by a broadcast of [msg] from state [m]. *)
Definition broadcast_cmds (w : ui.World) (m : ui.Model) (msg : tea.Msg) : list tea.Cmd :=
  [tea.Returned (tea.CUpdate tea.SRevset msg); tea.Returned (tea.CUpdate tea.SStatus msg);
   tea.Returned (tea.CUpdate tea.SFlash msg)]
  ++ (if ui.isSome (ui.stacked m) then [tea.Returned (tea.CUpdate tea.SStacked msg)] else [])
  ++ (if ui.isSome (ui.scriptRunner m)
      then match ui.runner_HandleMsg w msg with Some f => [tea.Foreign f] | None => [] end
      else [])
  ++ [tea.Returned (tea.CUpdate (if ui.isSome (ui.oplog m) then tea.SOplog else tea.SRevisions)
                      msg)]
  ++ (if ui.Visible (ui.previewModel m) then [tea.Returned (tea.CUpdate tea.SPreview msg)]
      else []).

(** The state after a broadcast of [msg]: a script runner that reports done
    is let go. *)
Definition after_broadcast (w : ui.World) (m : ui.Model) (msg : tea.Msg) : ui.Model :=
  if ui.isSome (ui.scriptRunner m) && ui.runner_Done w msg
  then ui.with_scriptRunner m None else m.

(** What identifies a row of the file list, its selection mark apart. *)
Definition file_identity (it : details.item)
  : details.status * string * string * bool :=
  (details.status_ it, details.name it, details.fileName it, details.conflict it).

(** Key [k] gets past the bindings that [internalUpdate] tries before the
    diff binding. *)
Definition reaches_diff_case (km : config.KeyMappings) (k : key.KeyMsg) : Prop :=
  reaches_quit_case km k /\
  key.Matches k [config.Quit km] = false /\
  key.Matches k [config.Refresh km] = false.

(** Key [k] gets past the bindings that [internalUpdate] tries before the
    toggle-select binding. *)
Definition reaches_toggle_case (km : config.KeyMappings) (k : key.KeyMsg) : Prop :=
  reaches_absorb_case km k /\
  key.Matches k [config.Details_Absorb km] = false.

(** Key [k] gets past the bindings that [internalUpdate] tries before the
    binding that asks for the revisions changing a file. *)
Definition reaches_changing_case (km : config.KeyMappings) (k : key.KeyMsg) : Prop :=
  reaches_toggle_case km k /\
  key.Matches k [config.Details_ToggleSelect km] = false.

End spec.

(** ** Concrete states used in the examples *)

Module examples.

Definition keyMap : config.KeyMappings :=
  {| config.Up := key.NewBinding ["up"; "k"];
     config.Down := key.NewBinding ["down"; "j"];
     config.Cancel := key.NewBinding ["esc"];
     config.Quit := key.NewBinding ["q"];
     config.Refresh := key.NewBinding ["ctrl+r"];
     config.Revset := key.NewBinding ["L"];
     config.Undo := key.NewBinding ["u"];
     config.Redo := key.NewBinding ["U"];
     config.Help := key.NewBinding ["?"];
     config.CustomCommands := key.NewBinding ["x"];
     config.Leader := key.NewBinding ["\"];
     config.QuickSearch := key.NewBinding ["/"];
     config.Suspend := key.NewBinding ["ctrl+z"];
     config.OpLog_Mode := key.NewBinding ["o"];
     config.Git_Mode := key.NewBinding ["g"];
     config.Bookmark_Mode := key.NewBinding ["b"];
     config.FileSearch_Toggle := key.NewBinding ["ctrl+t"];
     config.Preview_Mode := key.NewBinding ["p"];
     config.Preview_ToggleBottom := key.NewBinding ["P"];
     config.Preview_Expand := key.NewBinding ["ctrl+h"];
     config.Preview_Shrink := key.NewBinding ["ctrl+l"];
     config.Details_Close := key.NewBinding ["h"];
     config.Details_Diff := key.NewBinding ["d"];
     config.Details_Split := key.NewBinding ["s"];
     config.Details_SplitParallel := key.NewBinding ["S"];
     config.Details_Squash := key.NewBinding ["Q"];
     config.Details_Restore := key.NewBinding ["r"];
     config.Details_Absorb := key.NewBinding ["A"];
     config.Details_ToggleSelect := key.NewBinding ["m"; " "];
     config.Details_RevisionsChangingFile := key.NewBinding ["*"] |}.

Definition config_with_position (pos : string) : config.Config :=
  {| config.UI := {| config.AutoRefreshInterval := 0 |};
     config.Preview := {| config.RevisionCommand := ["show"];
                          config.OplogCommand := ["op"; "show"];
                          config.FileCommand := ["diff"];
                          config.ShowAtStart := false;
                          config.Position := pos |};
     config.Diff := {| config.Command := ["diff"]; config.Show := config.ShowOptionDiff |};
     config.Limit := 0 |}.

Definition Current : config.Config := config_with_position "auto".

(** A custom command bound to the two-key chord g p, applicable to any
    selection. *)
Definition push_command : context.CustomCommand :=
  {| context.Name := "push";
     context.Sequence := [key.NewBinding ["g"]; key.NewBinding ["p"]];
     context.Binding := key.NewBinding [];
     context.IsApplicableTo := fun _ => true |}.

Definition ctx : context.MainContext :=
  {| context.Location := "/repo";
     context.SelectedItem := context.SelectedRevision "abc" "123";
     context.CheckedItems := [];
     context.CurrentRevset := "all()";
     context.DefaultRevset := "all()";
     context.ScreenWidth := 80;
     context.CustomCommands := [push_command] |}.

Definition screen : ui.Rectangle := ui.Rect 0 0 80 24.

(** A chord matcher for [push_command], in the state in which nothing has
    been typed yet: g opens the chord, anything else ends it. *)
Definition first_key (k : key.KeyMsg) : ui.SequenceResult :=
  if String.eqb k "g" then {| ui.Cmd := Some 1%nat; ui.Active := true |}
  else {| ui.Cmd := None; ui.Active := false |}.

(** The same matcher after g: p runs the command, anything else ends the
    chord with nothing run. *)
Definition second_key (k : key.KeyMsg) : ui.SequenceResult :=
  if String.eqb k "p" then {| ui.Cmd := Some 2%nat; ui.Active := false |}
  else {| ui.Cmd := None; ui.Active := false |}.

(** Collaborators at rest: nothing is being edited, the revisions view is
    in its normal operation and every view fills the screen. *)
Definition quiet : ui.World :=
  {| ui.config_Current := Current;
     ui.revset_Editing := false;
     ui.status_IsFocused := false;
     ui.revisions_IsEditing := false;
     ui.revisions_InNormalMode := true;
     ui.revisions_CurrentOperation := ui.OtherOperation "normal";
     ui.revisions_SelectedRevision := None;
     ui.revisions_SelectedRevisions := [];
     ui.revisions_GetCommitIds := [];
     ui.flash_Any := false;
     ui.Frame_of := fun _ => screen;
     ui.DragStart_of := fun _ => None;
     ui.dragTarget_IsDragging := false;
     ui.overlay_HandleKey := first_key;
     ui.overlay_HandleTimeout := {| ui.Cmd := None; ui.Active := false |};
     ui.scripting_RunScript := fun _ =>
       {| ui.runner := None; ui.cmd := None; ui.err := None; ui.Done := true |};
     ui.runner_HandleMsg := fun _ => None;
     ui.runner_Done := fun _ => true |}.

Definition with_operation (w : ui.World) (o : ui.Operation) (normal editing : bool) : ui.World :=
  {| ui.config_Current := ui.config_Current w;
     ui.revset_Editing := ui.revset_Editing w;
     ui.status_IsFocused := ui.status_IsFocused w;
     ui.revisions_IsEditing := editing;
     ui.revisions_InNormalMode := normal;
     ui.revisions_CurrentOperation := o;
     ui.revisions_SelectedRevision := ui.revisions_SelectedRevision w;
     ui.revisions_SelectedRevisions := ui.revisions_SelectedRevisions w;
     ui.revisions_GetCommitIds := ui.revisions_GetCommitIds w;
     ui.flash_Any := ui.flash_Any w;
     ui.Frame_of := ui.Frame_of w;
     ui.DragStart_of := ui.DragStart_of w;
     ui.dragTarget_IsDragging := ui.dragTarget_IsDragging w;
     ui.overlay_HandleKey := ui.overlay_HandleKey w;
     ui.overlay_HandleTimeout := ui.overlay_HandleTimeout w;
     ui.scripting_RunScript := ui.scripting_RunScript w;
     ui.runner_HandleMsg := ui.runner_HandleMsg w;
     ui.runner_Done := ui.runner_Done w |}.

Definition with_matcher (w : ui.World) (f : key.KeyMsg -> ui.SequenceResult) : ui.World :=
  {| ui.config_Current := ui.config_Current w;
     ui.revset_Editing := ui.revset_Editing w;
     ui.status_IsFocused := ui.status_IsFocused w;
     ui.revisions_IsEditing := ui.revisions_IsEditing w;
     ui.revisions_InNormalMode := ui.revisions_InNormalMode w;
     ui.revisions_CurrentOperation := ui.revisions_CurrentOperation w;
     ui.revisions_SelectedRevision := ui.revisions_SelectedRevision w;
     ui.revisions_SelectedRevisions := ui.revisions_SelectedRevisions w;
     ui.revisions_GetCommitIds := ui.revisions_GetCommitIds w;
     ui.flash_Any := ui.flash_Any w;
     ui.Frame_of := ui.Frame_of w;
     ui.DragStart_of := ui.DragStart_of w;
     ui.dragTarget_IsDragging := ui.dragTarget_IsDragging w;
     ui.overlay_HandleKey := f;
     ui.overlay_HandleTimeout := ui.overlay_HandleTimeout w;
     ui.scripting_RunScript := ui.scripting_RunScript w;
     ui.runner_HandleMsg := ui.runner_HandleMsg w;
     ui.runner_Done := ui.runner_Done w |}.

Definition with_drag (w : ui.World) (isDragging : bool)
  (start : tea.Surface -> option (Z -> Z -> bool)) : ui.World :=
  {| ui.config_Current := ui.config_Current w;
     ui.revset_Editing := ui.revset_Editing w;
     ui.status_IsFocused := ui.status_IsFocused w;
     ui.revisions_IsEditing := ui.revisions_IsEditing w;
     ui.revisions_InNormalMode := ui.revisions_InNormalMode w;
     ui.revisions_CurrentOperation := ui.revisions_CurrentOperation w;
     ui.revisions_SelectedRevision := ui.revisions_SelectedRevision w;
     ui.revisions_SelectedRevisions := ui.revisions_SelectedRevisions w;
     ui.revisions_GetCommitIds := ui.revisions_GetCommitIds w;
     ui.flash_Any := ui.flash_Any w;
     ui.Frame_of := ui.Frame_of w;
     ui.DragStart_of := start;
     ui.dragTarget_IsDragging := isDragging;
     ui.overlay_HandleKey := ui.overlay_HandleKey w;
     ui.overlay_HandleTimeout := ui.overlay_HandleTimeout w;
     ui.scripting_RunScript := ui.scripting_RunScript w;
     ui.runner_HandleMsg := ui.runner_HandleMsg w;
     ui.runner_Done := ui.runner_Done w |}.

(** The router with every toggle slot empty on an 80 by 24 terminal. *)
Definition idle : ui.Model :=
  {| ui.Frame := screen; ui.Width := 80; ui.Height := 24;
     ui.oplog := None;
     ui.previewModel := {| ui.Visible := false; ui.AutoPosition := true; ui.AtBottom := false |};
     ui.diff := None; ui.leader := None; ui.state := ui.Ready; ui.password := None;
     ui.context := ctx; ui.scriptRunner := None; ui.keyMap := keyMap;
     ui.stacked := None; ui.dragTarget := None; ui.sequenceOverlay := None |}.

(** Leader mode, diff view, a stacked modal and the op log all open. *)
Definition crowded : ui.Model :=
  ui.with_oplog
    (ui.with_stacked
       (ui.with_diff (ui.with_leader idle (Some ui.leader_New)) (Some (ui.diff_New "diff text")))
       (Some ui.HelpPage))
    (Some ui.oplog_New).

(** A stand-in for [Model.View]: the frame text depends on the width. *)
Definition Model_View (m : ui.Model) : ui.Model * string :=
  (m, if ui.Width m =? 80 then "eighty columns" else "another width").

(** A wrapper that is due to render. *)
Definition due : ui.wrapper :=
  {| ui.ui := idle; ui.scheduledNextFrame := false; ui.render := true;
     ui.cachedFrame := EmptyString |}.

Definition file (n : string) (sel : bool) : details.item :=
  {| details.status_ := details.Modified; details.name := n; details.fileName := n;
     details.selected := sel; details.conflict := false |}.

Definition revision : tea.Commit := {| tea.GetChangeId := "abc"; tea.CommitId := "123" |}.

(** The details operation over a list of files, cursor on the given row. *)
Definition details_of (fs : list details.item) (row : Z) : details.Operation :=
  {| details.list_ := {| details.files := fs; details.cursor := row;
                         details.selectedHint := EmptyString;
                         details.unselectedHint := EmptyString |};
     details.context := ctx;
     details.Current := Some revision;
     details.revision := revision;
     details.confirmation := None;
     details.keyMap := keyMap |}.

(** The zero [Color]. *)
Definition no_color : config.Color :=
  {| config.Fg := EmptyString; config.Bg := EmptyString; config.Bold := false;
     config.Italic := false; config.Underline := false; config.Strikethrough := false;
     config.Reverse := false; config.flags := 0 |}.

(** A color table that turns bold off and names a foreground. *)
Definition plain_red : list (string * config.Value) :=
  [("fg", config.VString "red"); ("bold", config.VBool false)].

Definition theme : config.ThemeConfig :=
  {| config.Dark := "default_dark"; config.Light := "default_light" |}.

(** A system with no editor variable set and only vim installed. *)
Definition vim_only : config.OS :=
  {| config.Getenv := fun _ => EmptyString;
     config.LookPath := fun name =>
       if String.eqb name "vim" then ("/usr/bin/vim", None)
       else (EmptyString, Some "executable file not found in $PATH") |}.

(** The same system with VISUAL set. *)
Definition visual_set : config.OS :=
  {| config.Getenv := fun name => if String.eqb name "VISUAL" then "code" else EmptyString;
     config.LookPath := config.LookPath vim_only |}.

End examples.

(** ** Proof steps for the case analysis of the key switch *)

Ltac flow_step :=
  lazymatch goal with
  | |- spec.flow_ok _ _ _ (if ?c then _ else _) => destruct c eqn:?
  | |- spec.flow_ok _ _ _ (match ?x with Some _ => _ | None => _ end) => destruct x eqn:?
  end.

Ltac flow_leaf :=
  lazymatch goal with
  | |- spec.flow_ok _ _ _ (ui.Continue _ _ _) => cbn; repeat constructor
  | |- spec.flow_ok _ _ _ (ui.Return (_, _, tea.Quit)) =>
      right; split; [reflexivity|eexists; split; [reflexivity|]];
      match goal with H : (_ && _)%bool = true |- _ => apply andb_prop in H; exact H end
  | |- spec.flow_ok _ _ _ (ui.Return _) => left; solve [split; reflexivity]
  end.

(** The same case analysis for any property of the flow of control. *)
Ltac flow_split :=
  lazymatch goal with
  | |- ?P (if ?c then _ else _) => destruct c eqn:?
  | |- ?P (match ?x with Some _ => _ | None => _ end) => destruct x eqn:?
  end.

Ltac settled_leaf :=
  unfold spec.flow_settled, spec.settled; cbn;
  repeat split; try reflexivity;
  try (let H := fresh in intros H; first [exact H | discriminate H]);
  try (left; reflexivity).

(* ================================================================== *)
(** * Properties *)

(** ** Configuration *)

(** C8: an unrecognised preview position yields the default position
    (auto) together with an error; each of the three recognised strings
    yields its position and no error.  The function is total, so a result
    is always produced. *)
Theorem GetPreviewPosition_falls_back_to_auto (c : config.Config) :
  (config.Position (config.Preview c) = "auto" ->
     config.GetPreviewPosition c = (config.PreviewPositionAuto, None)) /\
  (config.Position (config.Preview c) = "bottom" ->
     config.GetPreviewPosition c = (config.PreviewPositionBottom, None)) /\
  (config.Position (config.Preview c) = "right" ->
     config.GetPreviewPosition c = (config.PreviewPositionRight, None)) /\
  (~ spec.valid_preview_position (config.Position (config.Preview c)) ->
     exists e, config.GetPreviewPosition c = (config.PreviewPositionAuto, Some e)).
Proof.
  unfold config.GetPreviewPosition, spec.valid_preview_position.
  repeat split.
  - intros ->. reflexivity.
  - intros ->. reflexivity.
  - intros ->. reflexivity.
  - intros Hbad.
    destruct (String.eqb_spec (config.Position (config.Preview c)) "auto") as [E|_];
      [exfalso; apply Hbad; now left|].
    destruct (String.eqb_spec (config.Position (config.Preview c)) "bottom") as [E|_];
      [exfalso; apply Hbad; right; now left|].
    destruct (String.eqb_spec (config.Position (config.Preview c)) "right") as [E|_];
      [exfalso; apply Hbad; right; now right|].
    eexists. reflexivity.
Qed.

Lemma GetPreviewPosition_falls_back_to_auto_witness :
  config.GetPreviewPosition (examples.config_with_position "bottom")
    = (config.PreviewPositionBottom, None) /\
  exists e, config.GetPreviewPosition (examples.config_with_position "left")
    = (config.PreviewPositionAuto, Some e).
Proof.
  split.
  - apply (proj1 (proj2 (GetPreviewPosition_falls_back_to_auto
                           (examples.config_with_position "bottom")))).
    reflexivity.
  - apply (proj2 (proj2 (proj2 (GetPreviewPosition_falls_back_to_auto
                                  (examples.config_with_position "left"))))).
    unfold spec.valid_preview_position. cbn. intros [H|[H|H]]; discriminate.
Defined.


(** ** Overlay dismissal *)

(** C1: a close event clears exactly the first non-empty slot in the order
    leader, diff view, stacked modal, op log, makes no call on any
    sub-model and leaves every other slot and field as it was; with all
    four slots empty it is reported unhandled and the router goes on to
    broadcast it like any other message. *)
Theorem Close_dismisses_first_active_overlay (w : ui.World) (m : ui.Model) :
  let '((m', calls, c), handled) := ui.handleFocusInputMessage w m tea.CloseViewMsg in
  calls = [] /\
  spec.same_but_overlays m m' /\
  match ui.leader m, ui.diff m, ui.stacked m, ui.oplog m with
  | Some _, _, _, _ =>
      handled = true /\ ui.leader m' = None /\ ui.diff m' = ui.diff m /\
      ui.stacked m' = ui.stacked m /\ ui.oplog m' = ui.oplog m
  | None, Some _, _, _ =>
      handled = true /\ ui.leader m' = None /\ ui.diff m' = None /\
      ui.stacked m' = ui.stacked m /\ ui.oplog m' = ui.oplog m
  | None, None, Some _, _ =>
      handled = true /\ ui.leader m' = None /\ ui.diff m' = None /\
      ui.stacked m' = None /\ ui.oplog m' = ui.oplog m
  | None, None, None, Some _ =>
      handled = true /\ ui.leader m' = None /\ ui.diff m' = None /\
      ui.stacked m' = None /\ ui.oplog m' = None
  | None, None, None, None => handled = false /\ m' = m
  end /\
  spec.active_overlays m' = Nat.pred (spec.active_overlays m) /\
  ui.Update w m tea.CloseViewMsg =
    (if handled then (m', [], c)
     else ui.Update_finish w tea.CloseViewMsg [] (ui.Continue m [] [])).
Proof.
  unfold ui.Update, ui.handleFocusInputMessage, spec.active_overlays, spec.same_but_overlays.
  destruct m as [F W H o p d l st pw cx sr km sk dt so]; cbn.
  destruct l, d, sk, o; cbn; repeat split; reflexivity.
Qed.

(** With leader mode, diff view, a stacked modal and the op log all open,
    the first close event dismisses the leader mode only and the second one
    the diff view. *)
Example two_closes_in_a_row :
  let m1 := fst (fst (ui.Update examples.quiet examples.crowded tea.CloseViewMsg)) in
  let m2 := fst (fst (ui.Update examples.quiet m1 tea.CloseViewMsg)) in
  (ui.isSome (ui.leader m1), ui.isSome (ui.diff m1),
   ui.isSome (ui.stacked m1), ui.isSome (ui.oplog m1)) = (false, true, true, true) /\
  (ui.isSome (ui.leader m2), ui.isSome (ui.diff m2),
   ui.isSome (ui.stacked m2), ui.isSome (ui.oplog m2)) = (false, false, true, true).
Proof. split; reflexivity. Qed.

(** ** The quit guard *)

(** C4: [isSafeToQuit] is true exactly when no stacked modal is open, the
    op log is closed and the current operation of the revisions view is the
    normal one; so it is false as soon as one of the three fails. *)
Theorem isSafeToQuit_iff (w : ui.World) (m : ui.Model) :
  (ui.isSafeToQuit w m = true <->
     ui.stacked m = None /\ ui.oplog m = None /\
     ui.Operation_Name (ui.revisions_CurrentOperation w) = "normal") /\
  (ui.isSafeToQuit w m = false <->
     ui.stacked m <> None \/ ui.oplog m <> None \/
     ui.Operation_Name (ui.revisions_CurrentOperation w) <> "normal").
Proof.
  unfold ui.isSafeToQuit.
  destruct (ui.stacked m) as [sk|], (ui.oplog m) as [o|]; cbn;
    destruct (String.eqb_spec (ui.Operation_Name (ui.revisions_CurrentOperation w)) "normal")
      as [E|E];
    (split; split; intros H);
    solve [ discriminate
          | reflexivity
          | repeat split; congruence
          | destruct H as (H1 & H2 & H3); congruence
          | left; discriminate
          | right; left; discriminate
          | right; right; exact E
          | destruct H as [H|[H|H]]; congruence ].
Qed.

(** ** Placement of the preview pane *)

(** C9: in auto mode the preview ends up at the bottom exactly when the
    terminal height is at least half the width (integer division), it stays
    in auto mode and nothing else changes; when the position is pinned the
    update changes nothing. *)
Theorem UpdatePreviewPosition_heuristic (m : ui.Model) :
  (ui.AutoPosition (ui.previewModel m) = true ->
     let m' := ui.UpdatePreviewPosition m in
     (ui.AtBottom (ui.previewModel m') = true <-> Z.quot (ui.Width m) 2 <= ui.Height m) /\
     ui.AutoPosition (ui.previewModel m') = true /\
     ui.Visible (ui.previewModel m') = ui.Visible (ui.previewModel m) /\
     m' = ui.with_previewModel m (ui.previewModel m')) /\
  (ui.AutoPosition (ui.previewModel m) = false -> ui.UpdatePreviewPosition m = m).
Proof.
  unfold ui.UpdatePreviewPosition. split; intros Hauto; rewrite Hauto; [|reflexivity].
  cbn. repeat split; try reflexivity.
  - intros H. apply Z.geb_le in H. exact H.
  - intros H. apply Z.geb_le. exact H.
Qed.

Lemma UpdatePreviewPosition_heuristic_witness :
  (let m := examples.idle in
   ui.AtBottom (ui.previewModel (ui.UpdatePreviewPosition m)) = true <->
   Z.quot (ui.Width m) 2 <= ui.Height m) /\
  (let m := ui.with_previewModel examples.idle
              {| ui.Visible := true; ui.AutoPosition := false; ui.AtBottom := true |} in
   ui.UpdatePreviewPosition m = m).
Proof.
  split.
  - exact (proj1 (proj1 (UpdatePreviewPosition_heuristic examples.idle) eq_refl)).
  - exact (proj2 (UpdatePreviewPosition_heuristic
                    (ui.with_previewModel examples.idle
                       {| ui.Visible := true; ui.AutoPosition := false; ui.AtBottom := true |}))
                 eq_refl).
Defined.

(** ** The files an operation of the details view acts on *)

Lemma collect_from (fs : list details.item) (acc : list string) :
  fold_left (fun acc f => if details.selected f then acc ++ [details.fileName f] else acc) fs acc
  = acc ++ map details.fileName (filter details.selected fs).
Proof.
  revert acc. induction fs as [|f fs IH]; intros acc; cbn.
  - now rewrite app_nil_r.
  - rewrite IH. destruct (details.selected f); cbn.
    + now rewrite <- app_assoc.
    + reflexivity.
Qed.

Lemma collectSelected_filter (fs : list details.item) :
  details.collectSelected fs = map details.fileName (filter details.selected fs).
Proof. unfold details.collectSelected. now rewrite collect_from. Qed.

Lemma none_selected_filter (fs : list details.item) :
  spec.none_selected fs -> filter details.selected fs = [].
Proof.
  induction fs as [|f fs IH]; intros Hnone; cbn; [reflexivity|].
  rewrite (Hnone f (or_introl eq_refl)). apply IH.
  intros g Hg. apply Hnone. now right.
Qed.

Lemma some_selected_filter (fs : list details.item) :
  (exists f, In f fs /\ details.selected f = true) -> filter details.selected fs <> [].
Proof.
  intros (f & Hin & Hsel) Hnil.
  assert (Hf : In f (filter details.selected fs)) by (apply filter_In; now split).
  rewrite Hnil in Hf. exact Hf.
Qed.

Lemma getSelectedFiles_virtual (s : details.Operation) (it : details.item) :
  details.files (details.list_ s) <> [] ->
  spec.none_selected (details.files (details.list_ s)) ->
  details.current (details.list_ s) = Some it ->
  details.getSelectedFiles s true = Ok [details.fileName it].
Proof.
  intros Hne Hnone Hcur. unfold details.getSelectedFiles.
  destruct (details.files (details.list_ s)) as [|f fs] eqn:Efs; [congruence|].
  cbn [List.length Nat.eqb]. rewrite collectSelected_filter, (none_selected_filter _ Hnone).
  cbn. rewrite Hcur. reflexivity.
Qed.

(** C10: [getSelectedFiles] returns the empty list on an empty file list;
    the names of the selected files, in list order, when some file is
    selected; the name of the file under the cursor when none is selected
    and virtual selection is allowed; the empty list when none is selected
    and it is not allowed.  Split, restore and absorb ask with virtual
    selection allowed, so with nothing selected the command behind their
    Yes option names the file under the cursor. *)
Theorem getSelectedFiles_selection (s : details.Operation) :
  let fs := details.files (details.list_ s) in
  let km := details.keyMap s in
  let id := tea.GetChangeId (details.revision s) in
  (forall allow, fs = [] -> details.getSelectedFiles s allow = Ok []) /\
  (forall allow, (exists f, In f fs /\ details.selected f = true) ->
     details.getSelectedFiles s allow
       = Ok (map details.fileName (filter details.selected fs))) /\
  (forall it, fs <> [] -> spec.none_selected fs ->
     details.current (details.list_ s) = Some it ->
     details.getSelectedFiles s true = Ok [details.fileName it]) /\
  (fs <> [] -> spec.none_selected fs -> details.getSelectedFiles s false = Ok []) /\
  (forall Current k it, fs <> [] -> spec.none_selected fs ->
     details.current (details.list_ s) = Some it ->
     details.confirmation s = None ->
     (spec.reaches_split_case km k ->
      key.Matches k [config.Details_Split km; config.Details_SplitParallel km] = true ->
      spec.yes_command (details.internalUpdate Current s (tea.KeyMsg k))
        = Some (tea.Batch
                  [tea.RunInteractiveCommand
                     (tea.Split id [details.fileName it]
                        (key.Matches k [config.Details_SplitParallel km]))
                     tea.Refresh;
                   tea.Close])) /\
     (spec.reaches_restore_case km k ->
      key.Matches k [config.Details_Restore km] = true ->
      spec.yes_command (details.internalUpdate Current s (tea.KeyMsg k))
        = Some (tea.RunCommand (tea.Restore id [details.fileName it])
                  [tea.Refresh; tea.ConfirmationClose])) /\
     (spec.reaches_absorb_case km k ->
      key.Matches k [config.Details_Absorb km] = true ->
      spec.yes_command (details.internalUpdate Current s (tea.KeyMsg k))
        = Some (tea.RunCommand (tea.Absorb id [details.fileName it])
                  [tea.Refresh; tea.ConfirmationClose]))).
Proof.
  cbv zeta. repeat apply conj.
  - intros allow Hnil. unfold details.getSelectedFiles. now rewrite Hnil.
  - intros allow Hsome. unfold details.getSelectedFiles.
    pose proof (some_selected_filter _ Hsome) as Hne.
    destruct (details.files (details.list_ s)) as [|f fs] eqn:Efs.
    + destruct Hsome as (g & [] & _).
    + cbn [List.length Nat.eqb]. rewrite collectSelected_filter.
      destruct (filter details.selected (f :: fs)) as [|x xs]; [congruence|reflexivity].
  - intros it. apply getSelectedFiles_virtual.
  - intros Hne Hnone. unfold details.getSelectedFiles.
    destruct (details.files (details.list_ s)) as [|f fs] eqn:Efs; [congruence|].
    cbn [List.length Nat.eqb]. rewrite collectSelected_filter, (none_selected_filter _ Hnone).
    reflexivity.
  - intros Current k it Hne Hnone Hcur Hconf.
    pose proof (getSelectedFiles_virtual s it Hne Hnone Hcur) as Hget.
    unfold spec.reaches_absorb_case, spec.reaches_restore_case,
      spec.reaches_split_case, spec.reaches_quit_case.
    repeat apply conj.
    + intros ((Hu & Hd & Hc & Hcl) & Hq & Hr & Hdiff) Hsplit.
      unfold details.internalUpdate.
      rewrite Hconf, Hu, Hd, Hc, Hcl, Hq, Hr, Hdiff, Hsplit, Hget. reflexivity.
    + intros (((Hu & Hd & Hc & Hcl) & Hq & Hr & Hdiff) & Hsplit & Hsq) Hres.
      unfold details.internalUpdate.
      rewrite Hconf, Hu, Hd, Hc, Hcl, Hq, Hr, Hdiff, Hsplit, Hsq, Hres, Hget.
      cbn. rewrite Hcur. reflexivity.
    + intros ((((Hu & Hd & Hc & Hcl) & Hq & Hr & Hdiff) & Hsplit & Hsq) & Hres) Habs.
      unfold details.internalUpdate.
      rewrite Hconf, Hu, Hd, Hc, Hcl, Hq, Hr, Hdiff, Hsplit, Hsq, Hres, Habs, Hget.
      reflexivity.
Qed.

Lemma getSelectedFiles_selection_witness :
  let picked := examples.details_of
                  [examples.file "a.go" false; examples.file "b.go" true;
                   examples.file "c.go" true] 0 in
  let plain := examples.details_of
                 [examples.file "a.go" false; examples.file "b.go" false] 1 in
  details.getSelectedFiles (examples.details_of [] 0) true = Ok [] /\
  details.getSelectedFiles picked true = Ok ["b.go"; "c.go"] /\
  details.getSelectedFiles plain true = Ok ["b.go"] /\
  details.getSelectedFiles plain false = Ok [] /\
  spec.yes_command (details.internalUpdate examples.Current plain (tea.KeyMsg "s"))
    = Some (tea.Batch [tea.RunInteractiveCommand (tea.Split "abc" ["b.go"] false) tea.Refresh;
                       tea.Close]) /\
  spec.yes_command (details.internalUpdate examples.Current plain (tea.KeyMsg "r"))
    = Some (tea.RunCommand (tea.Restore "abc" ["b.go"]) [tea.Refresh; tea.ConfirmationClose]) /\
  spec.yes_command (details.internalUpdate examples.Current plain (tea.KeyMsg "A"))
    = Some (tea.RunCommand (tea.Absorb "abc" ["b.go"]) [tea.Refresh; tea.ConfirmationClose]).
Proof.
  cbv zeta.
  assert (Hne : [examples.file "a.go" false; examples.file "b.go" false] <> [])
    by discriminate.
  assert (Hnone : spec.none_selected [examples.file "a.go" false; examples.file "b.go" false]).
  { intros f [<-|[<-|[]]]; reflexivity. }
  repeat apply conj.
  - apply (proj1 (getSelectedFiles_selection (examples.details_of [] 0)) true). reflexivity.
  - apply (proj1 (proj2 (getSelectedFiles_selection
                           (examples.details_of
                              [examples.file "a.go" false; examples.file "b.go" true;
                               examples.file "c.go" true] 0))) true).
    exists (examples.file "b.go" true). split; [right; left; reflexivity | reflexivity].
  - apply (proj1 (proj2 (proj2 (getSelectedFiles_selection
                                  (examples.details_of
                                     [examples.file "a.go" false; examples.file "b.go" false] 1))))
             (examples.file "b.go" false) Hne Hnone).
    reflexivity.
  - apply (proj1 (proj2 (proj2 (proj2 (getSelectedFiles_selection
                                  (examples.details_of
                                     [examples.file "a.go" false; examples.file "b.go" false] 1)))))
             Hne Hnone).
  - apply (proj1 (proj2 (proj2 (proj2 (proj2 (getSelectedFiles_selection
                                  (examples.details_of
                                     [examples.file "a.go" false; examples.file "b.go" false] 1)))))
             examples.Current "s" (examples.file "b.go" false) Hne Hnone eq_refl eq_refl)).
    + repeat split; reflexivity.
    + reflexivity.
  - apply (proj1 (proj2 (proj2 (proj2 (proj2 (proj2 (getSelectedFiles_selection
                                  (examples.details_of
                                     [examples.file "a.go" false; examples.file "b.go" false] 1)))))
             examples.Current "r" (examples.file "b.go" false) Hne Hnone eq_refl eq_refl))).
    + repeat split; reflexivity.
    + reflexivity.
  - apply (proj2 (proj2 (proj2 (proj2 (proj2 (proj2 (getSelectedFiles_selection
                                  (examples.details_of
                                     [examples.file "a.go" false; examples.file "b.go" false] 1)))))
             examples.Current "A" (examples.file "b.go" false) Hne Hnone eq_refl eq_refl))).
    + repeat split; reflexivity.
    + reflexivity.
Defined.

(** ** Key routing *)

(** C2, as the router has it: a key press that arrives while leader mode
    is off goes to the first surface, in the order password prompt, diff
    view, revset editor in edit mode, focused status field, revisions view
    editing inline, stacked modal, that is in a position to capture keys.
    That surface is the only one called, its command is the one returned
    and no binding of the router is tried; a key for the revset editor also
    puts the router in the loading state.  When no surface captures, the
    key goes on to the chord matcher and the binding table. *)
Theorem key_goes_to_first_capturing_surface
  (w : ui.World) (m : ui.Model) (k : key.KeyMsg) (Hleader : ui.leader m = None) :
  match find (spec.captures_keys w m) spec.key_order with
  | Some s =>
      ui.Update w m (tea.KeyMsg k) =
        (match s with tea.SRevset => ui.with_state m ui.Loading | _ => m end,
         [tea.CUpdate s (tea.KeyMsg k)],
         tea.Returned (tea.CUpdate s (tea.KeyMsg k)))
  | None =>
      ui.handleFocusInputMessage w m (tea.KeyMsg k) = ((m, [], tea.Nil), false) /\
      ui.Update w m (tea.KeyMsg k) = ui.Update_finish w (tea.KeyMsg k) [] (ui.Update_key w m k)
  end.
Proof.
  unfold ui.Update, ui.handleFocusInputMessage, spec.key_order. cbn [find spec.captures_keys].
  rewrite Hleader. cbn [ui.isSome].
  destruct (ui.password m); cbn [ui.isSome]; [reflexivity|].
  destruct (ui.diff m); cbn [ui.isSome]; [reflexivity|].
  destruct (ui.revset_Editing w); [reflexivity|].
  destruct (ui.status_IsFocused w); [reflexivity|].
  destruct (ui.revisions_IsEditing w); [reflexivity|].
  destruct (ui.stacked m); cbn [ui.isSome]; [reflexivity|].
  split; reflexivity.
Qed.

Lemma key_goes_to_first_capturing_surface_witness :
  let m := ui.with_password (ui.with_stacked examples.idle (Some ui.HelpPage))
             (Some (ui.password_New 0%nat "Enter PIN")) in
  ui.Update examples.quiet m (tea.KeyMsg "q") =
    (m, [tea.CUpdate tea.SPassword (tea.KeyMsg "q")],
     tea.Returned (tea.CUpdate tea.SPassword (tea.KeyMsg "q"))).
Proof.
  exact (key_goes_to_first_capturing_surface examples.quiet
           (ui.with_password (ui.with_stacked examples.idle (Some ui.HelpPage))
              (Some (ui.password_New 0%nat "Enter PIN")))
           "q" eq_refl).
Defined.

(** C2 as the specification words it fails: with the revisions view
    editing inline and the help page opened as a stacked modal, a key press
    goes to the revisions view although the modal is the first active
    surface of the stated order; and with none of the stated surfaces
    active the quit key still goes to the revisions view instead of the
    binding table. *)
Lemma stated_key_order_counterexample :
  let w := examples.with_operation examples.quiet (ui.OtherOperation "inline_describe")
             false true in
  let m := ui.with_stacked examples.idle (Some ui.HelpPage) in
  (fst (fst (ui.Update w examples.idle tea.ToggleHelpMsg)) = m /\
   ui.leader m = None /\
   find (spec.captures_keys w m) spec.stated_key_order = Some tea.SStacked /\
   ui.Update w m (tea.KeyMsg "y") =
     (m, [tea.CUpdate tea.SRevisions (tea.KeyMsg "y")],
      tea.Returned (tea.CUpdate tea.SRevisions (tea.KeyMsg "y")))) /\
  (ui.leader examples.idle = None /\
   find (spec.captures_keys w examples.idle) spec.stated_key_order = None /\
   ui.Update w examples.idle (tea.KeyMsg "q") =
     (examples.idle, [tea.CUpdate tea.SRevisions (tea.KeyMsg "q")],
      tea.Returned (tea.CUpdate tea.SRevisions (tea.KeyMsg "q")))).
Proof. cbv zeta. repeat split; reflexivity. Qed.

(** ** Mouse routing *)

Lemma findViewAt_first_hit (w : ui.World) (m : ui.Model) (x y : Z) :
  ui.findViewAt w m x y = find (spec.hit w m x y) spec.z_order.
Proof.
  unfold ui.findViewAt, spec.z_order, spec.hit. cbn [find].
  destruct (ui.isSome (ui.diff m)), (ui.isSome (ui.oplog m)),
    (ui.Visible (ui.previewModel m)),
    (ui.In_ x y (ui.Frame_of w tea.SDiff)), (ui.In_ x y (ui.Frame_of w tea.SOplog)),
    (ui.In_ x y (ui.Frame_of w tea.SRevisions)), (ui.In_ x y (ui.Frame_of w tea.SPreview));
    reflexivity.
Qed.

(** C5, as the router has it: a mouse event that arrives while leader mode
    is off is dropped when a stacked modal is open.  Otherwise, while a
    drag is in progress, a release goes to the drag target alone and clears
    it, and a motion goes to the drag target alone.  Every other event (a
    drag target that no longer drags is forgotten first) is tested against
    the frames of the diff view, then the op log or else the revisions
    view, then the visible preview pane: with no hit it is dropped; a left
    press on a draggable hit that accepts the drag makes that view the drag
    target and is not delivered; otherwise the first hit receives it. *)
Theorem mouse_goes_to_drag_target_or_first_hit
  (w : ui.World) (m : ui.Model) (X Y : Z) (a : tea.MouseAction) (b : tea.MouseButton)
  (Hleader : ui.leader m = None) :
  let msg := tea.MouseMsg X Y a b in
  ui.Update w m msg =
    match ui.stacked m with
    | Some _ => (m, [], tea.Nil)
    | None =>
        match ui.dragTarget m, ui.dragTarget_IsDragging w, a with
        | Some t, true, tea.MouseActionRelease =>
            (ui.with_dragTarget m None, [tea.CDragEnd t X Y],
             tea.Returned (tea.CDragEnd t X Y))
        | Some t, true, tea.MouseActionMotion =>
            (m, [tea.CDragMove t X Y], tea.Returned (tea.CDragMove t X Y))
        | target, _, _ =>
            let m0 := if spec.dragging w m then m
                      else match target with
                           | Some _ => ui.with_dragTarget m None
                           | None => m
                           end in
            match find (spec.hit w m X Y) spec.z_order with
            | None => (m0, [], tea.Nil)
            | Some v =>
                match ui.DragStart_of w v, a, b with
                | Some DragStart, tea.MouseActionPress, tea.MouseButtonLeft =>
                    if DragStart X Y
                    then (ui.with_dragTarget m0 (Some v), [tea.CDragStart v X Y], tea.Nil)
                    else (m0, [tea.CDragStart v X Y; tea.CUpdate v msg],
                          tea.Returned (tea.CUpdate v msg))
                | _, _, _ => (m0, [tea.CUpdate v msg], tea.Returned (tea.CUpdate v msg))
                end
            end
        end
    end.
Proof.
  cbv zeta.
  unfold ui.Update, ui.handleFocusInputMessage. rewrite Hleader. cbn [ui.isSome].
  cbn [ui.Update_switch ui.Update_finish]. unfold ui.Update_mouse, spec.dragging.
  destruct (ui.stacked m) as [sk|]; cbn [ui.isSome]; [reflexivity|].
  assert (Hhit : forall m1, ui.diff m1 = ui.diff m -> ui.oplog m1 = ui.oplog m ->
                   ui.previewModel m1 = ui.previewModel m ->
                   ui.Update_hit w m1 (tea.MouseMsg X Y a b) X Y a b =
                   match find (spec.hit w m X Y) spec.z_order with
                   | None => (m1, [], tea.Nil)
                   | Some v =>
                       match ui.DragStart_of w v, a, b with
                       | Some DragStart, tea.MouseActionPress, tea.MouseButtonLeft =>
                           if DragStart X Y
                           then (ui.with_dragTarget m1 (Some v), [tea.CDragStart v X Y], tea.Nil)
                           else (m1, [tea.CDragStart v X Y;
                                      tea.CUpdate v (tea.MouseMsg X Y a b)],
                                 tea.Returned (tea.CUpdate v (tea.MouseMsg X Y a b)))
                       | _, _, _ => (m1, [tea.CUpdate v (tea.MouseMsg X Y a b)],
                                     tea.Returned (tea.CUpdate v (tea.MouseMsg X Y a b)))
                       end
                   end).
  { intros m1 Hd Ho Hp. unfold ui.Update_hit.
    rewrite <- findViewAt_first_hit. unfold ui.findViewAt. rewrite Hd, Ho, Hp.
    destruct (ui.isSome (ui.diff m) && ui.In_ X Y (ui.Frame_of w tea.SDiff));
      [destruct (ui.DragStart_of w tea.SDiff), a, b; reflexivity|].
    destruct (ui.isSome (ui.oplog m) && ui.In_ X Y (ui.Frame_of w tea.SOplog));
      [destruct (ui.DragStart_of w tea.SOplog), a, b; reflexivity|].
    destruct (negb (ui.isSome (ui.oplog m)) && ui.In_ X Y (ui.Frame_of w tea.SRevisions));
      [destruct (ui.DragStart_of w tea.SRevisions), a, b; reflexivity|].
    destruct (ui.Visible (ui.previewModel m) && ui.In_ X Y (ui.Frame_of w tea.SPreview));
      [destruct (ui.DragStart_of w tea.SPreview), a, b; reflexivity|].
    reflexivity. }
  destruct (ui.dragTarget m) as [t|]; cbn [ui.isSome andb].
  - destruct (ui.dragTarget_IsDragging w).
    + destruct a; try reflexivity.
      rewrite (Hhit m eq_refl eq_refl eq_refl).
      destruct (find (spec.hit w m X Y) spec.z_order) as [v|]; [|reflexivity].
      destruct (ui.DragStart_of w v), b; try reflexivity;
        try (match goal with |- context [if ?c then _ else _] => destruct c end; reflexivity).
    + rewrite (Hhit (ui.with_dragTarget m None) eq_refl eq_refl eq_refl).
      destruct (find (spec.hit w m X Y) spec.z_order) as [v|]; [|destruct a; reflexivity].
      destruct (ui.DragStart_of w v), a, b; try reflexivity;
        try (match goal with |- context [if ?c then _ else _] => destruct c end; reflexivity).
  - rewrite (Hhit m eq_refl eq_refl eq_refl).
    destruct (find (spec.hit w m X Y) spec.z_order) as [v|];
      [|destruct (ui.dragTarget_IsDragging w), a; reflexivity].
    destruct (ui.dragTarget_IsDragging w), (ui.DragStart_of w v), a, b; try reflexivity;
        try (match goal with |- context [if ?c then _ else _] => destruct c end; reflexivity).
Qed.

Lemma mouse_goes_to_drag_target_or_first_hit_witness :
  let msg := tea.MouseMsg 5 5 tea.MouseActionPress tea.MouseButtonLeft in
  ui.Update examples.quiet examples.idle msg =
    (examples.idle, [tea.CUpdate tea.SRevisions msg],
     tea.Returned (tea.CUpdate tea.SRevisions msg)).
Proof.
  exact (mouse_goes_to_drag_target_or_first_hit examples.quiet examples.idle 5 5
           tea.MouseActionPress tea.MouseButtonLeft eq_refl).
Defined.

(** C5 as the specification words it fails: with the help page open as a
    stacked modal whose frame holds the point, the modal is the first hit
    of the stated z-order but the router makes no call at all; and when the
    modal opens while the revisions view is being dragged, a release
    neither reaches the drag target nor clears it. *)
Lemma stated_z_order_counterexample :
  let m := ui.with_stacked examples.idle (Some ui.HelpPage) in
  let click := tea.MouseMsg 5 5 tea.MouseActionPress tea.MouseButtonLeft in
  let release := tea.MouseMsg 5 5 tea.MouseActionRelease tea.MouseButtonLeft in
  let w := examples.with_drag examples.quiet true (fun _ => Some (fun _ _ => true)) in
  let grabbed := fst (fst (ui.Update w examples.idle click)) in
  let held := fst (fst (ui.Update w grabbed tea.ToggleHelpMsg)) in
  (fst (fst (ui.Update examples.quiet examples.idle tea.ToggleHelpMsg)) = m /\
   ui.leader m = None /\ spec.dragging examples.quiet m = false /\
   find (spec.hit examples.quiet m 5 5) spec.stated_z_order = Some tea.SStacked /\
   ui.Update examples.quiet m click = (m, [], tea.Nil)) /\
  (ui.dragTarget held = Some tea.SRevisions /\ ui.stacked held = Some ui.HelpPage /\
   ui.leader held = None /\ spec.dragging w held = true /\
   ui.Update w held release = (held, [], tea.Nil)).
Proof. cbv zeta. repeat split; reflexivity. Qed.

(** ** The chord matcher *)

Lemma unclaimed_key (w : ui.World) (m : ui.Model) (k : key.KeyMsg) :
  ui.leader m = None ->
  find (spec.captures_keys w m) spec.key_order = None ->
  ui.handleFocusInputMessage w m (tea.KeyMsg k) = ((m, [], tea.Nil), false).
Proof.
  intros Hleader. unfold ui.handleFocusInputMessage, spec.key_order.
  cbn [find spec.captures_keys]. rewrite Hleader. cbn [ui.isSome].
  destruct (ui.isSome (ui.password m)); [discriminate|].
  destruct (ui.isSome (ui.diff m)); [discriminate|].
  destruct (ui.revset_Editing w); [discriminate|].
  destruct (ui.status_IsFocused w); [discriminate|].
  destruct (ui.revisions_IsEditing w); [discriminate|].
  destruct (ui.isSome (ui.stacked m)); [discriminate|].
  reflexivity.
Qed.

(** C3, as the router has it: the chord matcher sees a key press only when
    leader mode is off and no surface captures keys.  Then, while idle, a
    key that opens no applicable chord leaves the matcher idle and
    unconsulted and goes on to the binding table; a key that opens one is
    handed to a fresh matcher, and the matcher is collecting afterwards
    exactly when it answers that it stays active, in which case the key is
    consumed (a matcher that ends at once consumes the key only if it hands
    back a command).  While collecting, the key is handed to the matcher
    and never reaches the binding table or any sub-model; a matcher that
    answers inactive goes back to idle, and the command returned is the
    matcher's own, none when it reports none. *)
Theorem chord_matcher_sees_unclaimed_keys
  (w : ui.World) (m : ui.Model) (k : key.KeyMsg)
  (Hleader : ui.leader m = None)
  (Hfree : find (spec.captures_keys w m) spec.key_order = None) :
  let res := ui.overlay_HandleKey w k in
  let idle := ui.with_sequenceOverlay m None in
  let collecting := ui.with_sequenceOverlay m (Some ui.NewSequenceOverlay) in
  let msg := tea.KeyMsg k in
  match ui.sequenceOverlay m with
  | None =>
      if ui.shouldStartSequenceOverlay m k then
        if ui.Active res then
          ui.Update w m msg = (collecting, [tea.CHandleKey k], ui.foreign (ui.Cmd res))
        else
          match ui.Cmd res with
          | Some f => ui.Update w m msg = (idle, [tea.CHandleKey k], tea.Foreign f)
          | None =>
              ui.Update w m msg =
                ui.Update_finish w msg [] (ui.Update_bindings w idle [tea.CHandleKey k] k)
          end
      else
        ui.Update w m msg = ui.Update_finish w msg [] (ui.Update_bindings w m [] k)
  | Some _ =>
      ui.Update w m msg =
        ((if ui.Active res then m else idle), [tea.CHandleKey k], ui.foreign (ui.Cmd res))
  end.
Proof.
  cbv zeta. unfold ui.Update. rewrite (unclaimed_key w m k Hleader Hfree).
  cbn [ui.Update_switch]. unfold ui.Update_key, ui.handleCustomCommandSequence,
    ui.ensureSequenceOverlay.
  destruct (ui.sequenceOverlay m) as [o|] eqn:Eo; cbn [ui.isSome].
  - cbn [negb]. destruct (ui.Active (ui.overlay_HandleKey w k)); cbn [negb].
    + rewrite Eo. cbn [ui.isSome]. rewrite orb_true_r. reflexivity.
    + cbn [ui.with_sequenceOverlay ui.sequenceOverlay ui.isSome].
      destruct (ui.Cmd (ui.overlay_HandleKey w k)); reflexivity.
  - destruct (ui.shouldStartSequenceOverlay m k); cbn [negb].
    + destruct (ui.Active (ui.overlay_HandleKey w k)); cbn [negb].
      * cbn [ui.with_sequenceOverlay ui.sequenceOverlay ui.isSome].
        rewrite orb_true_r. reflexivity.
      * cbn [ui.with_sequenceOverlay ui.sequenceOverlay ui.isSome].
        destruct (ui.Cmd (ui.overlay_HandleKey w k)); reflexivity.
    + rewrite Eo. reflexivity.
Qed.

Lemma chord_matcher_sees_unclaimed_keys_witness :
  ui.Update examples.quiet examples.idle (tea.KeyMsg "g") =
    (ui.with_sequenceOverlay examples.idle (Some ui.NewSequenceOverlay),
     [tea.CHandleKey "g"], tea.Foreign 1%nat).
Proof.
  exact (chord_matcher_sees_unclaimed_keys examples.quiet examples.idle "g" eq_refl eq_refl).
Defined.

(** After g the chord is open; a key that continues no chord ends it with no
    command and is seen by nobody else. *)
Example unmatched_second_key_is_swallowed :
  let w := examples.with_matcher examples.quiet examples.second_key in
  let m := ui.with_sequenceOverlay examples.idle (Some ui.NewSequenceOverlay) in
  ui.Update w m (tea.KeyMsg "q") = (examples.idle, [tea.CHandleKey "q"], tea.Nil).
Proof. reflexivity. Qed.

(** C3 as the specification words it fails: once a diff has been shown, a
    key that opens an applicable chord goes to the diff view and the
    matcher stays idle; and once a password prompt has come up while the
    matcher is collecting, a key that continues no chord goes to the prompt
    and the matcher stays collecting. *)
Lemma stated_chord_start_counterexample :
  let m := ui.with_diff examples.idle (Some (ui.diff_New "diff text")) in
  let w := examples.with_matcher examples.quiet examples.second_key in
  let collecting := ui.with_sequenceOverlay examples.idle (Some ui.NewSequenceOverlay) in
  let held := ui.with_password collecting (Some (ui.password_New 0%nat "Enter PIN")) in
  (fst (fst (ui.Update examples.quiet examples.idle (tea.ShowDiffMsg "diff text"))) = m /\
   ui.sequenceOverlay m = None /\
   ui.shouldStartSequenceOverlay m "g" = true /\
   ui.Update examples.quiet m (tea.KeyMsg "g") =
     (m, [tea.CUpdate tea.SDiff (tea.KeyMsg "g")],
      tea.Returned (tea.CUpdate tea.SDiff (tea.KeyMsg "g")))) /\
  (fst (fst (ui.Update w collecting (tea.TogglePasswordMsg (Some 0%nat) "Enter PIN"))) = held /\
   ui.sequenceOverlay held = Some ui.NewSequenceOverlay /\
   ui.overlay_HandleKey w "z" = {| ui.Cmd := None; ui.Active := false |} /\
   ui.Update w held (tea.KeyMsg "z") =
     (held, [tea.CUpdate tea.SPassword (tea.KeyMsg "z")],
      tea.Returned (tea.CUpdate tea.SPassword (tea.KeyMsg "z")))).
Proof. cbv zeta. repeat split; reflexivity. Qed.

(** ** Which commands a router step can hand back *)

Lemma plain_Batch (cmds : list tea.Cmd) :
  Forall spec.plain cmds -> spec.plain (tea.Batch cmds).
Proof.
  unfold spec.plain. induction 1 as [|c cmds [Hq Ht] _ [IHq IHt]]; cbn in *.
  - split; reflexivity.
  - rewrite Hq, Ht, IHq, IHt. split; reflexivity.
Qed.

Lemma plain_foreign (o : option tea.Closure) : spec.plain (ui.foreign o).
Proof. destruct o; split; reflexivity. Qed.

Lemma plain_scheduleAutoRefresh (w : ui.World) : spec.plain (ui.scheduleAutoRefresh w).
Proof.
  unfold ui.scheduleAutoRefresh.
  destruct (0 <? config.AutoRefreshInterval (config.UI (ui.config_Current w)));
    split; reflexivity.
Qed.

Lemma plain_customCommand_loop (item : context.Item) (k : key.KeyMsg)
  (commands : list context.CustomCommand) (c : tea.Cmd) :
  ui.customCommand_loop item k commands = Some c -> spec.plain c.
Proof.
  induction commands as [|command rest IH]; cbn [ui.customCommand_loop]; [discriminate|].
  destruct (negb (context.IsApplicableTo command item)); [exact IH|].
  destruct (key.Matches k [context.Binding command]); [|exact IH].
  intros [= <-]. split; reflexivity.
Qed.

Lemma plain_Update_hit (w : ui.World) (m : ui.Model) (msg : tea.Msg)
  (X Y : Z) (a : tea.MouseAction) (b : tea.MouseButton) :
  spec.plain (snd (ui.Update_hit w m msg X Y a b)).
Proof.
  unfold ui.Update_hit.
  destruct (ui.findViewAt w m X Y) as [v|]; [|split; reflexivity].
  destruct (ui.DragStart_of w v) as [start|], a, b; try (split; reflexivity).
  destruct (start X Y); split; reflexivity.
Qed.

Lemma plain_Update_mouse (w : ui.World) (m : ui.Model) (msg : tea.Msg)
  (X Y : Z) (a : tea.MouseAction) (b : tea.MouseButton) :
  spec.plain (snd (ui.Update_mouse w m msg X Y a b)).
Proof.
  unfold ui.Update_mouse.
  destruct (ui.isSome (ui.stacked m)); [split; reflexivity|].
  destruct (ui.dragTarget m) as [t|]; [|apply plain_Update_hit].
  destruct (ui.dragTarget_IsDragging w); [|apply plain_Update_hit].
  destruct a; try (split; reflexivity). apply plain_Update_hit.
Qed.

Lemma plain_Update_broadcast (w : ui.World) (m : ui.Model) (log : list tea.Call)
  (cmds : list tea.Cmd) (msg : tea.Msg) :
  Forall spec.plain cmds -> spec.plain (snd (ui.Update_broadcast w m log cmds msg)).
Proof.
  intros Hcmds. unfold ui.Update_broadcast.
  assert (Hret : forall c, spec.plain (tea.Returned c)) by (intros c; split; reflexivity).
  assert (Hfor : forall f, spec.plain (tea.Foreign f)) by (intros f; split; reflexivity).
  destruct (ui.isSome (ui.stacked m)), (ui.isSome (ui.scriptRunner m));
    try destruct (ui.runner_HandleMsg w msg); try destruct (ui.runner_Done w msg);
    cbn [ui.oplog ui.with_scriptRunner ui.previewModel];
    destruct (ui.isSome (ui.oplog m)), (ui.Visible (ui.previewModel m));
    cbn [snd]; apply plain_Batch;
    repeat (apply Forall_app; split); try assumption;
    repeat constructor; auto.
Qed.

Lemma Update_bindings_ok (w : ui.World) (m : ui.Model) (log : list tea.Call) (k : key.KeyMsg) :
  spec.flow_ok w m (tea.KeyMsg k) (ui.Update_bindings w m log k).
Proof.
  unfold ui.Update_bindings. cbv zeta.
  repeat flow_step; try flow_leaf.
  left. eapply plain_customCommand_loop. eassumption.
Qed.

Lemma flow_ok_same (w : ui.World) (m m1 : ui.Model) (msg : tea.Msg) (f : ui.Flow) :
  ui.keyMap m1 = ui.keyMap m -> ui.stacked m1 = ui.stacked m -> ui.oplog m1 = ui.oplog m ->
  spec.flow_ok w m1 msg f -> spec.flow_ok w m msg f.
Proof.
  intros Hk Hs Ho. unfold spec.flow_ok, spec.step_ok, ui.isSafeToQuit.
  rewrite Hk, Hs, Ho. exact (fun H => H).
Qed.

Lemma Update_key_ok (w : ui.World) (m : ui.Model) (k : key.KeyMsg) :
  spec.flow_ok w m (tea.KeyMsg k) (ui.Update_key w m k).
Proof.
  unfold ui.Update_key, ui.handleCustomCommandSequence, ui.ensureSequenceOverlay.
  destruct (ui.isSome (ui.sequenceOverlay m)) eqn:Eo; cbn [negb].
  - destruct (ui.Active (ui.overlay_HandleKey w k)),
      (ui.Cmd (ui.overlay_HandleKey w k)); cbn;
      try rewrite Eo; cbn; left; split; reflexivity.
  - destruct (ui.shouldStartSequenceOverlay m k); cbn [negb].
    + destruct (ui.Active (ui.overlay_HandleKey w k)),
        (ui.Cmd (ui.overlay_HandleKey w k)); cbn;
        try (left; split; reflexivity).
      apply (flow_ok_same w m (ui.with_sequenceOverlay m None)); try reflexivity.
      apply Update_bindings_ok.
    + cbn. rewrite Eo. cbn. apply Update_bindings_ok.
Qed.

Lemma Update_switch_ok (w : ui.World) (m : ui.Model) (msg : tea.Msg) :
  spec.flow_ok w m msg (ui.Update_switch w m msg).
Proof.
  destruct msg; cbn [ui.Update_switch];
    try (cbn; repeat constructor; split; reflexivity);
    try (cbv zeta; repeat flow_step; flow_leaf).
  - apply Update_key_ok.
  - pose proof (plain_Update_mouse w m (tea.MouseMsg X Y Action Button) X Y Action Button) as H.
    destruct (ui.Update_mouse w m (tea.MouseMsg X Y Action Button) X Y Action Button)
      as [[m1 log1] c].
    left. exact H.
  - destruct (ui.isSome (ui.sequenceOverlay m)); left;
      [apply plain_foreign | split; reflexivity].
  - left. apply plain_Batch. repeat constructor.
    + apply plain_scheduleAutoRefresh.
    + apply plain_scheduleAutoRefresh.
  - destruct (ui.err (ui.scripting_RunScript w Script)); left;
      [split; reflexivity | apply plain_foreign].
Qed.

Lemma handleFocusInputMessage_cases (w : ui.World) (m : ui.Model) (msg : tea.Msg) :
  let '((m', log, c), handled) := ui.handleFocusInputMessage w m msg in
  spec.plain c /\ (handled = false -> m' = m /\ log = []).
Proof.
  unfold ui.handleFocusInputMessage, ui.deliver.
  destruct msg;
    repeat match goal with
           | |- context [if ?c then _ else _] => destruct c
           end;
    (split; [split; reflexivity | intros H; first [discriminate | split; reflexivity]]).
Qed.

Lemma Update_ok (w : ui.World) (m : ui.Model) (msg : tea.Msg) :
  spec.step_ok w m msg (snd (ui.Update w m msg)).
Proof.
  unfold ui.Update.
  pose proof (handleFocusInputMessage_cases w m msg) as H.
  destruct (ui.handleFocusInputMessage w m msg) as [[[m0 log0] c0] handled].
  destruct H as [Hplain Hun]. destruct handled; [left; exact Hplain|].
  destruct (Hun eq_refl) as [-> ->].
  pose proof (Update_switch_ok w m msg) as Hf.
  destruct (ui.Update_switch w m msg) as [[[m1 log1] c]|m1 log1 cmds]; cbn in *.
  - exact Hf.
  - left. apply plain_Update_broadcast. exact Hf.
Qed.

(** ** Quitting *)

Lemma internalUpdate_quit_only_on_key (Current : config.Config) (s s' : details.Operation)
  (msg : tea.Msg) (c : tea.Cmd) :
  details.internalUpdate Current s msg = Ok (s', c) ->
  tea.emits_quit c = true ->
  exists k, msg = tea.KeyMsg k /\ key.Matches k [config.Quit (details.keyMap s)] = true.
Proof.
  intros H Hq. unfold details.internalUpdate in H.
  destruct msg; try (injection H as <- <-; discriminate Hq).
  destruct (details.confirmation s); [injection H as <- <-; discriminate Hq|].
  cbv zeta in H.
  repeat match type of H with
         | (if ?b then _ else _) = _ => destruct b eqn:?
         | match ?x with Some _ => _ | None => _ end = _ => destruct x eqn:?
         | match ?x with config.ShowOptionDiff => _ | config.ShowOptionInteractive => _ end = _ =>
             destruct x eqn:?
         | bind ?r _ = _ => destruct r eqn:?; cbn [bind] in H
         end;
    try discriminate H; injection H as <- <-; try discriminate Hq.
  exists k. split; [reflexivity|assumption].
Qed.

(** C7, as the code has it: the router and its render wrapper hand back the
    quit command only for a press of the quit key and only while
    [isSafeToQuit] holds.  The details operation hands it back only for a
    press of the quit key too, but it does not consult the guard: with no
    confirmation open, any key bound to quit and not to up, down, cancel or
    close makes it return the quit command. *)
Theorem quit_needs_the_quit_key (w : ui.World) :
  (forall m msg,
     tea.emits_quit (snd (ui.Update w m msg)) = true ->
     snd (ui.Update w m msg) = tea.Quit /\
     exists k, msg = tea.KeyMsg k /\
               key.Matches k [config.Quit (ui.keyMap m)] = true /\
               ui.isSafeToQuit w m = true) /\
  (forall wr msg,
     tea.emits_quit (snd (ui.wrapper_Update w wr msg)) = true ->
     exists k, msg = tea.KeyMsg k /\
               key.Matches k [config.Quit (ui.keyMap (ui.ui wr))] = true /\
               ui.isSafeToQuit w (ui.ui wr) = true) /\
  (forall Current s msg s' c,
     details.internalUpdate Current s msg = Ok (s', c) ->
     tea.emits_quit c = true ->
     exists k, msg = tea.KeyMsg k /\
               key.Matches k [config.Quit (details.keyMap s)] = true) /\
  (forall Current s k,
     details.confirmation s = None ->
     spec.reaches_quit_case (details.keyMap s) k ->
     key.Matches k [config.Quit (details.keyMap s)] = true ->
     details.internalUpdate Current s (tea.KeyMsg k) = Ok (s, tea.Quit)).
Proof.
  repeat apply conj.
  - intros m msg Hq. destruct (Update_ok w m msg) as [[Hplain _]|[Hc Hk]].
    + congruence.
    + split; assumption.
  - intros wr msg Hq. unfold ui.wrapper_Update in Hq.
    destruct msg;
      try (pose proof (Update_ok w (ui.ui wr) tea.frameTickMsg); discriminate Hq);
      match type of Hq with
      | context [ui.Update w (ui.ui wr) ?msg] =>
          destruct (Update_ok w (ui.ui wr) msg) as [[Hplain _]|[_ Hk]];
            [|exact Hk];
            destruct (ui.Update w (ui.ui wr) msg) as [[ui1 log] c];
            destruct (negb (ui.scheduledNextFrame wr)); cbn in Hq, Hplain;
            rewrite ?Hplain in Hq; discriminate Hq
      end.
  - intros Current s msg s' c. apply internalUpdate_quit_only_on_key.
  - intros Current s k Hconf (Hu & Hd & Hc & Hcl) Hq. unfold details.internalUpdate.
    rewrite Hconf, Hu, Hd, Hc, Hcl, Hq. reflexivity.
Qed.

Lemma quit_needs_the_quit_key_witness :
  (snd (ui.Update examples.quiet examples.idle (tea.KeyMsg "q")) = tea.Quit /\
   exists k, tea.KeyMsg "q" = tea.KeyMsg k /\
             key.Matches k [config.Quit (ui.keyMap examples.idle)] = true /\
             ui.isSafeToQuit examples.quiet examples.idle = true) /\
  details.internalUpdate examples.Current
    (examples.details_of [examples.file "a.go" false] 0) (tea.KeyMsg "q")
    = Ok (examples.details_of [examples.file "a.go" false] 0, tea.Quit).
Proof.
  split.
  - apply (proj1 (quit_needs_the_quit_key examples.quiet) examples.idle (tea.KeyMsg "q")).
    reflexivity.
  - apply (proj2 (proj2 (proj2 (quit_needs_the_quit_key examples.quiet)))
             examples.Current (examples.details_of [examples.file "a.go" false] 0) "q").
    + reflexivity.
    + repeat split; reflexivity.
    + reflexivity.
Defined.

(** C7 as the specification words it fails: while the revisions view is in
    the details operation [isSafeToQuit] is false, the router passes the
    quit key on to the revisions view, and the details operation answers it
    with the quit command. *)
Lemma details_quits_unguarded_counterexample :
  let op := examples.details_of [examples.file "a.go" false] 0 in
  let w := examples.with_operation examples.quiet (ui.DetailsOperation op) false false in
  let q := tea.KeyMsg "q" in
  ui.isSafeToQuit w examples.idle = false /\
  snd (fst (ui.Update w examples.idle q)) =
    [tea.CUpdate tea.SRevset q; tea.CUpdate tea.SStatus q; tea.CUpdate tea.SFlash q;
     tea.CUpdate tea.SRevisions q] /\
  details.internalUpdate examples.Current op q = Ok (op, tea.Quit).
Proof. cbv zeta. repeat split; reflexivity. Qed.

(** ** The render cache *)

Lemma Update_schedules_no_frame_tick (w : ui.World) (m : ui.Model) (msg : tea.Msg) :
  spec.frame_ticks (snd (ui.Update w m msg)) = 0%nat.
Proof.
  destruct (Update_ok w m msg) as [[_ Ht]|[-> _]]; [exact Ht|reflexivity].
Qed.

Lemma wrapper_Update_step (w : ui.World) (wr : ui.wrapper) (msg : tea.Msg) :
  spec.is_frame_tick msg = false ->
  let '(wr1, _, c) := ui.wrapper_Update w wr msg in
  ui.render wr1 = ui.render wr /\
  ui.cachedFrame wr1 = ui.cachedFrame wr /\
  ui.scheduledNextFrame wr1 = true /\
  c = (if ui.scheduledNextFrame wr then snd (ui.Update w (ui.ui wr) msg)
       else tea.Batch [snd (ui.Update w (ui.ui wr) msg); tea.Tick 8000000 tea.frameTickMsg]) /\
  spec.frame_ticks c = (if ui.scheduledNextFrame wr then 0 else 1)%nat.
Proof.
  intros Hmsg. pose proof (Update_schedules_no_frame_tick w (ui.ui wr) msg) as Ht.
  unfold ui.wrapper_Update.
  destruct msg; try discriminate Hmsg;
    match goal with
    | |- context [ui.Update w (ui.ui wr) ?msg] =>
        destruct (ui.Update w (ui.ui wr) msg) as [[ui1 log] c]
    end;
    destruct (ui.scheduledNextFrame wr) eqn:Es; cbn in *;
    rewrite ?Ht; repeat split; reflexivity.
Qed.

Lemma wrapper_run_keeps_cache (events : list (ui.World * tea.Msg)) (wr : ui.wrapper) :
  (forall e, In e events -> spec.is_frame_tick (snd e) = false) ->
  ui.render (spec.wrapper_run wr events) = ui.render wr /\
  ui.cachedFrame (spec.wrapper_run wr events) = ui.cachedFrame wr.
Proof.
  revert wr. induction events as [|[w msg] rest IH]; intros wr Hnotick; cbn.
  - split; reflexivity.
  - pose proof (wrapper_Update_step w wr msg (Hnotick (w, msg) (or_introl eq_refl))) as Hstep.
    destruct (ui.wrapper_Update w wr msg) as [[wr1 log] c]. cbn.
    destruct Hstep as (Hr & Hc & _).
    destruct (IH wr1 (fun e He => Hnotick e (or_intror He))) as [IHr IHc].
    split; congruence.
Qed.

Lemma pending_ticks_invariant (events : list (ui.World * tea.Msg)) (wr : ui.wrapper) :
  (spec.pending_ticks wr (if ui.scheduledNextFrame wr then 1 else 0) events <= 1)%nat.
Proof.
  revert wr. induction events as [|[w msg] rest IH]; intros wr; cbn.
  - destruct (ui.scheduledNextFrame wr); lia.
  - destruct (spec.is_frame_tick msg) eqn:Emsg.
    + destruct msg; try discriminate Emsg. cbn.
      specialize (IH {| ui.ui := ui.ui wr; ui.scheduledNextFrame := false;
                        ui.render := true; ui.cachedFrame := ui.cachedFrame wr |}).
      cbn in IH. destruct (ui.scheduledNextFrame wr); cbn; exact IH.
    + pose proof (wrapper_Update_step w wr msg Emsg) as Hstep.
      destruct (ui.wrapper_Update w wr msg) as [[wr1 log] c].
      destruct Hstep as (_ & _ & Hs & _ & Ht). rewrite Ht.
      specialize (IH wr1). rewrite Hs in IH.
      destruct (ui.scheduledNextFrame wr); cbn; exact IH.
Qed.

(** C6: the wrapper runs [Model.View] only when a frame tick has set the
    render flag since the last run.  After a call of [View], any burst of
    events without a frame tick leaves the flag down and the cached frame
    as it is, so the next call of [View] returns the same text and changes
    nothing.  An event that is not a frame tick keeps flag and cache and
    hands back the router's command, to which it adds one tick of 8 ms
    exactly when none is scheduled; a frame tick raises the render flag and
    calls nobody.  At no time is more than one tick in flight. *)
Theorem wrapper_renders_only_after_tick
  (View1 View2 : ui.Model -> ui.Model * string) (wr : ui.wrapper)
  (events : list (ui.World * tea.Msg))
  (Hnotick : forall e, In e events -> spec.is_frame_tick (snd e) = false) :
  let first := ui.wrapper_View View1 wr in
  let later := spec.wrapper_run (fst first) events in
  snd (ui.wrapper_View View2 later) = snd first /\
  fst (ui.wrapper_View View2 later) = later /\
  (forall w wr0 msg, spec.is_frame_tick msg = false ->
     let '(wr1, _, c) := ui.wrapper_Update w wr0 msg in
     ui.render wr1 = ui.render wr0 /\
     ui.cachedFrame wr1 = ui.cachedFrame wr0 /\
     ui.scheduledNextFrame wr1 = true /\
     c = (if ui.scheduledNextFrame wr0 then snd (ui.Update w (ui.ui wr0) msg)
          else tea.Batch [snd (ui.Update w (ui.ui wr0) msg);
                          tea.Tick 8000000 tea.frameTickMsg]) /\
     spec.frame_ticks c = (if ui.scheduledNextFrame wr0 then 0 else 1)%nat) /\
  (forall w wr0,
     ui.wrapper_Update w wr0 tea.frameTickMsg =
       ({| ui.ui := ui.ui wr0; ui.scheduledNextFrame := false; ui.render := true;
           ui.cachedFrame := ui.cachedFrame wr0 |}, [], tea.Nil)) /\
  (forall wr0 events0,
     (spec.pending_ticks wr0 (if ui.scheduledNextFrame wr0 then 1 else 0) events0 <= 1)%nat).
Proof.
  cbv zeta.
  assert (Hfirst : ui.render (fst (ui.wrapper_View View1 wr)) = false /\
                   ui.cachedFrame (fst (ui.wrapper_View View1 wr))
                     = snd (ui.wrapper_View View1 wr)).
  { unfold ui.wrapper_View. destruct (ui.render wr) eqn:Er.
    - destruct (View1 (ui.ui wr)) as [ui1 frame]. split; reflexivity.
    - split; [exact Er|reflexivity]. }
  destruct Hfirst as [Hr Hc].
  destruct (wrapper_run_keeps_cache events (fst (ui.wrapper_View View1 wr)) Hnotick)
    as [Hr' Hc'].
  rewrite Hr in Hr'. rewrite Hc in Hc'.
  repeat apply conj.
  - unfold ui.wrapper_View at 1. rewrite Hr'. exact Hc'.
  - unfold ui.wrapper_View at 1. rewrite Hr'. reflexivity.
  - intros w wr0 msg. apply wrapper_Update_step.
  - reflexivity.
  - intros wr0 events0. apply pending_ticks_invariant.
Qed.

Lemma wrapper_renders_only_after_tick_witness :
  let burst := [(examples.quiet, tea.WindowSizeMsg 120 40); (examples.quiet, tea.KeyMsg "j")] in
  let first := ui.wrapper_View examples.Model_View examples.due in
  let later := spec.wrapper_run (fst first) burst in
  snd first = "eighty columns" /\
  ui.Width (ui.ui later) = 120 /\
  snd (ui.wrapper_View examples.Model_View later) = snd first.
Proof.
  cbv zeta. split; [reflexivity|]. split; [reflexivity|].
  apply (proj1 (wrapper_renders_only_after_tick examples.Model_View examples.Model_View
                  examples.due
                  [(examples.quiet, tea.WindowSizeMsg 120 40); (examples.quiet, tea.KeyMsg "j")]
                  ltac:(intros e [<-|[<-|[]]]; reflexivity))).
Defined.

(** * Further properties of the code *)

(** ** Configuration: the suggest mode and the show option *)

(** [GetSuggestExecMode] returns no error exactly for off, fuzzy and regex,
    each giving its mode; for any other string it returns an error together
    with the off mode. *)
Theorem GetSuggestExecMode_falls_back_to_off (sc : config.SuggestConfig) :
  let value := config.Mode (config.Exec sc) in
  let mode := fst (config.GetSuggestExecMode sc) in
  let err := snd (config.GetSuggestExecMode sc) in
  (err = None <-> value = "off" \/ value = "fuzzy" \/ value = "regex") /\
  (err <> None -> mode = config.SuggestModeOff) /\
  (mode = config.SuggestModeFuzzy <-> value = "fuzzy") /\
  (mode = config.SuggestModeRegex <-> value = "regex").
Proof.
  cbv zeta. unfold config.GetSuggestExecMode.
  destruct (String.eqb_spec (config.Mode (config.Exec sc)) "off") as [E1|E1];
    [rewrite E1; cbn; repeat split; intros; try discriminate; try congruence; auto|].
  destruct (String.eqb_spec (config.Mode (config.Exec sc)) "fuzzy") as [E2|E2];
    [rewrite E2; cbn; repeat split; intros; try discriminate; try congruence; auto|].
  destruct (String.eqb_spec (config.Mode (config.Exec sc)) "regex") as [E3|E3];
    [rewrite E3; cbn; repeat split; intros; try discriminate; try congruence; auto|].
  cbn. repeat split; intros; try discriminate; try congruence; try tauto.
Qed.

Lemma GetSuggestExecMode_falls_back_to_off_witness :
  fst (config.GetSuggestExecMode {| config.Exec := {| config.Mode := "fuzy" |} |})
    = config.SuggestModeOff.
Proof.
  apply (proj1 (proj2 (GetSuggestExecMode_falls_back_to_off
                         {| config.Exec := {| config.Mode := "fuzy" |} |}))).
  discriminate.
Defined.

(** [ShowOption.UnmarshalText] accepts exactly the texts of the two options
    and stores the text; any other text, the word none of its own error
    message included, is refused with an error and the receiver keeps its
    value. *)
Theorem ShowOption_UnmarshalText_accepts_the_options (s text : string) :
  (forall o, text = config.ShowOption_string o ->
     config.ShowOption_UnmarshalText s text = (config.ShowOption_string o, None)) /\
  ((forall o, text <> config.ShowOption_string o) ->
     exists e, config.ShowOption_UnmarshalText s text = (s, Some e)) /\
  (exists e, config.ShowOption_UnmarshalText s "none" = (s, Some e)).
Proof.
  unfold config.ShowOption_UnmarshalText. repeat apply conj.
  - intros o ->. destruct o; reflexivity.
  - intros Hno.
    destruct (String.eqb_spec text (config.ShowOption_string config.ShowOptionDiff)) as [E|_];
      [elim (Hno _ E)|].
    destruct (String.eqb_spec text (config.ShowOption_string config.ShowOptionInteractive))
      as [E|_]; [elim (Hno _ E)|].
    eexists. reflexivity.
  - eexists. reflexivity.
Qed.

Lemma ShowOption_UnmarshalText_accepts_the_options_witness :
  config.ShowOption_UnmarshalText "diff" "interactive" = ("interactive", None) /\
  exists e, config.ShowOption_UnmarshalText "diff" "Interactive" = ("diff", Some e).
Proof.
  split.
  - exact (proj1 (ShowOption_UnmarshalText_accepts_the_options "diff" "interactive")
             config.ShowOptionInteractive eq_refl).
  - apply (proj1 (proj2 (ShowOption_UnmarshalText_accepts_the_options "diff" "Interactive"))).
    intros []; discriminate.
Defined.

(** ** Configuration: colors *)

Lemma land_pow2 (f i : Z) :
  0 <= i -> Z.land f (2 ^ i) = if Z.testbit f i then 2 ^ i else 0.
Proof.
  intros Hi. apply Z.bits_inj'. intros j Hj.
  rewrite Z.land_spec, Z.pow2_bits_eqb by exact Hi.
  destruct (Z.eqb_spec i j) as [->|Hij].
  - destruct (Z.testbit f j) eqn:E.
    + rewrite Z.pow2_bits_eqb by exact Hj. now rewrite Z.eqb_refl.
    + now rewrite Z.bits_0.
  - rewrite andb_false_r. destruct (Z.testbit f i).
    + rewrite Z.pow2_bits_eqb by exact Hi. symmetry. now apply Z.eqb_neq.
    + now rewrite Z.bits_0.
Qed.

Lemma IsSet_bit (c : config.Color) (i : Z) :
  0 <= i -> config.IsSet c (2 ^ i) = Z.testbit (config.flags c) i.
Proof.
  intros Hi. unfold config.IsSet. rewrite (land_pow2 _ _ Hi).
  destruct (Z.testbit (config.flags c) i).
  - apply Z.eqb_refl.
  - apply Z.eqb_neq. pose proof (Z.pow_pos_nonneg 2 i ltac:(lia) Hi). lia.
Qed.

Lemma land_eq_iff (f x : Z) :
  Z.land f x = x <-> forall j, 0 <= j -> Z.testbit x j = true -> Z.testbit f j = true.
Proof.
  split.
  - intros H j Hj Hx. rewrite <- H in Hx. rewrite Z.land_spec in Hx.
    now apply andb_prop in Hx.
  - intros H. apply Z.bits_inj'. intros j Hj. rewrite Z.land_spec.
    destruct (Z.testbit x j) eqn:E; [|apply andb_false_r].
    now rewrite (H j Hj E).
Qed.

(** What the color hook makes of a table when it returns. *)
Lemma Color_UnmarshalTOML_table (c c' : config.Color) (v : list (string * config.Value))
  (e : option config.error) :
  config.Color_UnmarshalTOML c (config.VTable v) = Ok (c', e) ->
  e = None /\
  spec.well_typed_color v = true /\
  config.Fg c' = spec.string_at v "fg" (config.Fg c) /\
  config.Bg c' = spec.string_at v "bg" (config.Bg c) /\
  config.Bold c' = spec.bool_at v "bold" (config.Bold c) /\
  config.Italic c' = spec.bool_at v "italic" (config.Italic c) /\
  config.Underline c' = spec.bool_at v "underline" (config.Underline c) /\
  config.Strikethrough c' = spec.bool_at v "strikethrough" (config.Strikethrough c) /\
  config.Reverse c' = spec.bool_at v "reverse" (config.Reverse c) /\
  config.flags c' =
    Z.lor (Z.lor (Z.lor (Z.lor (Z.lor (config.flags c)
      (spec.flag_at v "bold" config.ColorAttributeBold))
      (spec.flag_at v "italic" config.ColorAttributeItalic))
      (spec.flag_at v "underline" config.ColorAttributeUnderline))
      (spec.flag_at v "strikethrough" config.ColorAttributeStrikethrough))
      (spec.flag_at v "reverse" config.ColorAttributeReverse).
Proof.
  intros H.
  unfold config.Color_UnmarshalTOML, config.onKey, spec.well_typed_color, spec.absent_or,
    spec.string_at, spec.bool_at, spec.flag_at in *.
  destruct (config.lookup "fg" v) as [[]|];
    cbn [bind config.assertString config.assertBool] in H; try discriminate H;
  destruct (config.lookup "bg" v) as [[]|];
    cbn [bind config.assertString config.assertBool] in H; try discriminate H;
  destruct (config.lookup "bold" v) as [[]|];
    cbn [bind config.assertString config.assertBool] in H; try discriminate H;
  destruct (config.lookup "italic" v) as [[]|];
    cbn [bind config.assertString config.assertBool] in H; try discriminate H;
  destruct (config.lookup "underline" v) as [[]|];
    cbn [bind config.assertString config.assertBool] in H; try discriminate H;
  destruct (config.lookup "strikethrough" v) as [[]|];
    cbn [bind config.assertString config.assertBool] in H; try discriminate H;
  destruct (config.lookup "reverse" v) as [[]|];
    cbn [bind config.assertString config.assertBool] in H; try discriminate H;
  injection H as <- <-;
  cbn [config.Fg config.Bg config.Bold config.Italic config.Underline config.Strikethrough
       config.Reverse config.flags config.set_Fg config.set_Bg config.set_Bold
       config.set_Italic config.set_Underline config.set_Strikethrough config.set_Reverse
       spec.is_string spec.is_bool andb];
  rewrite ?Z.lor_0_r; repeat split; reflexivity.
Qed.

(** After the color hook has read a table, an attribute flag is set exactly
    when it was set before or the table has the attribute's key, whatever
    boolean the key holds; the attribute's field holds that boolean, or its
    old value when the key is absent.  The hook never returns an error. *)
Theorem Color_flags_record_presence (c c' : config.Color) (v : list (string * config.Value))
  (e : option config.error)
  (Hok : config.Color_UnmarshalTOML c (config.VTable v) = Ok (c', e)) :
  e = None /\
  forall k attr field, In (k, attr, field) spec.color_attributes ->
    config.IsSet c' attr = config.IsSet c attr || ui.isSome (config.lookup k v) /\
    field c' = spec.bool_at v k (field c).
Proof.
  destruct (Color_UnmarshalTOML_table c c' v e Hok)
    as (He & _ & _ & _ & Hb & Hi & Hu & Hs & Hr & Hf).
  split; [exact He|].
  assert (Hbit : forall fl j, 0 <= j -> forall k0,
            Z.testbit (spec.flag_at v k0 (2 ^ fl)) j
            = ui.isSome (config.lookup k0 v) && (fl =? j)).
  { intros fl j Hj k0. unfold spec.flag_at. destruct (config.lookup k0 v); cbn [ui.isSome].
    - destruct (Z.leb_spec 0 fl).
      + now rewrite Z.pow2_bits_eqb.
      + rewrite Z.pow_neg_r by lia. rewrite Z.bits_0. symmetry. apply Z.eqb_neq. lia.
    - apply Z.bits_0. }
  intros k attr field Hin. unfold spec.color_attributes in Hin. cbn [In] in Hin.
  destruct Hin as [E|[E|[E|[E|[E|[]]]]]]; injection E as <- <- <-;
    (split; [|assumption]).
  - change config.ColorAttributeBold with (2 ^ 0). rewrite !IsSet_bit, Hf by lia.
    change config.ColorAttributeBold with (2 ^ 0).
    change config.ColorAttributeItalic with (2 ^ 1).
    change config.ColorAttributeUnderline with (2 ^ 2).
    change config.ColorAttributeStrikethrough with (2 ^ 3).
    change config.ColorAttributeReverse with (2 ^ 4).
    rewrite !Z.lor_spec, !Hbit by lia. cbn. now rewrite !andb_false_r, !orb_false_r, andb_true_r.
  - change config.ColorAttributeItalic with (2 ^ 1). rewrite !IsSet_bit, Hf by lia.
    change config.ColorAttributeBold with (2 ^ 0).
    change config.ColorAttributeItalic with (2 ^ 1).
    change config.ColorAttributeUnderline with (2 ^ 2).
    change config.ColorAttributeStrikethrough with (2 ^ 3).
    change config.ColorAttributeReverse with (2 ^ 4).
    rewrite !Z.lor_spec, !Hbit by lia. cbn. now rewrite !andb_false_r, !orb_false_r, andb_true_r.
  - change config.ColorAttributeUnderline with (2 ^ 2). rewrite !IsSet_bit, Hf by lia.
    change config.ColorAttributeBold with (2 ^ 0).
    change config.ColorAttributeItalic with (2 ^ 1).
    change config.ColorAttributeUnderline with (2 ^ 2).
    change config.ColorAttributeStrikethrough with (2 ^ 3).
    change config.ColorAttributeReverse with (2 ^ 4).
    rewrite !Z.lor_spec, !Hbit by lia. cbn. now rewrite !andb_false_r, !orb_false_r, andb_true_r.
  - change config.ColorAttributeStrikethrough with (2 ^ 3). rewrite !IsSet_bit, Hf by lia.
    change config.ColorAttributeBold with (2 ^ 0).
    change config.ColorAttributeItalic with (2 ^ 1).
    change config.ColorAttributeUnderline with (2 ^ 2).
    change config.ColorAttributeStrikethrough with (2 ^ 3).
    change config.ColorAttributeReverse with (2 ^ 4).
    rewrite !Z.lor_spec, !Hbit by lia. cbn. now rewrite !andb_false_r, !orb_false_r, andb_true_r.
  - change config.ColorAttributeReverse with (2 ^ 4). rewrite !IsSet_bit, Hf by lia.
    change config.ColorAttributeBold with (2 ^ 0).
    change config.ColorAttributeItalic with (2 ^ 1).
    change config.ColorAttributeUnderline with (2 ^ 2).
    change config.ColorAttributeStrikethrough with (2 ^ 3).
    change config.ColorAttributeReverse with (2 ^ 4).
    rewrite !Z.lor_spec, !Hbit by lia. cbn. now rewrite !andb_false_r, !orb_false_r, andb_true_r.
Qed.

Lemma Color_flags_record_presence_witness :
  let c' := config.set_Bold (config.set_Fg examples.no_color "red") false in
  config.IsSet c' config.ColorAttributeBold = true /\ config.Bold c' = false.
Proof.
  exact (proj2 (Color_flags_record_presence examples.no_color _ examples.plain_red None eq_refl)
           "bold" config.ColorAttributeBold config.Bold (or_introl eq_refl)).
Defined.

(** The color hook returns, with a nil error, exactly when every key of the
    table that it reads holds a value of the asserted type (a string for fg
    and bg, a boolean for the five attributes); otherwise the type
    assertion panics.  A string sets the foreground and nothing else, and a
    value that is neither a string nor a table changes nothing. *)
Theorem Color_UnmarshalTOML_panics_on_wrong_type (c : config.Color) :
  (forall v,
     ((exists c', config.Color_UnmarshalTOML c (config.VTable v) = Ok (c', None))
        <-> spec.well_typed_color v = true) /\
     (spec.well_typed_color v = false ->
        exists reason, config.Color_UnmarshalTOML c (config.VTable v) = Panic reason)) /\
  (forall x, config.Color_UnmarshalTOML c (config.VString x) = Ok (config.set_Fg c x, None)) /\
  (forall b, config.Color_UnmarshalTOML c (config.VBool b) = Ok (c, None)) /\
  (forall t, config.Color_UnmarshalTOML c (config.VOther t) = Ok (c, None)).
Proof.
  repeat apply conj; try reflexivity.
  intros v. split; [split|].
  - intros [c' H]. exact (proj1 (proj2 (Color_UnmarshalTOML_table c c' v None H))).
  - intros H.
    unfold config.Color_UnmarshalTOML, config.onKey, spec.well_typed_color, spec.absent_or in *.
    destruct (config.lookup "fg" v) as [[]|]; cbn in H; try discriminate H;
    destruct (config.lookup "bg" v) as [[]|]; cbn in H; try discriminate H;
    destruct (config.lookup "bold" v) as [[]|]; cbn in H; try discriminate H;
    destruct (config.lookup "italic" v) as [[]|]; cbn in H; try discriminate H;
    destruct (config.lookup "underline" v) as [[]|]; cbn in H; try discriminate H;
    destruct (config.lookup "strikethrough" v) as [[]|]; cbn in H; try discriminate H;
    destruct (config.lookup "reverse" v) as [[]|]; cbn in H; try discriminate H;
    eexists; reflexivity.
  - intros Hbad.
    destruct (config.Color_UnmarshalTOML c (config.VTable v)) as [[c' e]|reason] eqn:E.
    + pose proof (proj1 (proj2 (Color_UnmarshalTOML_table c c' v e E))). congruence.
    + now exists reason.
Qed.

Lemma Color_UnmarshalTOML_panics_on_wrong_type_witness :
  exists reason,
    config.Color_UnmarshalTOML examples.no_color
      (config.VTable [("bold", config.VString "yes")]) = Panic reason.
Proof.
  apply (proj2 (proj1 (Color_UnmarshalTOML_panics_on_wrong_type examples.no_color)
                  [("bold", config.VString "yes")])).
  reflexivity.
Defined.

(** [IsSet] with several flags or-ed together asks for every one of them,
    and with no flag it holds. *)
Theorem IsSet_of_combined_flags (c : config.Color) (a b : config.ColorAttribute) :
  config.IsSet c (Z.lor a b) = config.IsSet c a && config.IsSet c b /\
  config.IsSet c 0 = true.
Proof.
  split.
  - apply eq_true_iff_eq. unfold config.IsSet.
    rewrite andb_true_iff, !Z.eqb_eq, !land_eq_iff. split.
    + intros H. split; intros j Hj Hx; apply (H j Hj); rewrite Z.lor_spec, Hx;
        [reflexivity|apply orb_true_r].
    + intros [Ha Hb] j Hj Hx. rewrite Z.lor_spec in Hx.
      apply orb_prop in Hx. destruct Hx; [apply Ha|apply Hb]; assumption.
  - unfold config.IsSet. now rewrite Z.land_0_r.
Qed.

(** ** Configuration: themes *)

(** The theme hook sets both themes from a string.  From a table it takes
    dark and then light, each only when present: a dark value that is no
    string stops it with an error before anything is stored, while a light
    value that is no string stops it with an error after dark has already
    been stored.  There is no error exactly when both keys, where present,
    hold strings. *)
Theorem ThemeConfig_UnmarshalTOML_cases (t : config.ThemeConfig) :
  (forall x, config.ThemeConfig_UnmarshalTOML t (config.VString x)
             = ({| config.Dark := x; config.Light := x |}, None)) /\
  (forall v,
     let t' := fst (config.ThemeConfig_UnmarshalTOML t (config.VTable v)) in
     let err := snd (config.ThemeConfig_UnmarshalTOML t (config.VTable v)) in
     (err = None <->
        spec.absent_or spec.is_string v "dark" && spec.absent_or spec.is_string v "light" = true) /\
     (spec.absent_or spec.is_string v "dark" = false -> t' = t) /\
     (spec.absent_or spec.is_string v "dark" = true ->
        config.Dark t' = spec.string_at v "dark" (config.Dark t)) /\
     (err = None -> config.Light t' = spec.string_at v "light" (config.Light t)) /\
     (err <> None -> config.Light t' = config.Light t)).
Proof.
  split; [reflexivity|].
  intros v. cbv zeta.
  unfold config.ThemeConfig_UnmarshalTOML, spec.absent_or, spec.string_at.
  destruct t as [d l].
  destruct (config.lookup "dark" v) as [[]|], (config.lookup "light" v) as [[]|]; cbn;
    repeat split; intros; try discriminate; try reflexivity; try congruence.
Qed.

Lemma ThemeConfig_UnmarshalTOML_cases_witness :
  let v := [("dark", config.VString "night"); ("light", config.VBool true)] in
  let r := config.ThemeConfig_UnmarshalTOML examples.theme (config.VTable v) in
  config.Dark (fst r) = "night" /\ config.Light (fst r) = "default_light".
Proof.
  cbv zeta. split.
  - apply (proj1 (proj2 (proj2 (proj2 (ThemeConfig_UnmarshalTOML_cases examples.theme)
             [("dark", config.VString "night"); ("light", config.VBool true)])))).
    reflexivity.
  - apply (proj2 (proj2 (proj2 (proj2 (proj2 (ThemeConfig_UnmarshalTOML_cases examples.theme)
             [("dark", config.VString "night"); ("light", config.VBool true)]))))).
    discriminate.
Defined.

(** ** Configuration: the default editor *)

Lemma firstOnPath_cases (os : config.OS) (candidates : list string) :
  (exists before c after p,
     candidates = before ++ c :: after /\
     (forall b, In b before -> snd (config.LookPath os b) <> None) /\
     config.LookPath os c = (p, None) /\
     config.firstOnPath os EmptyString candidates = p) \/
  ((forall c, In c candidates -> snd (config.LookPath os c) <> None) /\
   config.firstOnPath os EmptyString candidates = EmptyString).
Proof.
  induction candidates as [|c rest IH]; cbn [config.firstOnPath].
  - right. split; [intros c []|reflexivity].
  - destruct (config.LookPath os c) as [p [e|]] eqn:E.
    + destruct IH as [(before & c0 & after & p0 & -> & Hb & Hc & Hr)|[Hall Hr]].
      * left. exists (c :: before), c0, after, p0. repeat split; try assumption.
        intros b [<-|Hin]; [rewrite E; discriminate|now apply Hb].
      * right. split; [|exact Hr].
        intros b [<-|Hin]; [rewrite E; discriminate|now apply Hall].
    + left. exists [], c, rest, p. repeat split; try assumption. intros b [].
Qed.

(** [GetDefaultEditor] answers with EDITOR when it is set, else with VISUAL
    when that is set; with neither set it answers with the path of the
    first of nano, vim, vi, notepad.exe that is found, and with the empty
    string when none is. *)
Theorem GetDefaultEditor_order (os : config.OS) :
  let E := config.Getenv os "EDITOR" in
  let V := config.Getenv os "VISUAL" in
  (E <> EmptyString -> config.GetDefaultEditor os = E) /\
  (E = EmptyString -> V <> EmptyString -> config.GetDefaultEditor os = V) /\
  (E = EmptyString -> V = EmptyString ->
     (exists before c after p,
        config.editor_candidates = before ++ c :: after /\
        (forall b, In b before -> snd (config.LookPath os b) <> None) /\
        config.LookPath os c = (p, None) /\
        config.GetDefaultEditor os = p) \/
     ((forall c, In c config.editor_candidates -> snd (config.LookPath os c) <> None) /\
      config.GetDefaultEditor os = EmptyString)).
Proof.
  cbv zeta. unfold config.GetDefaultEditor. repeat apply conj.
  - intros HE. destruct (String.eqb_spec (config.Getenv os "EDITOR") EmptyString) as [E|_];
      [contradiction|].
    destruct (String.eqb_spec (config.Getenv os "EDITOR") EmptyString); [contradiction|reflexivity].
  - intros -> HV. cbn.
    destruct (String.eqb_spec (config.Getenv os "VISUAL") EmptyString); [contradiction|reflexivity].
  - intros -> ->. cbn. apply firstOnPath_cases.
Qed.

Lemma GetDefaultEditor_order_witness :
  config.GetDefaultEditor examples.visual_set = "code" /\
  ((exists before c after p,
      config.editor_candidates = before ++ c :: after /\
      (forall b, In b before -> snd (config.LookPath examples.vim_only b) <> None) /\
      config.LookPath examples.vim_only c = (p, None) /\
      config.GetDefaultEditor examples.vim_only = p) \/
   ((forall c, In c config.editor_candidates ->
       snd (config.LookPath examples.vim_only c) <> None) /\
    config.GetDefaultEditor examples.vim_only = EmptyString)).
Proof.
  split.
  - apply (proj1 (proj2 (GetDefaultEditor_order examples.visual_set))).
    + reflexivity.
    + discriminate.
  - apply (proj2 (proj2 (GetDefaultEditor_order examples.vim_only))); reflexivity.
Defined.

(** ** What a router step leaves alone *)

Lemma settled_refl (m : ui.Model) : spec.settled m m.
Proof. unfold spec.settled. repeat split; auto. Qed.

Lemma settled_trans (m m1 m2 : ui.Model) :
  spec.settled m m1 -> spec.settled m1 m2 -> spec.settled m m2.
Proof.
  unfold spec.settled.
  intros (A1 & A2 & A3 & A4 & A5 & A6 & A7 & A8) (B1 & B2 & B3 & B4 & B5 & B6 & B7 & B8).
  repeat split; try congruence.
  - intros H. auto.
  - destruct B8 as [B8|[B8|B8]]; [|now right; left|now right; right].
    rewrite B8. exact A8.
Qed.

Lemma findViewAt_is_view (w : ui.World) (m : ui.Model) (x y : Z) (v : tea.Surface) :
  ui.findViewAt w m x y = Some v -> spec.is_view v.
Proof.
  unfold ui.findViewAt, spec.is_view.
  repeat match goal with |- context [if ?c then _ else _] => destruct c end;
    intros [= <-]; auto.
Qed.

Lemma settled_Update_hit (w : ui.World) (m : ui.Model) (msg : tea.Msg)
  (X Y : Z) (a : tea.MouseAction) (b : tea.MouseButton) :
  spec.settled m (fst (fst (ui.Update_hit w m msg X Y a b))).
Proof.
  unfold ui.Update_hit. destruct (ui.findViewAt w m X Y) as [v|] eqn:Ev; [|apply settled_refl].
  pose proof (findViewAt_is_view w m X Y v Ev) as Hv.
  destruct (ui.DragStart_of w v) as [start|], a, b; try apply settled_refl.
  destruct (start X Y); [|apply settled_refl].
  unfold spec.settled; cbn; repeat split; auto. right; right. now exists v.
Qed.

Lemma settled_Update_mouse (w : ui.World) (m : ui.Model) (msg : tea.Msg)
  (X Y : Z) (a : tea.MouseAction) (b : tea.MouseButton) :
  spec.settled m (fst (fst (ui.Update_mouse w m msg X Y a b))).
Proof.
  assert (Hdrop : spec.settled m (ui.with_dragTarget m None)).
  { unfold spec.settled; cbn; repeat split; auto. }
  unfold ui.Update_mouse.
  destruct (ui.isSome (ui.stacked m)); [apply settled_refl|].
  destruct (ui.dragTarget m) as [t|] eqn:Et; [|apply settled_Update_hit].
  destruct (ui.dragTarget_IsDragging w).
  - destruct a; try apply settled_refl; try exact Hdrop. apply settled_Update_hit.
  - eapply settled_trans; [exact Hdrop|apply settled_Update_hit].
Qed.

Lemma settled_Update_bindings (w : ui.World) (m : ui.Model) (log : list tea.Call)
  (k : key.KeyMsg) :
  spec.flow_settled m (ui.Update_bindings w m log k).
Proof.
  unfold ui.Update_bindings. cbv zeta. repeat flow_split; settled_leaf.
Qed.

Lemma settled_Update_key (w : ui.World) (m : ui.Model) (k : key.KeyMsg) :
  spec.flow_settled m (ui.Update_key w m k).
Proof.
  assert (Hflow : forall m1 log, spec.settled m m1 ->
            spec.flow_settled m (ui.Update_bindings w m1 log k)).
  { intros m1 log H1. pose proof (settled_Update_bindings w m1 log k) as H2.
    destruct (ui.Update_bindings w m1 log k) as [[[m2 l2] c]|m2 l2 cmds]; cbn in *;
      eapply settled_trans; eassumption. }
  unfold ui.Update_key, ui.handleCustomCommandSequence, ui.ensureSequenceOverlay.
  destruct (ui.isSome (ui.sequenceOverlay m)) eqn:Eo; cbn [negb].
  - destruct (ui.Active (ui.overlay_HandleKey w k)),
      (ui.Cmd (ui.overlay_HandleKey w k)); cbn; try rewrite Eo; cbn; settled_leaf.
  - destruct (ui.shouldStartSequenceOverlay m k); cbn [negb].
    + destruct (ui.Active (ui.overlay_HandleKey w k)),
        (ui.Cmd (ui.overlay_HandleKey w k)); cbn; try settled_leaf.
      apply Hflow. settled_leaf.
    + cbn. rewrite Eo. cbn. apply Hflow, settled_refl.
Qed.

Lemma settled_Update_switch (w : ui.World) (m : ui.Model) (msg : tea.Msg) :
  spec.flow_settled m (ui.Update_switch w m msg).
Proof.
  destruct msg; cbn [ui.Update_switch]; try solve [cbv zeta; repeat flow_split; settled_leaf].
  - apply settled_Update_key.
  - pose proof (settled_Update_mouse w m (tea.MouseMsg X Y Action Button) X Y Action Button) as H.
    destruct (ui.Update_mouse w m (tea.MouseMsg X Y Action Button) X Y Action Button)
      as [[m1 log1] c]. exact H.
  - destruct (ui.isSome (ui.sequenceOverlay m)),
      (ui.Active (ui.overlay_HandleTimeout w)); settled_leaf.
Qed.

Lemma Update_broadcast_model (w : ui.World) (m : ui.Model) (log : list tea.Call)
  (cmds : list tea.Cmd) (msg : tea.Msg) :
  fst (fst (ui.Update_broadcast w m log cmds msg)) =
    (if ui.isSome (ui.scriptRunner m) && ui.runner_Done w msg
     then ui.with_scriptRunner m None else m).
Proof.
  unfold ui.Update_broadcast.
  destruct (ui.isSome (ui.stacked m)), (ui.isSome (ui.scriptRunner m));
    try destruct (ui.runner_HandleMsg w msg); try destruct (ui.runner_Done w msg);
    cbn [ui.oplog ui.with_scriptRunner ui.previewModel andb];
    destruct (ui.isSome (ui.oplog m)), (ui.Visible (ui.previewModel m)); reflexivity.
Qed.

Lemma handleFocusInputMessage_settled (w : ui.World) (m : ui.Model) (msg : tea.Msg) :
  spec.settled m (fst (fst (fst (ui.handleFocusInputMessage w m msg)))).
Proof.
  unfold ui.handleFocusInputMessage, ui.deliver.
  destruct msg;
    repeat match goal with
           | |- context [if ?c then _ else _] => destruct c
           end; settled_leaf.
Qed.

Lemma Update_settled (w : ui.World) (m : ui.Model) (msg : tea.Msg) :
  spec.settled m (fst (fst (ui.Update w m msg))).
Proof.
  unfold ui.Update.
  pose proof (handleFocusInputMessage_cases w m msg) as Hc.
  pose proof (handleFocusInputMessage_settled w m msg) as Hs.
  destruct (ui.handleFocusInputMessage w m msg) as [[[m0 log0] c0] handled].
  destruct handled; [exact Hs|].
  destruct (proj2 Hc eq_refl) as [-> ->].
  pose proof (settled_Update_switch w m msg) as Hf.
  destruct (ui.Update_switch w m msg) as [[[m1 log1] c]|m1 log1 cmds]; cbn [ui.Update_finish].
  - exact Hf.
  - rewrite Update_broadcast_model. cbn in Hf.
    destruct (ui.isSome (ui.scriptRunner m1) && ui.runner_Done w msg); [|exact Hf].
    eapply settled_trans; [exact Hf|]. settled_leaf.
Qed.

(** In every state that the router can come to from [NewUI], whatever the
    messages, whatever the collaborators answer and whatever is written
    into the shared context meanwhile: the state is not the error state,
    the key map is the one it was built with, and the drag target is none
    or one of the four views that take mouse input. *)
Theorem reachable_states_are_settled
  (c : context.MainContext) (km : config.KeyMappings) (p : ui.Preview) (m : ui.Model)
  (Hreach : spec.reachable c km p m) :
  ui.state m <> ui.Error /\
  ui.keyMap m = km /\
  (forall v, ui.dragTarget m = Some v -> spec.is_view v).
Proof.
  induction Hreach as [|w m msg Hreach IH|m shared Hreach IH].
  - cbn. repeat split; try reflexivity; try discriminate.
  - destruct IH as (Hst & Hkm & Hdrag).
    destruct (Update_settled w m msg) as (A1 & _ & _ & _ & _ & _ & A7 & A8).
    repeat split; try congruence.
    + intros H. apply Hst. auto.
    + intros v Hv. destruct A8 as [A8|[A8|(v' & A8 & Hview)]].
      * apply Hdrag. congruence.
      * congruence.
      * congruence.
  - exact IH.
Qed.

Lemma reachable_states_are_settled_witness :
  let m := fst (fst (ui.Update examples.quiet
                       (ui.NewUI examples.ctx examples.keyMap
                          {| ui.Visible := false; ui.AutoPosition := true; ui.AtBottom := false |})
                       (tea.WindowSizeMsg 80 24))) in
  ui.state m <> ui.Error /\ ui.keyMap m = examples.keyMap.
Proof.
  cbv zeta.
  pose proof (reachable_states_are_settled examples.ctx examples.keyMap
                {| ui.Visible := false; ui.AutoPosition := true; ui.AtBottom := false |} _
                (spec.reach_step _ _ _ examples.quiet _ (tea.WindowSizeMsg 80 24)
                   (spec.reach_new _ _ _))) as H.
  split; [exact (proj1 H)|exact (proj1 (proj2 H))].
Defined.

(** ** Who gets a message *)

(** While leader mode is on, every message other than a close event goes to
    the leader and to nobody else, and the router's state stays as it
    is. *)
Theorem leader_takes_every_message (w : ui.World) (m : ui.Model) (msg : tea.Msg)
  (Hleader : ui.isSome (ui.leader m) = true) (Hmsg : msg <> tea.CloseViewMsg) :
  ui.Update w m msg =
    (m, [tea.CUpdate tea.SLeader msg], tea.Returned (tea.CUpdate tea.SLeader msg)).
Proof.
  unfold ui.Update, ui.handleFocusInputMessage.
  destruct msg; try contradiction; rewrite Hleader; reflexivity.
Qed.

Lemma leader_takes_every_message_witness :
  let m := ui.with_leader examples.idle (Some ui.leader_New) in
  ui.Update examples.quiet m (tea.WindowSizeMsg 100 30) =
    (m, [tea.CUpdate tea.SLeader (tea.WindowSizeMsg 100 30)],
     tea.Returned (tea.CUpdate tea.SLeader (tea.WindowSizeMsg 100 30))).
Proof.
  exact (leader_takes_every_message examples.quiet
           (ui.with_leader examples.idle (Some ui.leader_New))
           (tea.WindowSizeMsg 100 30) eq_refl ltac:(discriminate)).
Defined.

(** While a stacked modal is open, a key press is handed to exactly one
    sub-model and the router's own bindings and the chord matcher are not
    tried: the modal stays open, and nothing but the loading state (for a
    key that the revset editor takes) changes. *)
Theorem open_modal_keeps_keys_from_the_bindings (w : ui.World) (m : ui.Model) (k : key.KeyMsg)
  (Hmodal : ui.isSome (ui.stacked m) = true) :
  exists s,
    In s [tea.SLeader; tea.SPassword; tea.SDiff; tea.SRevset; tea.SStatus; tea.SRevisions;
          tea.SStacked] /\
    ui.Update w m (tea.KeyMsg k) =
      (match s with tea.SRevset => ui.with_state m ui.Loading | _ => m end,
       [tea.CUpdate s (tea.KeyMsg k)], tea.Returned (tea.CUpdate s (tea.KeyMsg k))).
Proof.
  unfold ui.Update, ui.handleFocusInputMessage, ui.deliver.
  destruct (ui.isSome (ui.leader m)); [exists tea.SLeader; cbn; auto|].
  destruct (ui.isSome (ui.password m)); [exists tea.SPassword; cbn; auto|].
  destruct (ui.isSome (ui.diff m)); [exists tea.SDiff; cbn; auto|].
  destruct (ui.revset_Editing w); [exists tea.SRevset; cbn; auto 6|].
  destruct (ui.status_IsFocused w); [exists tea.SStatus; cbn; auto 7|].
  destruct (ui.revisions_IsEditing w); [exists tea.SRevisions; cbn; auto 8|].
  rewrite Hmodal. exists tea.SStacked. cbn. auto 9.
Qed.

Lemma open_modal_keeps_keys_from_the_bindings_witness :
  exists s,
    In s [tea.SLeader; tea.SPassword; tea.SDiff; tea.SRevset; tea.SStatus; tea.SRevisions;
          tea.SStacked] /\
    ui.Update examples.quiet (ui.with_stacked examples.idle (Some ui.UndoModel)) (tea.KeyMsg "esc") =
      (match s with
       | tea.SRevset => ui.with_state (ui.with_stacked examples.idle (Some ui.UndoModel)) ui.Loading
       | _ => ui.with_stacked examples.idle (Some ui.UndoModel)
       end,
       [tea.CUpdate s (tea.KeyMsg "esc")], tea.Returned (tea.CUpdate s (tea.KeyMsg "esc"))).
Proof.
  exact (open_modal_keeps_keys_from_the_bindings examples.quiet
           (ui.with_stacked examples.idle (Some ui.UndoModel)) "esc" eq_refl).
Defined.

(** The step that a key press takes when no surface captures keys. *)
Lemma free_key_step (w : ui.World) (m : ui.Model) (k : key.KeyMsg) :
  spec.keys_free w m ->
  let res := ui.overlay_HandleKey w k in
  let idle := ui.with_sequenceOverlay m None in
  let collecting := ui.with_sequenceOverlay m (Some ui.NewSequenceOverlay) in
  let msg := tea.KeyMsg k in
  match ui.sequenceOverlay m with
  | None =>
      if ui.shouldStartSequenceOverlay m k then
        if ui.Active res then
          ui.Update w m msg = (collecting, [tea.CHandleKey k], ui.foreign (ui.Cmd res))
        else
          match ui.Cmd res with
          | Some f => ui.Update w m msg = (idle, [tea.CHandleKey k], tea.Foreign f)
          | None =>
              ui.Update w m msg =
                ui.Update_finish w msg [] (ui.Update_bindings w idle [tea.CHandleKey k] k)
          end
      else
        ui.Update w m msg = ui.Update_finish w msg [] (ui.Update_bindings w m [] k)
  | Some _ =>
      ui.Update w m msg =
        ((if ui.Active res then m else idle), [tea.CHandleKey k], ui.foreign (ui.Cmd res))
  end.
Proof.
  intros [Hleader Hfree]. cbv zeta. unfold ui.Update.
  rewrite (unclaimed_key w m k Hleader Hfree).
  cbn [ui.Update_switch]. unfold ui.Update_key, ui.handleCustomCommandSequence,
    ui.ensureSequenceOverlay.
  destruct (ui.sequenceOverlay m) as [o|] eqn:Eo; cbn [ui.isSome].
  - cbn [negb]. destruct (ui.Active (ui.overlay_HandleKey w k)); cbn [negb].
    + rewrite Eo. cbn [ui.isSome]. rewrite orb_true_r. reflexivity.
    + cbn [ui.with_sequenceOverlay ui.sequenceOverlay ui.isSome].
      destruct (ui.Cmd (ui.overlay_HandleKey w k)); reflexivity.
  - destruct (ui.shouldStartSequenceOverlay m k); cbn [negb].
    + destruct (ui.Active (ui.overlay_HandleKey w k)); cbn [negb].
      * cbn [ui.with_sequenceOverlay ui.sequenceOverlay ui.isSome].
        rewrite orb_true_r. reflexivity.
      * cbn [ui.with_sequenceOverlay ui.sequenceOverlay ui.isSome].
        destruct (ui.Cmd (ui.overlay_HandleKey w k)); reflexivity.
    + rewrite Eo. reflexivity.
Qed.






(** ** Custom commands *)

(** The matcher is started by a key exactly when some custom command of the
    context has a non-empty chord sequence, applies to the selected item
    and has the key as its first chord; commands without a sequence never
    start it. *)
Theorem shouldStartSequenceOverlay_iff (m : ui.Model) (k : key.KeyMsg) :
  ui.shouldStartSequenceOverlay m k = true <->
  exists command,
    In command (context.CustomCommands (ui.context m)) /\
    spec.opens_chord (context.SelectedItem (ui.context m)) k command.
Proof.
  unfold ui.shouldStartSequenceOverlay, spec.opens_chord.
  generalize (context.SelectedItem (ui.context m)) as item.
  generalize (context.CustomCommands (ui.context m)) as commands.
  induction commands as [|command rest IH]; intros item; cbn [ui.shouldStart_loop].
  - split; [discriminate|intros (c & [] & _)].
  - destruct (context.Sequence command) as [|first more] eqn:Eseq.
    + rewrite IH. split.
      * intros (c & Hin & Hc). exists c. split; [now right|exact Hc].
      * intros (c & [<-|Hin] & first & more & Hs & Hc).
        -- congruence.
        -- exists c. split; [exact Hin|]. now exists first, more.
    + destruct (context.IsApplicableTo command item) eqn:Eapp; cbn [negb].
      * destruct (key.Matches k [first]) eqn:Ematch.
        -- split; [|reflexivity]. intros _. exists command. split; [now left|].
           now exists first, more.
        -- rewrite IH. split.
           ++ intros (c & Hin & Hc). exists c. split; [now right|exact Hc].
           ++ intros (c & [<-|Hin] & f & r & Hs & Ha & Hm).
              ** rewrite Eseq in Hs. injection Hs as <- <-. congruence.
              ** exists c. split; [exact Hin|]. now exists f, r.
      * rewrite IH. split.
        -- intros (c & Hin & Hc). exists c. split; [now right|exact Hc].
        -- intros (c & [<-|Hin] & f & r & Hs & Ha & Hm).
           ++ congruence.
           ++ exists c. split; [exact Hin|]. now exists f, r.
Qed.

(** The default case of the key switch prepares the first custom command,
    in the order in which they are listed, that applies to the selected item
    and whose binding matches the key; it finds none exactly when no
    command of the list does both. *)
Theorem customCommand_loop_first_match (item : context.Item) (k : key.KeyMsg)
  (commands : list context.CustomCommand) :
  match ui.customCommand_loop item k commands with
  | Some c =>
      exists before command after,
        commands = before ++ command :: after /\
        (forall b, In b before -> ~ spec.bound_to item k b) /\
        spec.bound_to item k command /\
        c = tea.Prepare (context.Name command)
  | None => forall command, In command commands -> ~ spec.bound_to item k command
  end.
Proof.
  unfold spec.bound_to.
  induction commands as [|command rest IH]; cbn [ui.customCommand_loop].
  - intros c [].
  - destruct (context.IsApplicableTo command item) eqn:Eapp; cbn [negb].
    + destruct (key.Matches k [context.Binding command]) eqn:Ematch.
      * exists [], command, rest. repeat split; auto; intros b [].
      * destruct (ui.customCommand_loop item k rest) as [c|].
        -- destruct IH as (before & c0 & after & -> & Hb & Hc & ->).
           exists (command :: before), c0, after. repeat split; try apply Hc.
           intros b [<-|Hin]; [intros [_ H]; congruence|now apply Hb].
        -- intros c [<-|Hin]; [intros [_ H]; congruence|now apply IH].
    + destruct (ui.customCommand_loop item k rest) as [c|].
      * destruct IH as (before & c0 & after & -> & Hb & Hc & ->).
        exists (command :: before), c0, after. repeat split; try apply Hc.
        intros b [<-|Hin]; [intros [H _]; congruence|now apply Hb].
      * intros c [<-|Hin]; [intros [H _]; congruence|now apply IH].
Qed.

(** ** Messages with a case of their own *)

(** A sequence timeout that finds the matcher idle does nothing at all: no
    call, no command, no change, and it is not broadcast.  One that finds
    it collecting asks the matcher once, lets the matcher go back to idle
    exactly when it answers inactive, and is not broadcast either. *)
Theorem sequence_timeout_asks_only_a_collecting_matcher (w : ui.World) (m : ui.Model)
  (Hleader : ui.leader m = None) :
  ui.Update w m tea.SequenceTimeoutMsg =
    match ui.sequenceOverlay m with
    | None => (m, [], tea.Nil)
    | Some _ =>
        ((if ui.Active (ui.overlay_HandleTimeout w) then m else ui.with_sequenceOverlay m None),
         [tea.CHandleTimeout], ui.foreign (ui.Cmd (ui.overlay_HandleTimeout w)))
    end.
Proof.
  unfold ui.Update, ui.handleFocusInputMessage. rewrite Hleader. cbn.
  destruct (ui.sequenceOverlay m); cbn; [|reflexivity].
  destruct (ui.Active (ui.overlay_HandleTimeout w)); reflexivity.
Qed.

Lemma sequence_timeout_asks_only_a_collecting_matcher_witness :
  ui.Update examples.quiet examples.idle tea.SequenceTimeoutMsg = (examples.idle, [], tea.Nil).
Proof.
  exact (sequence_timeout_asks_only_a_collecting_matcher examples.quiet examples.idle eq_refl).
Defined.

(** A new revset becomes the current one, except that the empty revset
    stands for the default revset; the value that becomes current is the
    one added to the history, a refresh is asked for, and nothing else of
    the state changes. *)
Theorem UpdateRevSet_falls_back_to_default (w : ui.World) (m : ui.Model) (revset : string)
  (Hleader : ui.leader m = None) :
  let current := if String.eqb revset EmptyString
                 then context.DefaultRevset (ui.context m) else revset in
  ui.Update w m (tea.UpdateRevSetMsg revset) =
    (ui.with_context m (context.with_CurrentRevset (ui.context m) current),
     [tea.CAddToHistory current], tea.Refresh) /\
  (revset <> EmptyString -> current = revset) /\
  (current = EmptyString -> context.DefaultRevset (ui.context m) = EmptyString).
Proof.
  cbv zeta. unfold ui.Update, ui.handleFocusInputMessage. rewrite Hleader. cbn.
  repeat split.
  - intros Hne. destruct (String.eqb_spec revset EmptyString); [contradiction|reflexivity].
  - destruct (String.eqb_spec revset EmptyString); [auto|contradiction].
Qed.

Lemma UpdateRevSet_falls_back_to_default_witness :
  context.CurrentRevset
    (ui.context (fst (fst (ui.Update examples.quiet examples.idle
                             (tea.UpdateRevSetMsg EmptyString))))) = "all()".
Proof.
  rewrite (proj1 (UpdateRevSet_falls_back_to_default examples.quiet examples.idle EmptyString
                    eq_refl)).
  reflexivity.
Defined.

Lemma Update_broadcast_eq (w : ui.World) (m : ui.Model) (log : list tea.Call)
  (cmds : list tea.Cmd) (msg : tea.Msg) :
  ui.Update_broadcast w m log cmds msg =
    (spec.after_broadcast w m msg, log ++ spec.broadcast_calls m msg,
     tea.Batch (cmds ++ spec.broadcast_cmds w m msg)).
Proof.
  unfold ui.Update_broadcast, spec.after_broadcast, spec.broadcast_calls, spec.broadcast_cmds.
  destruct (ui.isSome (ui.stacked m)), (ui.isSome (ui.scriptRunner m));
    try destruct (ui.runner_HandleMsg w msg); try destruct (ui.runner_Done w msg);
    cbn [ui.oplog ui.with_scriptRunner ui.previewModel andb];
    destruct (ui.isSome (ui.oplog m)), (ui.Visible (ui.previewModel m));
    cbn [app]; rewrite <- ?app_assoc; reflexivity.
Qed.

(** A password message with no channel closes the prompt and one with a
    channel puts up a new prompt in place of whatever was there; a prompt
    that was up is handed the message first.  The message then goes on to
    every listener. *)
Theorem TogglePassword_replaces_the_prompt (w : ui.World) (m : ui.Model)
  (ch : option nat) (prompt : string) (Hleader : ui.leader m = None) :
  let msg := tea.TogglePasswordMsg ch prompt in
  let m1 := ui.with_password m (option_map (fun c => ui.password_New c prompt) ch) in
  ui.Update w m msg =
    (spec.after_broadcast w m1 msg,
     (if ui.isSome (ui.password m) then [tea.CUpdate tea.SPassword msg] else [])
       ++ spec.broadcast_calls m msg,
     tea.Batch (spec.broadcast_cmds w m msg)).
Proof.
  cbv zeta. unfold ui.Update, ui.handleFocusInputMessage. rewrite Hleader. cbn [ui.isSome].
  cbn [ui.Update_switch]. destruct ch; cbn [ui.Update_finish option_map app];
    rewrite Update_broadcast_eq; reflexivity.
Qed.

Lemma TogglePassword_replaces_the_prompt_witness :
  let m := ui.with_password examples.idle (Some (ui.password_New 0%nat "Confirm presence")) in
  let msg := tea.TogglePasswordMsg (Some 1%nat) "Enter PIN" in
  ui.password (fst (fst (ui.Update examples.quiet m msg)))
    = Some (ui.password_New 1%nat "Enter PIN") /\
  hd_error (snd (fst (ui.Update examples.quiet m msg))) = Some (tea.CUpdate tea.SPassword msg).
Proof.
  cbv zeta.
  rewrite (TogglePassword_replaces_the_prompt examples.quiet
             (ui.with_password examples.idle (Some (ui.password_New 0%nat "Confirm presence")))
             (Some 1%nat) "Enter PIN" eq_refl).
  split; reflexivity.
Defined.

(** A message of a type that has no case of its own goes to the revset
    editor, the status bar and the flash queue, then to the stacked modal if
    one is open, then to the script runner if one is running, then to the
    op log when it is open and to the revisions view when it is not, then
    to the preview pane if it is visible; a script runner that then reports
    done is let go, and nothing else changes. *)
Theorem unlisted_message_reaches_every_listener (w : ui.World) (m : ui.Model) (tag : string)
  (Hleader : ui.leader m = None) :
  let msg := tea.OtherMsg tag in
  ui.Update w m msg =
    (spec.after_broadcast w m msg, spec.broadcast_calls m msg,
     tea.Batch (spec.broadcast_cmds w m msg)).
Proof.
  cbv zeta. unfold ui.Update, ui.handleFocusInputMessage. rewrite Hleader. cbn [ui.isSome].
  cbn [ui.Update_switch ui.Update_finish app]. apply Update_broadcast_eq.
Qed.

Lemma unlisted_message_reaches_every_listener_witness :
  let m := ui.with_oplog examples.idle (Some ui.oplog_New) in
  snd (fst (ui.Update examples.quiet m (tea.OtherMsg "tick"))) =
    [tea.CUpdate tea.SRevset (tea.OtherMsg "tick"); tea.CUpdate tea.SStatus (tea.OtherMsg "tick");
     tea.CUpdate tea.SFlash (tea.OtherMsg "tick"); tea.CUpdate tea.SOplog (tea.OtherMsg "tick")].
Proof.
  cbv zeta.
  rewrite (unlisted_message_reaches_every_listener examples.quiet
             (ui.with_oplog examples.idle (Some ui.oplog_New)) "tick" eq_refl).
  reflexivity.
Defined.

(** Starting a script: when the engine reports an error the router keeps
    the runner it had and hands back a completion message carrying the
    error; otherwise the command is the script's own and the runner slot
    holds the new runner, unless there is none or it has no command and is
    done already, in which case the slot is empty. *)
Theorem RunLuaScript_keeps_only_a_live_runner (w : ui.World) (m : ui.Model) (script : string)
  (Hleader : ui.leader m = None) :
  let r := ui.scripting_RunScript w script in
  let m' := fst (fst (ui.Update w m (tea.RunLuaScriptMsg script))) in
  let c := snd (ui.Update w m (tea.RunLuaScriptMsg script)) in
  snd (fst (ui.Update w m (tea.RunLuaScriptMsg script))) = [tea.CRunScript script] /\
  match ui.err r with
  | Some e => m' = m /\ c = tea.Emit (tea.CommandCompletedMsg EmptyString (Some e))
  | None =>
      c = ui.foreign (ui.cmd r) /\
      m' = ui.with_scriptRunner m (ui.scriptRunner m') /\
      (ui.scriptRunner m' = None \/ ui.scriptRunner m' = ui.runner r) /\
      (ui.scriptRunner m' = None <->
         ui.runner r = None \/ (ui.cmd r = None /\ ui.Done r = true))
  end.
Proof.
  cbv zeta. unfold ui.Update, ui.handleFocusInputMessage. rewrite Hleader. cbn [ui.isSome].
  cbn [ui.Update_switch].
  destruct (ui.err (ui.scripting_RunScript w script)); cbn; [repeat split|].
  split; [reflexivity|]. split; [reflexivity|]. split; [reflexivity|].
  destruct (ui.cmd (ui.scripting_RunScript w script)),
    (ui.runner (ui.scripting_RunScript w script)),
    (ui.Done (ui.scripting_RunScript w script)); cbn;
    (split; [auto|]); split; intros H; try discriminate; auto;
    try (destruct H as [H|[H1 H2]]; discriminate).
Qed.

Lemma RunLuaScript_keeps_only_a_live_runner_witness :
  ui.scriptRunner (fst (fst (ui.Update examples.quiet examples.idle
                               (tea.RunLuaScriptMsg "flash('hi')")))) = None.
Proof.
  apply (proj2 (proj2 (proj2 (proj2 (RunLuaScript_keeps_only_a_live_runner examples.quiet
                                       examples.idle "flash('hi')" eq_refl))))).
  left. reflexivity.
Defined.

(** The help toggle closes whatever stacked modal is open, the help page or
    any other, and opens the help page when none is; it calls nobody and is
    not broadcast.  From a state with no modal, two toggles in a row lead
    back to that state. *)
Theorem ToggleHelp_closes_any_modal (w : ui.World) (m : ui.Model)
  (Hleader : ui.leader m = None) :
  ui.Update w m tea.ToggleHelpMsg =
    (ui.with_stacked m (if ui.isSome (ui.stacked m) then None else Some ui.HelpPage),
     [], tea.Nil) /\
  (forall w', ui.stacked m = None ->
     fst (fst (ui.Update w' (fst (fst (ui.Update w m tea.ToggleHelpMsg))) tea.ToggleHelpMsg))
       = m).
Proof.
  assert (Hstep : forall w0 m0, ui.leader m0 = None ->
            ui.Update w0 m0 tea.ToggleHelpMsg =
              (ui.with_stacked m0 (if ui.isSome (ui.stacked m0) then None else Some ui.HelpPage),
               [], tea.Nil)).
  { intros w0 m0 H0. unfold ui.Update, ui.handleFocusInputMessage. rewrite H0. cbn.
    destruct (ui.isSome (ui.stacked m0)); reflexivity. }
  split; [now apply Hstep|].
  intros w' Hnone. rewrite (Hstep w m Hleader), Hnone. cbn [fst ui.isSome].
  rewrite Hstep by exact Hleader. cbn. destruct m; cbn in *. now rewrite Hnone.
Qed.

Lemma ToggleHelp_closes_any_modal_witness :
  ui.stacked (fst (fst (ui.Update examples.quiet
                          (ui.with_stacked examples.idle (Some ui.UndoModel))
                          tea.ToggleHelpMsg))) = None /\
  fst (fst (ui.Update examples.quiet
              (fst (fst (ui.Update examples.quiet examples.idle tea.ToggleHelpMsg)))
              tea.ToggleHelpMsg)) = examples.idle.
Proof.
  split.
  - rewrite (proj1 (ToggleHelp_closes_any_modal examples.quiet
                      (ui.with_stacked examples.idle (Some ui.UndoModel)) eq_refl)).
    reflexivity.
  - exact (proj2 (ToggleHelp_closes_any_modal examples.quiet examples.idle eq_refl)
             examples.quiet eq_refl).
Defined.

(** ** The preview pane *)

Lemma Matches_cons (k : key.KeyMsg) (b : key.Binding) (bs : list key.Binding) :
  key.Matches k (b :: bs) = key.matches1 k b || key.Matches k bs.
Proof. reflexivity. Qed.

(** The key that moves the preview to the other side, pressed while nothing
    captures keys and it opens no chord: the pane ends up visible, on the
    other side and pinned, the selection is announced only if the pane had
    been hidden, and nobody is called.  The automatic placement leaves a
    pane alone that has been pinned this way. *)
Theorem toggle_bottom_pins_the_preview (w : ui.World) (m : ui.Model) (k : key.KeyMsg)
  (Hfree : spec.keys_free w m) (Hidle : ui.sequenceOverlay m = None)
  (Hchord : ui.shouldStartSequenceOverlay m k = false)
  (Hreach : spec.reaches_preview_case w m k)
  (Htoggle : key.Matches k [config.Preview_ToggleBottom (ui.keyMap m)] = true) :
  let p := ui.previewModel m in
  let p' := {| ui.Visible := true; ui.AutoPosition := false;
               ui.AtBottom := negb (ui.AtBottom p) |} in
  ui.Update w m (tea.KeyMsg k) =
    (ui.with_previewModel m p', [],
     tea.Batch (if ui.Visible p then [] else [tea.SelectionChanged])) /\
  ui.UpdatePreviewPosition (ui.with_previewModel m p') = ui.with_previewModel m p'.
Proof.
  cbv zeta. split; [|reflexivity].
  pose proof (free_key_step w m k Hfree) as Hstep. cbv zeta in Hstep.
  rewrite Hidle, Hchord in Hstep. rewrite Hstep.
  destruct Hreach as (Hc & Hq & Ho & Hr & Hg & Hu & Hre & Hb & Hh).
  unfold ui.Update_bindings. cbv zeta.
  rewrite Hc, Hq, Ho, Hr, Hg, Hu, Hre, Hb, Hh. cbn [andb].
  rewrite Matches_cons, Htoggle, orb_true_r.
  unfold ui.SetPosition, ui.ToggleVisible, ui.SetVisible. cbn [ui.Visible ui.AutoPosition ui.AtBottom].
  destruct (ui.Visible (ui.previewModel m)) eqn:Ev; reflexivity.
Qed.

Lemma toggle_bottom_pins_the_preview_witness :
  ui.Update examples.quiet examples.idle (tea.KeyMsg "P") =
    (ui.with_previewModel examples.idle
       {| ui.Visible := true; ui.AutoPosition := false; ui.AtBottom := true |},
     [], tea.Batch [tea.SelectionChanged]).
Proof.
  apply (proj1 (toggle_bottom_pins_the_preview examples.quiet examples.idle "P"
                  (conj eq_refl eq_refl) eq_refl eq_refl
                  ltac:(repeat split; reflexivity) eq_refl)).
Defined.

(** Placing the preview automatically twice is the same as placing it once,
    so running the placement on every frame is harmless. *)
Theorem UpdatePreviewPosition_idempotent (m : ui.Model) :
  ui.UpdatePreviewPosition (ui.UpdatePreviewPosition m) = ui.UpdatePreviewPosition m.
Proof.
  unfold ui.UpdatePreviewPosition.
  destruct (ui.AutoPosition (ui.previewModel m)) eqn:Ea; cbn; [reflexivity|].
  now rewrite Ea.
Qed.

(** ** The first frame *)

(** A fresh wrapper draws nothing until its first frame tick: whatever
    events it is fed before, [View] returns the empty string and does not
    run [Model.View].  Once a frame tick has come, the next [View] runs
    [Model.View] on the router's state of that moment, returns its text and
    is then no longer due to render. *)
Theorem nothing_is_drawn_before_the_first_tick
  (View : ui.Model -> ui.Model * string)
  (c : context.MainContext) (km : config.KeyMappings) (p : ui.Preview)
  (events : list (ui.World * tea.Msg))
  (Hnotick : forall e, In e events -> spec.is_frame_tick (snd e) = false) :
  let wr := spec.wrapper_run (ui.New c km p) events in
  ui.wrapper_View View wr = (wr, EmptyString) /\
  (forall w,
     let ticked := fst (fst (ui.wrapper_Update w wr tea.frameTickMsg)) in
     snd (ui.wrapper_View View ticked) = snd (View (ui.ui wr)) /\
     ui.ui (fst (ui.wrapper_View View ticked)) = fst (View (ui.ui wr)) /\
     ui.render (fst (ui.wrapper_View View ticked)) = false).
Proof.
  cbv zeta.
  destruct (wrapper_run_keeps_cache events (ui.New c km p) Hnotick) as [Hr Hc].
  cbn [ui.New ui.render ui.cachedFrame] in Hr, Hc.
  split.
  - unfold ui.wrapper_View. rewrite Hr, Hc. reflexivity.
  - intros w. unfold ui.wrapper_View. cbn.
    destruct (View (ui.ui (spec.wrapper_run (ui.New c km p) events))) as [ui1 frame].
    repeat split.
Qed.

Lemma nothing_is_drawn_before_the_first_tick_witness :
  snd (ui.wrapper_View examples.Model_View
         (spec.wrapper_run
            (ui.New examples.ctx examples.keyMap (ui.previewModel examples.idle))
            [(examples.quiet, tea.WindowSizeMsg 80 24); (examples.quiet, tea.KeyMsg "j")]))
    = EmptyString.
Proof.
  rewrite (proj1 (nothing_is_drawn_before_the_first_tick examples.Model_View
                    examples.ctx examples.keyMap (ui.previewModel examples.idle)
                    [(examples.quiet, tea.WindowSizeMsg 80 24); (examples.quiet, tea.KeyMsg "j")]
                    ltac:(intros e [<-|[<-|[]]]; reflexivity))).
  reflexivity.
Defined.

(** ** The details operation *)

Lemma set_selected_at_identity (fs : list details.item) (n : nat) (v : bool) :
  map spec.file_identity (details.set_selected_at fs n v) = map spec.file_identity fs.
Proof.
  revert n. induction fs as [|f fs IH]; intros [|n]; cbn; try reflexivity.
  now rewrite IH.
Qed.

Lemma set_selected_at_other (fs : list details.item) (n i : nat) (v : bool) :
  i <> n -> nth_error (details.set_selected_at fs n v) i = nth_error fs i.
Proof.
  revert n i. induction fs as [|f fs IH]; intros [|n] [|i] Hne; cbn; try reflexivity.
  - contradiction.
  - apply IH. congruence.
Qed.

Lemma filter_set_selected (fs : list details.item) (n : nat) (it : details.item) :
  spec.none_selected fs -> nth_error fs n = Some it ->
  filter details.selected (details.set_selected_at fs n true) = [details.with_selected it true].
Proof.
  revert n. induction fs as [|f fs IH]; intros [|n] Hnone Hn; cbn in *; try discriminate.
  - injection Hn as ->. f_equal. apply none_selected_filter.
    intros g Hg. apply Hnone. now right.
  - rewrite (Hnone f (or_introl eq_refl)). apply IH; [|exact Hn].
    intros g Hg. apply Hnone. now right.
Qed.

Lemma files_cursorUp (l : details.DetailsList) :
  details.files (details.cursorUp l) = details.files l.
Proof. unfold details.cursorUp. now destruct (0 <? details.cursor l). Qed.

Lemma files_cursorDown (l : details.DetailsList) :
  details.files (details.cursorDown l) = details.files l.
Proof.
  unfold details.cursorDown.
  now destruct (details.cursor l <? Z.of_nat (List.length (details.files l)) - 1).
Qed.

(** Whatever message the details operation handles, the rows of its file
    list stay the same files in the same order: only selection marks can
    change, and only the mark of the row under the cursor.  The revision
    and the key map stay too, and while a confirmation is open the key
    goes to the confirmation and none of the operation's own fields
    changes. *)
Theorem internalUpdate_keeps_the_rows (Current : config.Config) (s s' : details.Operation)
  (msg : tea.Msg) (c : tea.Cmd)
  (Hok : details.internalUpdate Current s msg = Ok (s', c)) :
  map spec.file_identity (details.files (details.list_ s'))
    = map spec.file_identity (details.files (details.list_ s)) /\
  (forall i, i <> Z.to_nat (details.cursor (details.list_ s)) ->
     nth_error (details.files (details.list_ s')) i
       = nth_error (details.files (details.list_ s)) i) /\
  details.revision s' = details.revision s /\
  details.keyMap s' = details.keyMap s /\
  (details.confirmation s <> None -> s' = s).
Proof.
  unfold details.internalUpdate in Hok.
  destruct msg; try (injection Hok as <- <-; repeat split; reflexivity).
  destruct (details.confirmation s) eqn:Ec;
    [injection Hok as <- <-; repeat split; reflexivity|].
  cbv zeta in Hok.
  repeat match type of Hok with
         | (if ?b then _ else _) = _ => destruct b eqn:?
         | match ?x with Some _ => _ | None => _ end = _ => destruct x eqn:?
         | match ?x with config.ShowOptionDiff => _ | config.ShowOptionInteractive => _ end = _ =>
             destruct x eqn:?
         | bind ?r _ = _ => destruct r eqn:?; cbn [bind] in Hok
         end;
    try discriminate Hok; injection Hok as <- <-;
    cbn [details.list_ details.with_list details.with_context details.with_confirmation
         details.with_hints details.with_files details.files details.revision details.keyMap];
    rewrite ?files_cursorUp, ?files_cursorDown; cbn [details.files details.with_files];
    rewrite ?set_selected_at_identity;
    (split; [reflexivity|]); (split; [|repeat split; congruence]);
    intros row Hrow; try reflexivity.
  now apply set_selected_at_other.
Qed.

Lemma internalUpdate_keeps_the_rows_witness :
  let s := examples.details_of [examples.file "a.go" false; examples.file "b.go" false] 0 in
  exists s',
    details.internalUpdate examples.Current s (tea.KeyMsg "m") = Ok (s', tea.Nil) /\
    map details.fileName (details.files (details.list_ s')) = ["a.go"; "b.go"] /\
    map details.selected (details.files (details.list_ s')) = [true; false].
Proof.
  cbv zeta. eexists. split; [reflexivity|]. split; [|reflexivity].
  pose proof (proj1 (internalUpdate_keeps_the_rows examples.Current
                       (examples.details_of
                          [examples.file "a.go" false; examples.file "b.go" false] 0)
                       _ (tea.KeyMsg "m") tea.Nil eq_refl)) as Hrows.
  apply (f_equal (map (fun x => snd (fst x)))) in Hrows.
  rewrite !map_map in Hrows. exact Hrows.
Defined.



Lemma current_nth (l : details.DetailsList) (it : details.item) :
  details.current l = Some it ->
  nth_error (details.files l) (Z.to_nat (details.cursor l)) = Some it.
Proof.
  unfold details.current. destruct (details.cursor l <? 0); [discriminate|auto].
Qed.

(** Marking the file under the cursor, when nothing was marked, selects
    exactly the file that virtual selection stood for: what
    [getSelectedFiles] reports afterwards without virtual selection is what
    it reported before with it, the one file under the cursor. *)
Theorem toggling_the_cursor_file_matches_virtual_selection
  (Current : config.Config) (s : details.Operation) (k : key.KeyMsg) (it : details.item)
  (Hconf : details.confirmation s = None)
  (Hreach : spec.reaches_toggle_case (details.keyMap s) k)
  (Htoggle : key.Matches k [config.Details_ToggleSelect (details.keyMap s)] = true)
  (Hnone : spec.none_selected (details.files (details.list_ s)))
  (Hcur : details.current (details.list_ s) = Some it) :
  exists s',
    details.internalUpdate Current s (tea.KeyMsg k) = Ok (s', tea.Nil) /\
    details.getSelectedFiles s' false = Ok [details.fileName it] /\
    details.getSelectedFiles s true = Ok [details.fileName it].
Proof.
  pose proof (current_nth _ _ Hcur) as Hnth.
  assert (Hin : In it (details.files (details.list_ s))) by (eapply nth_error_In; exact Hnth).
  assert (Hne : details.files (details.list_ s) <> []).
  { intros E. rewrite E in Hin. exact Hin. }
  destruct Hreach as (((((Hu & Hd & Hc & Hcl) & Hq & Hr & Hdiff) & Hsplit & Hsq) & Hres) & Habs).
  unfold details.internalUpdate.
  rewrite Hconf, Hu, Hd, Hc, Hcl, Hq, Hr, Hdiff, Hsplit, Hsq, Hres, Habs, Htoggle, Hcur.
  cbn [orb]. rewrite (Hnone it Hin). cbn [negb].
  eexists. split; [reflexivity|]. split; [|now apply getSelectedFiles_virtual].
  unfold details.getSelectedFiles.
  cbn [details.list_ details.with_list details.with_context]. rewrite files_cursorDown.
  cbn [details.files details.with_files].
  rewrite collectSelected_filter, (filter_set_selected _ _ it Hnone Hnth).
  destruct (details.set_selected_at (details.files (details.list_ s))
              (Z.to_nat (details.cursor (details.list_ s))) true) as [|g gs] eqn:Eset.
  - pose proof (filter_set_selected _ _ it Hnone Hnth) as Hf. rewrite Eset in Hf. discriminate.
  - reflexivity.
Qed.

Lemma toggling_the_cursor_file_matches_virtual_selection_witness :
  let s := examples.details_of [examples.file "a.go" false; examples.file "b.go" false] 1 in
  exists s',
    details.internalUpdate examples.Current s (tea.KeyMsg "m") = Ok (s', tea.Nil) /\
    details.getSelectedFiles s' false = Ok ["b.go"] /\
    details.getSelectedFiles s true = Ok ["b.go"].
Proof.
  apply (toggling_the_cursor_file_matches_virtual_selection examples.Current
           (examples.details_of [examples.file "a.go" false; examples.file "b.go" false] 1)
           "m" (examples.file "b.go" false) eq_refl).
  - repeat split; reflexivity.
  - reflexivity.
  - intros f [<-|[<-|[]]]; reflexivity.
  - reflexivity.
Defined.

(** With no file under the cursor and no confirmation open, the keys for
    showing a diff, for marking a file and for the revisions changing a
    file do nothing: the operation is unchanged and no command comes back.
    The restore key has no such guard and ends in a nil dereference. *)
Theorem without_a_file_under_the_cursor
  (Current : config.Config) (s : details.Operation) (k : key.KeyMsg)
  (Hconf : details.confirmation s = None)
  (Hcur : details.current (details.list_ s) = None) :
  let km := details.keyMap s in
  (spec.reaches_diff_case km k -> key.Matches k [config.Details_Diff km] = true ->
     details.internalUpdate Current s (tea.KeyMsg k) = Ok (s, tea.Nil)) /\
  (spec.reaches_toggle_case km k -> key.Matches k [config.Details_ToggleSelect km] = true ->
     details.internalUpdate Current s (tea.KeyMsg k) = Ok (s, tea.Nil)) /\
  (spec.reaches_changing_case km k ->
     key.Matches k [config.Details_RevisionsChangingFile km] = true ->
     details.internalUpdate Current s (tea.KeyMsg k) = Ok (s, tea.Nil)) /\
  (spec.reaches_restore_case km k -> key.Matches k [config.Details_Restore km] = true ->
     exists reason, details.internalUpdate Current s (tea.KeyMsg k) = Panic reason).
Proof.
  cbv zeta. unfold details.internalUpdate. rewrite Hconf. repeat apply conj.
  - intros ((Hu & Hd & Hc & Hcl) & Hq & Hr) Hdiff.
    rewrite Hu, Hd, Hc, Hcl, Hq, Hr, Hdiff, Hcur. reflexivity.
  - intros (((((Hu & Hd & Hc & Hcl) & Hq & Hr & Hdiff) & Hsplit & Hsq) & Hres) & Habs) Ht.
    rewrite Hu, Hd, Hc, Hcl, Hq, Hr, Hdiff, Hsplit, Hsq, Hres, Habs, Ht, Hcur. reflexivity.
  - intros ((((((Hu & Hd & Hc & Hcl) & Hq & Hr & Hdiff) & Hsplit & Hsq) & Hres) & Habs) & Ht) Hrc.
    rewrite Hu, Hd, Hc, Hcl, Hq, Hr, Hdiff, Hsplit, Hsq, Hres, Habs, Ht, Hrc, Hcur. reflexivity.
  - intros (((Hu & Hd & Hc & Hcl) & Hq & Hr & Hdiff) & Hsplit & Hsq) Hres.
    rewrite Hu, Hd, Hc, Hcl, Hq, Hr, Hdiff, Hsplit, Hsq, Hres. cbn [orb].
    destruct (details.getSelectedFiles s true) as [names|reason]; cbn [bind].
    + rewrite Hcur. eexists. reflexivity.
    + now exists reason.
Qed.

Lemma without_a_file_under_the_cursor_witness :
  details.internalUpdate examples.Current (examples.details_of [] 0) (tea.KeyMsg "d")
    = Ok (examples.details_of [] 0, tea.Nil) /\
  exists reason,
    details.internalUpdate examples.Current (examples.details_of [] 0) (tea.KeyMsg "r")
      = Panic reason.
Proof.
  split.
  - apply (proj1 (without_a_file_under_the_cursor examples.Current (examples.details_of [] 0)
                    "d" eq_refl eq_refl)).
    + repeat split; reflexivity.
    + reflexivity.
  - apply (proj2 (proj2 (proj2 (without_a_file_under_the_cursor examples.Current
                                  (examples.details_of [] 0) "r" eq_refl eq_refl)))).
    + repeat split; reflexivity.
    + reflexivity.
Defined.
